(** * Vangariwala: waste valuation, ledger and pickup-request engine

    A shallow embedding of the valuation helpers of [Utils]
    (src/app.js), the catalogue [CONFIG.WASTE_TYPES] (src/app.js),
    the session half of [Auth] (src/app.js) and the [Waste] module
    (src/waste.js), followed by the properties of the specification
    that can be stated over them.

    Conventions of the embedding.

    - The numbers of the program are IEEE 754 binary64 values.  The
      value calculator, the summary, the breakdown and the estimate
      are embedded over them ([Number], [Binary64]), operation for
      operation, and what these functions compute is stated there.
    - The session, the ledger and the queue are embedded over exact
      rationals ([Q]), with [Math.round] the rounding to the nearest
      integer, ties towards plus infinity, and results compared with
      [==].  Their properties are about which fields change, by which
      credit and in which order; the rational valuation they carry
      along is the program's wherever its products and sums are
      exact.
    - An object used as a map is the list of its own keys in
      insertion order; no key is the name of an inherited property.
    - [undefined] numeric fields of a user object are [None]; the
      idiom [x || 0] is [or0].
    - An ISO timestamp string is the number of milliseconds it
      denotes, which is what [new Date(s)] recovers from it.
    - [localStorage] is a record with one field per key the engine
      uses; [Utils.storage.set] is taken to succeed.
    - [Utils.generateId()] and [new Date()] are inputs of the
      operation that calls them.
    - A toast shown by an operation is returned as its outcome. *)

From Stdlib Require Import ZArith QArith Qround Lqa Lia.
From Stdlib Require Import List Ascii String Bool.
From Stdlib Require Import Sorting.Sorted Sorting.Permutation.
From Stdlib Require NArith DecimalString.
From Stdlib Require Import SpecFloat.
Import ListNotations.

Local Open Scope Q_scope.
Local Open Scope string_scope.
Local Open Scope list_scope.

(** ** JavaScript values *)

Module JS.

(** [Math.round(x)]: the integer nearest to [x], ties going up. *)
Definition Math_round (x : Q) : Q := inject_Z (Qfloor (x + (1 # 2))).

(** [x || 0] on a numeric field that may be [undefined]. *)
Definition or0 (x : option Q) : Q :=
  match x with
  | Some q => q
  | None => 0
  end.

(** [a.find(p)] is [List.find]; [a.findIndex(p)] returns the position
    of the first match, [None] standing for [-1]. *)
Fixpoint findIndex {A : Type} (p : A -> bool) (l : list A) : option nat :=
  match l with
  | [] => None
  | x :: t => if p x then Some 0%nat else option_map S (findIndex p t)
  end.

(** [a[i] = v] for an index inside the array. *)
Fixpoint set_nth {A : Type} (i : nat) (v : A) (l : list A) : list A :=
  match l, i with
  | [], _ => []
  | _ :: t, O => v :: t
  | x :: t, S j => x :: set_nth j v t
  end.

(** [o[k] = v] on an object used as a map: an existing key keeps its
    place in the enumeration order, a new one goes last. *)
Fixpoint obj_set {A : Type} (k : string) (v : A) (o : list (string * A))
  : list (string * A) :=
  match o with
  | [] => [(k, v)]
  | (k', v') :: t =>
      if String.eqb k' k then (k, v) :: t else (k', v') :: obj_set k v t
  end.

(** [o[k]], [None] being [undefined]. *)
Fixpoint obj_get {A : Type} (k : string) (o : list (string * A)) : option A :=
  match o with
  | [] => None
  | (k', v) :: t => if String.eqb k' k then Some v else obj_get k t
  end.

(** [a.sort(cmp)].  ECMAScript fixes the result, not the algorithm:
    the elements in an order consistent with [cmp], elements that
    compare equal keeping their relative order.  Here by insertion,
    from the right. *)
Fixpoint sort_insert {A : Type} (cmp : A -> A -> Z) (x : A) (l : list A)
  : list A :=
  match l with
  | [] => [x]
  | y :: t => if (cmp x y <=? 0)%Z then x :: y :: t
              else y :: sort_insert cmp x t
  end.

Fixpoint sort {A : Type} (cmp : A -> A -> Z) (l : list A) : list A :=
  match l with
  | [] => []
  | x :: t => sort_insert cmp x (sort cmp t)
  end.

(** [s.replace(/c/g, by)] for a pattern that is the one character [c].
    A string is the sequence of its code units, each below 256. *)
Fixpoint replaceAll (c : ascii) (by_ : string) (s : string) : string :=
  match s with
  | EmptyString => EmptyString
  | String x t =>
      if Ascii.eqb x c then (by_ ++ replaceAll c by_ t)%string
      else String x (replaceAll c by_ t)
  end.

(** [`${n}`] for an integer [n]. *)
Definition toString (n : Z) : string :=
  DecimalString.NilZero.string_of_int (Z.to_int n).

End JS.

(** ** Regular expressions

    The patterns of the source use character classes, sequence,
    alternation and repetition only, so that [pattern.test(s)] is
    membership of [s] in a regular language, decided here by
    derivatives.  [test] is for a pattern written between [^] and
    [$], [search] for one written without them. *)

Module RegExp.

Inductive t :=
| Empty
| Eps
| Class (p : ascii -> bool)
| Seq (r1 r2 : t)
| Alt (r1 r2 : t)
| Star (r : t).

(** [r+] and [r{n}]. *)
Definition Plus (r : t) : t := Seq r (Star r).

Fixpoint Repeat (n : nat) (r : t) : t :=
  match n with
  | O => Eps
  | S m => Seq r (Repeat m r)
  end.

(** A literal string. *)
Fixpoint Lit (s : string) : t :=
  match s with
  | EmptyString => Eps
  | String c s' => Seq (Class (Ascii.eqb c)) (Lit s')
  end.

Fixpoint nullable (r : t) : bool :=
  match r with
  | Empty => false
  | Eps => true
  | Class _ => false
  | Seq r1 r2 => nullable r1 && nullable r2
  | Alt r1 r2 => nullable r1 || nullable r2
  | Star _ => true
  end.

Fixpoint deriv (c : ascii) (r : t) : t :=
  match r with
  | Empty => Empty
  | Eps => Empty
  | Class p => if p c then Eps else Empty
  | Seq r1 r2 =>
      if nullable r1 then Alt (Seq (deriv c r1) r2) (deriv c r2)
      else Seq (deriv c r1) r2
  | Alt r1 r2 => Alt (deriv c r1) (deriv c r2)
  | Star r1 => Seq (deriv c r1) (Star r1)
  end.

Fixpoint test (r : t) (s : string) : bool :=
  match s with
  | EmptyString => nullable r
  | String c s' => test (deriv c r) s'
  end.

Definition anything : t := Star (Class (fun _ => true)).

Definition search (r : t) (s : string) : bool :=
  test (Seq anything (Seq r anything)) s.

(** The strings a pattern denotes. *)
Inductive matches : t -> list ascii -> Prop :=
| MEps : matches Eps []
| MClass p c : p c = true -> matches (Class p) [c]
| MSeq r1 r2 s1 s2 :
    matches r1 s1 -> matches r2 s2 -> matches (Seq r1 r2) (s1 ++ s2)
| MAltL r1 r2 s : matches r1 s -> matches (Alt r1 r2) s
| MAltR r1 r2 s : matches r2 s -> matches (Alt r1 r2) s
| MStarNil r : matches (Star r) []
| MStarApp r s1 s2 :
    matches r s1 -> matches (Star r) s2 -> matches (Star r) (s1 ++ s2).

(** Character classes. *)
Definition code (c : ascii) : N := N_of_ascii c.

(** [[lo-hi]]. *)
Definition in_range (lo hi c : ascii) : bool :=
  (code lo <=? code c)%N && (code c <=? code hi)%N.

(** [\d] and [[0-9]]. *)
Definition digit : ascii -> bool := in_range "0" "9".

(** [[A-Za-z]]. *)
Definition letter (c : ascii) : bool :=
  in_range "A" "Z" c || in_range "a" "z" c.

(** [\s], among the code units below 256: tab, line feed, vertical
    tab, form feed, carriage return, space, no-break space. *)
Definition whitespace (c : ascii) : bool :=
  existsb (N.eqb (code c)) [9; 10; 11; 12; 13; 32; 160]%N.

(** [[^\s@]]. *)
Definition not_space_or_at (c : ascii) : bool :=
  negb (whitespace c || Ascii.eqb c "@").

End RegExp.

(** The result of a validator. *)
Module Validation.
Record t (E : Type) := mk {
  isValid : bool;
  errors : E
}.
Arguments mk {E} _ _.
Arguments isValid {E} _.
Arguments errors {E} _.
End Validation.

(** ** CONFIG: the catalogue of waste types (src/app.js) *)

Record WasteType := mkWasteType {
  type : string;
  co2_factor : Q;
  points_factor : Q;
  price_per_kg : Q
}.

Module CONFIG.

Definition WASTE_TYPES : list WasteType :=
  [ mkWasteType "organic"    0.6 10 3;
    mkWasteType "plastic"    1.2 10 12;
    mkWasteType "paper"      0.4 10 8;
    mkWasteType "metal"      0.1 15 45;
    mkWasteType "glass"      0.1 12 6;
    mkWasteType "electronic" 0.8 20 85 ].

Module VALIDATION.

Definition MIN_PASSWORD_LENGTH : Z := 6.

(** [/^(\+8801|01)[3-9]\d{8}$/] *)
Definition PHONE_PATTERN : RegExp.t :=
  RegExp.Seq
    (RegExp.Alt (RegExp.Lit "+8801") (RegExp.Lit "01"))
    (RegExp.Seq (RegExp.Class (RegExp.in_range "3" "9"))
                (RegExp.Repeat 8 (RegExp.Class RegExp.digit))).

(** [/^[^\s@]+@[^\s@]+\.[^\s@]+$/] *)
Definition EMAIL_PATTERN : RegExp.t :=
  RegExp.Seq
    (RegExp.Plus (RegExp.Class RegExp.not_space_or_at))
    (RegExp.Seq
       (RegExp.Class (Ascii.eqb "@"))
       (RegExp.Seq
          (RegExp.Plus (RegExp.Class RegExp.not_space_or_at))
          (RegExp.Seq
             (RegExp.Class (Ascii.eqb "."))
             (RegExp.Plus (RegExp.Class RegExp.not_space_or_at))))).

End VALIDATION.

End CONFIG.

(** ** Utils: the value calculator (src/app.js)

    The three calculators are here over the rationals, for the ledger
    and the queue; over the Numbers of the program they are in
    [Binary64.Utils]. *)

Module Utils.

Definition getWasteTypeInfo (wasteType : string) : option WasteType :=
  find (fun w => String.eqb (type w) wasteType) CONFIG.WASTE_TYPES.

Definition calculateWastePoints (wasteType : string) (weight : Q) : Q :=
  match getWasteTypeInfo wasteType with
  | Some waste => JS.Math_round (weight * points_factor waste)
  | None => 0
  end.

Definition calculateCO2Saved (wasteType : string) (weight : Q) : Q :=
  match getWasteTypeInfo wasteType with
  | Some waste => JS.Math_round ((weight * co2_factor waste) * 100) / 100
  | None => 0
  end.

Definition calculateTakaEarnings (wasteType : string) (weight : Q) : Q :=
  match getWasteTypeInfo wasteType with
  | Some waste => JS.Math_round ((weight * price_per_kg waste) * 100) / 100
  | None => 0
  end.

Definition validateEmail (email : string) : bool :=
  RegExp.test CONFIG.VALIDATION.EMAIL_PATTERN email.

Definition validatePhone (phone : string) : bool :=
  RegExp.test CONFIG.VALIDATION.PHONE_PATTERN phone.

(** [validatePassword(password)]; [!password] holds of the empty
    string. *)
Definition validatePassword (password : string)
  : Validation.t (list string) :=
  if String.eqb password EmptyString then
    Validation.mk false ["Password is required"]
  else
    let v0 := Validation.mk true [] in
    let v1 :=
      if (Z.of_nat (String.length password)
          <? CONFIG.VALIDATION.MIN_PASSWORD_LENGTH)%Z
      then Validation.mk false
             (Validation.errors v0
              ++ [("Password must be at least "
                   ++ JS.toString CONFIG.VALIDATION.MIN_PASSWORD_LENGTH
                   ++ " characters")%string])
      else v0 in
    let v2 :=
      if negb (RegExp.search (RegExp.Class RegExp.letter) password)
      then Validation.mk false
             (Validation.errors v1
              ++ ["Password must contain at least one letter"])
      else v1 in
    if negb (RegExp.search (RegExp.Class RegExp.digit) password)
    then Validation.mk false
           (Validation.errors v2
            ++ ["Password must contain at least one number"])
    else v2.

(** [sanitizeInput(input)] on a string. *)
Definition sanitizeInput (input : string) : string :=
  JS.replaceAll "/" "&#x2F;"
    (JS.replaceAll "'" "&#x27;"
       (JS.replaceAll "034" "&quot;"
          (JS.replaceAll ">" "&gt;"
             (JS.replaceAll "<" "&lt;"
                (JS.replaceAll "&" "&amp;" input))))).

(** What [getRelativeTime] returns: a text of its own, or what
    [formatDate], which is not modelled, makes of the date. *)
Inductive RelativeTime :=
| Text (s : string)
| FormatDate (dateObj : Z).

(** [getRelativeTime(date)]; [now] is the clock reading, both in
    milliseconds. *)
Definition getRelativeTime (now dateObj : Z) : RelativeTime :=
  let diffInSeconds := ((now - dateObj) / 1000)%Z in
  if (diffInSeconds <? 60)%Z then Text "Just now"
  else if (diffInSeconds <? 3600)%Z then
    let minutes := (diffInSeconds / 60)%Z in
    Text (JS.toString minutes ++ " minute"
          ++ (if (1 <? minutes)%Z then "s" else EmptyString) ++ " ago")%string
  else if (diffInSeconds <? 86400)%Z then
    let hours := (diffInSeconds / 3600)%Z in
    Text (JS.toString hours ++ " hour"
          ++ (if (1 <? hours)%Z then "s" else EmptyString) ++ " ago")%string
  else if (diffInSeconds <? 2592000)%Z then
    let days := (diffInSeconds / 86400)%Z in
    Text (JS.toString days ++ " day"
          ++ (if (1 <? days)%Z then "s" else EmptyString) ++ " ago")%string
  else FormatDate dateObj.

End Utils.

(** ** Data model (src/waste.js, src/app.js) *)

(** A user object.  The four ledger fields can be [undefined]: sign-up
    leaves [earnings] and [jobs_today] so for a household. *)
Module User.
Record t := mk {
  id : string;
  email : string;
  name : string;
  phone : string;
  address : string;
  user_type : string;
  points : option Q;
  co2_saved : option Q;
  earnings : option Q;
  jobs_today : option Q
}.
End User.

(** The argument of [Auth.updateUser]: the keys the engine passes. *)
Module Updates.
Record t := mk {
  points : option Q;
  co2_saved : option Q;
  earnings : option Q;
  jobs_today : option Q
}.
End Updates.

(** The argument of [Auth.updateUser] in general: a value for any of
    the keys of a user object, [None] for a key that is not given.
    The profile form passes [name], [phone] and [address]; a key that
    is no field of [User.t], such as [avatar], touches none of its
    fields. *)
Module Patch.
Record t := mk {
  id : option string;
  email : option string;
  name : option string;
  phone : option string;
  address : option string;
  user_type : option string;
  points : option Q;
  co2_saved : option Q;
  earnings : option Q;
  jobs_today : option Q
}.

(** The keys the engine passes, as a patch. *)
Definition ofUpdates (up : Updates.t) : t :=
  mk None None None None None None
     (Updates.points up) (Updates.co2_saved up)
     (Updates.earnings up) (Updates.jobs_today up).
End Patch.

(** One entry of the per-type breakdown. *)
Module Entry.
Record t := mk {
  weight : Q;
  points : Q;
  co2_saved : Q;
  taka_earned : Q
}.
End Entry.

Definition Breakdown := list (string * Entry.t).

(** [Waste.wasteData] as [updateWasteSummary] leaves it. *)
Module WasteData.
Record t := mk {
  totalWeight : Q;
  totalPoints : Q;
  totalCO2 : Q;
  totalTaka : Q;
  wasteTypes : Breakdown
}.
End WasteData.

Inductive SubmissionStatus := submitted.

Module Submission.
Record t := mk {
  id : string;
  user_id : string;
  date : Z;
  total_weight : Q;
  total_points : Q;
  total_co2_saved : Q;
  waste_types : Breakdown;
  status : SubmissionStatus
}.
End Submission.

Inductive Status := pending | accepted.

Inductive Priority := high | medium | low.

Module Request.
Record t := mk {
  id : string;
  submission_id : string;
  household_id : string;
  household_name : string;
  household_address : string;
  household_phone : string;
  total_weight : Q;
  waste_types : Breakdown;
  estimated_value : Q;
  status : Status;
  created_at : Z;
  priority : Priority;
  collector_id : option string;
  collector_name : option string;
  collector_phone : option string;
  accepted_at : option Z
}.
End Request.

(** The fields of the sign-up form, an absent field being the empty
    string, which the validator treats alike. *)
Module SignupData.
Record t := mk {
  name : string;
  email : string;
  phone : string;
  password : string;
  address : string;
  usertype : string
}.
End SignupData.

(** One bucket of the per-type statistics. *)
Module TypeStat.
Record t := mk {
  weight : Q;
  count : nat
}.
End TypeStat.

(** What [getWasteStatistics] returns. *)
Module Stats.
Record t := mk {
  total_submissions : nat;
  total_weight : Q;
  total_points : Q;
  total_co2_saved : Q;
  waste_type_breakdown : list (string * TypeStat.t)
}.
End Stats.

(** The toasts of the two operations. *)
Inductive Toast :=
| PleaseLogIn          (* 'Please log in to submit waste', error *)
| PleaseEnterAmounts   (* 'Please enter waste amounts', warning *)
| WasteSubmitted       (* CONFIG.SUCCESS.WASTE_SUBMITTED, success *)
| OnlyCollectors       (* 'Only collectors can accept requests', error *)
| RequestNotFound      (* 'Request not found', error *)
| RequestAccepted      (* CONFIG.SUCCESS.REQUEST_ACCEPTED, success *)
| FailedToAccept.      (* 'Failed to accept request', error *)

(** The state the engine reads and writes: [Auth.currentUser],
    [Waste.wasteData], the weight inputs of the form (the card's
    [data-type] and [parseFloat(input.value) || 0]) and the four
    [localStorage] keys. *)
Record State := mkState {
  currentUser : option User.t;
  wasteData : WasteData.t;
  waste_inputs : list (string * Q);
  user_submissions : list Submission.t;
  pickup_requests : list Request.t;
  vangariwala_session : option User.t;
  vangariwala_users : list User.t
}.

Definition Status_eqb (a b : Status) : bool :=
  match a, b with
  | pending, pending | accepted, accepted => true
  | _, _ => false
  end.

(** ** Auth: the session (src/app.js) *)

Module Auth.

Definition getCurrentUser (s : State) : option User.t := currentUser s.

Definition isAuthenticated (s : State) : bool :=
  match currentUser s with
  | Some _ => true
  | None => false
  end.

(** [Object.assign(user, updates)]. *)
Definition assign (u : User.t) (up : Updates.t) : User.t :=
  let pick (new old : option Q) :=
    match new with
    | Some _ => new
    | None => old
    end in
  User.mk (User.id u) (User.email u) (User.name u) (User.phone u)
          (User.address u) (User.user_type u)
          (pick (Updates.points up) (User.points u))
          (pick (Updates.co2_saved up) (User.co2_saved u))
          (pick (Updates.earnings up) (User.earnings u))
          (pick (Updates.jobs_today up) (User.jobs_today u)).

(** [email.includes('@')]. *)
Fixpoint includes_at (s : string) : bool :=
  match s with
  | EmptyString => false
  | String c t => if Ascii.eqb c "@"%char then true else includes_at t
  end.

Definition saveDemoUser (users : list User.t) (user : User.t) : list User.t :=
  match JS.findIndex (fun u => String.eqb (User.id u) (User.id user)) users with
  | Some index => JS.set_nth index user users
  | None => users ++ [user]
  end.

(** [updateUser(updates)]: the call to the remote identity service,
    made when there is one, is taken to resolve; an error it reports
    is only logged, so the local effect is the same with and without
    it. *)
Definition updateUser (s : State) (updates : Updates.t) : State :=
  match currentUser s with
  | None => s
  | Some u =>
      let u' := assign u updates in
      mkState (Some u') (wasteData s) (waste_inputs s)
              (user_submissions s) (pickup_requests s)
              (Some u')
              (if includes_at (User.email u') then vangariwala_users s
               else saveDemoUser (vangariwala_users s) u')
  end.

(** [Object.assign(user, updates)] for any keys: a key given takes
    the value given, a key not given keeps its own. *)
Definition assign_any (u : User.t) (p : Patch.t) : User.t :=
  let text (new : option string) (old : string) :=
    match new with
    | Some v => v
    | None => old
    end in
  let number (new old : option Q) :=
    match new with
    | Some _ => new
    | None => old
    end in
  User.mk (text (Patch.id p) (User.id u))
          (text (Patch.email p) (User.email u))
          (text (Patch.name p) (User.name u))
          (text (Patch.phone p) (User.phone u))
          (text (Patch.address p) (User.address u))
          (text (Patch.user_type p) (User.user_type u))
          (number (Patch.points p) (User.points u))
          (number (Patch.co2_saved p) (User.co2_saved u))
          (number (Patch.earnings p) (User.earnings u))
          (number (Patch.jobs_today p) (User.jobs_today u)).

(** [updateUser(updates)] for any keys.  The test for [@] is made on
    the email of the user as updated. *)
Definition updateUser_any (s : State) (updates : Patch.t) : State :=
  match currentUser s with
  | None => s
  | Some u =>
      let u' := assign_any u updates in
      mkState (Some u') (wasteData s) (waste_inputs s)
              (user_submissions s) (pickup_requests s)
              (Some u')
              (if includes_at (User.email u') then vangariwala_users s
               else saveDemoUser (vangariwala_users s) u')
  end.

(** [validateSignupData(data)]; the errors are keyed by form field. *)
Definition validateSignupData (data : SignupData.t)
  : Validation.t (list (string * string)) :=
  let fail (v : Validation.t (list (string * string))) (key message : string) :=
    Validation.mk false (JS.obj_set key message (Validation.errors v)) in
  let v0 := Validation.mk true [] in
  let v1 :=
    if String.eqb (SignupData.name data) EmptyString
       || (String.length (SignupData.name data) <? 2)%nat
    then fail v0 "signup-name" "Name must be at least 2 characters"
    else v0 in
  let v2 :=
    if String.eqb (SignupData.email data) EmptyString
    then fail v1 "signup-email" "Email is required"
    else if negb (Utils.validateEmail (SignupData.email data))
    then fail v1 "signup-email" "Please enter a valid email address"
    else v1 in
  let v3 :=
    if String.eqb (SignupData.phone data) EmptyString
    then fail v2 "signup-phone" "Phone number is required"
    else if negb (Utils.validatePhone (SignupData.phone data))
    then fail v2 "signup-phone" "Please enter a valid Bangladesh phone number"
    else v2 in
  let v4 :=
    if String.eqb (SignupData.password data) EmptyString
    then fail v3 "signup-password" "Password is required"
    else
      let passwordValidation :=
        Utils.validatePassword (SignupData.password data) in
      if negb (Validation.isValid passwordValidation)
      then fail v3 "signup-password"
                (hd EmptyString (Validation.errors passwordValidation))
      else v3 in
  let v5 :=
    if String.eqb (SignupData.address data) EmptyString
       || (String.length (SignupData.address data) <? 5)%nat
    then fail v4 "signup-address" "Please enter a complete address"
    else v4 in
  if String.eqb (SignupData.usertype data) EmptyString
  then fail v5 "signup-usertype" "Please select a user type"
  else v5.

(** [loginSuccess(user)]. *)
Definition loginSuccess (s : State) (user : User.t) : State :=
  mkState (Some user) (wasteData s) (waste_inputs s)
          (user_submissions s) (pickup_requests s)
          (Some user) (vangariwala_users s).

(** [logout()]: the current user is forgotten and the session key
    removed. *)
Definition logout (s : State) : State :=
  mkState None (wasteData s) (waste_inputs s)
          (user_submissions s) (pickup_requests s)
          None (vangariwala_users s).

(** [checkExistingSession()] where the identity service reports no
    session: the stored session is taken up when its email is not
    empty and has no [@]. *)
Definition checkExistingSession (s : State) : State :=
  match vangariwala_session s with
  | Some sessionData =>
      if negb (String.eqb (User.email sessionData) EmptyString)
         && negb (includes_at (User.email sessionData))
      then mkState (Some sessionData) (wasteData s) (waste_inputs s)
                   (user_submissions s) (pickup_requests s)
                   (vangariwala_session s) (vangariwala_users s)
      else s
  | None => s
  end.

End Auth.

(** ** Waste: submission, request creation, listing, acceptance
       (src/waste.js) *)

Module Waste.

(** [weight > 0], [totalWeight >= n] and [totalWeight === 0]. *)
Definition gt (x y : Q) : bool := negb (Qle_bool x y).
Definition ge (x y : Q) : bool := Qle_bool y x.
Definition strict_eq (x y : Q) : bool := Qeq_bool x y.

(** The four running totals of [updateWasteSummary]. *)
Definition Totals : Type := Q * Q * Q * Q.

Definition addInput (acc : Totals) (input : string * Q) : Totals :=
  let '(totalWeight, totalPoints, totalCO2, totalTaka) := acc in
  let '(wasteType, weight) := input in
  if gt weight 0 then
    (totalWeight + weight,
     totalPoints + Utils.calculateWastePoints wasteType weight,
     totalCO2 + Utils.calculateCO2Saved wasteType weight,
     totalTaka + Utils.calculateTakaEarnings wasteType weight)
  else acc.

Definition getWasteTypeBreakdown (inputs : list (string * Q)) : Breakdown :=
  fold_left
    (fun breakdown input =>
       let '(wasteType, weight) := input in
       if gt weight 0 then
         JS.obj_set wasteType
           (Entry.mk weight
              (Utils.calculateWastePoints wasteType weight)
              (Utils.calculateCO2Saved wasteType weight)
              (Utils.calculateTakaEarnings wasteType weight))
           breakdown
       else breakdown)
    inputs [].

(** The value stored in [this.wasteData]. *)
Definition summary (inputs : list (string * Q)) : WasteData.t :=
  let '(totalWeight, totalPoints, totalCO2, totalTaka) :=
    fold_left addInput inputs (0, 0, 0, 0) in
  WasteData.mk totalWeight totalPoints totalCO2 totalTaka
               (getWasteTypeBreakdown inputs).

Definition updateWasteSummary (s : State) : State :=
  mkState (currentUser s) (summary (waste_inputs s)) (waste_inputs s)
          (user_submissions s) (pickup_requests s)
          (vangariwala_session s) (vangariwala_users s).

(** Every input is emptied, and an empty input reads as weight 0. *)
Definition resetWasteForm (s : State) : State :=
  updateWasteSummary
    (mkState (currentUser s) (wasteData s)
             (map (fun input => (fst input, 0)) (waste_inputs s))
             (user_submissions s) (pickup_requests s)
             (vangariwala_session s) (vangariwala_users s)).

(** The rate table local to [calculateEstimatedValue]. *)
Definition pricing : list (string * Q) :=
  [ ("plastic", 15); ("paper", 8); ("metal", 25);
    ("glass", 5); ("electronic", 50); ("organic", 3) ].

Definition rate (type : string) : Q :=
  match JS.obj_get type pricing with
  | Some r => r
  | None => 5
  end.

Definition calculateEstimatedValue (wasteTypes : Breakdown) : Q :=
  JS.Math_round
    (fold_left
       (fun totalValue entry =>
          totalValue + Entry.weight (snd entry) * rate (fst entry))
       wasteTypes 0).

Definition calculatePriority (totalWeight : Q) : Priority :=
  if ge totalWeight 10 then high
  else if ge totalWeight 5 then medium
  else low.

(** [createPickupRequest(submission)]; [id] is the identifier drawn
    for the request and [now] the clock reading. *)
Definition createPickupRequest (s : State) (submission : Submission.t)
    (id : string) (now : Z) : State :=
  match Auth.getCurrentUser s with
  | None => s
  | Some user =>
      let pickupRequest :=
        Request.mk id
          (Submission.id submission)
          (User.id user)
          (User.name user)
          (User.address user)
          (User.phone user)
          (Submission.total_weight submission)
          (Submission.waste_types submission)
          (calculateEstimatedValue (Submission.waste_types submission))
          pending
          now
          (calculatePriority (Submission.total_weight submission))
          None None None None in
      mkState (currentUser s) (wasteData s) (waste_inputs s)
              (user_submissions s)
              (pickup_requests s ++ [pickupRequest])
              (vangariwala_session s) (vangariwala_users s)
  end.

(** [handleWasteSubmission()]; the two identifiers and the two clock
    readings are those of the submission and of its request.
    [wasteData] is the record [updateWasteSummary] last stored: the
    state before its first run, where [this.wasteData] is [{}], is no
    state of the embedding. *)
Definition handleWasteSubmission (s : State)
    (submissionId requestId : string) (date created_at : Z)
  : State * Toast :=
  match Auth.getCurrentUser s with
  | None => (s, PleaseLogIn)
  | Some user =>
      if strict_eq (WasteData.totalWeight (wasteData s)) 0 then
        (s, PleaseEnterAmounts)
      else
        let submission :=
          Submission.mk submissionId (User.id user) date
            (WasteData.totalWeight (wasteData s))
            (WasteData.totalPoints (wasteData s))
            (WasteData.totalCO2 (wasteData s))
            (WasteData.wasteTypes (wasteData s))
            submitted in
        let s1 :=
          mkState (currentUser s) (wasteData s) (waste_inputs s)
                  (user_submissions s ++ [submission])
                  (pickup_requests s)
                  (vangariwala_session s) (vangariwala_users s) in
        let updatedPoints :=
          JS.or0 (User.points user) + WasteData.totalPoints (wasteData s) in
        let updatedCO2 :=
          JS.or0 (User.co2_saved user) + WasteData.totalCO2 (wasteData s) in
        let s2 :=
          Auth.updateUser s1
            (Updates.mk (Some updatedPoints)
                        (Some (JS.Math_round (updatedCO2 * 100) / 100))
                        None None) in
        let s3 := createPickupRequest s2 submission requestId created_at in
        (resetWasteForm s3, WasteSubmitted)
  end.

Definition priorityOrder (p : Priority) : Z :=
  match p with
  | high => 3
  | medium => 2
  | low => 1
  end.

(** The comparator of [loadPickupRequests]. *)
Definition compareRequests (a b : Request.t) : Z :=
  let priorityDiff :=
    (priorityOrder (Request.priority b) - priorityOrder (Request.priority a))%Z in
  if negb (priorityDiff =? 0)%Z then priorityDiff
  else (Request.created_at b - Request.created_at a)%Z.

(** The array [requests] that [loadPickupRequests] renders. *)
Definition loadPickupRequests (s : State) : list Request.t :=
  JS.sort compareRequests
    (filter (fun request => Status_eqb (Request.status request) pending)
            (pickup_requests s)).

(** [{...request, status: 'accepted', collector_id: ..., ...}]. *)
Definition acceptedBy (request : Request.t) (collector : User.t) (now : Z)
  : Request.t :=
  Request.mk (Request.id request)
    (Request.submission_id request)
    (Request.household_id request)
    (Request.household_name request)
    (Request.household_address request)
    (Request.household_phone request)
    (Request.total_weight request)
    (Request.waste_types request)
    (Request.estimated_value request)
    accepted
    (Request.created_at request)
    (Request.priority request)
    (Some (User.id collector))
    (Some (User.name collector))
    (Some (User.phone collector))
    (Some now).

(** [acceptPickupRequest(requestId)]; [now] is the clock reading.
    The collector is the current user.  [requests[requestIndex]] is
    defined whenever [findIndex] has answered [requestIndex], so the
    [FailedToAccept] branch is never taken. *)
Definition acceptPickupRequest (s : State) (requestId : string) (now : Z)
  : State * Toast :=
  match Auth.getCurrentUser s with
  | None => (s, OnlyCollectors)
  | Some user =>
      if negb (String.eqb (User.user_type user) "collector") then
        (s, OnlyCollectors)
      else
        let requests := pickup_requests s in
        match JS.findIndex
                (fun r => String.eqb (Request.id r) requestId) requests with
        | None => (s, RequestNotFound)
        | Some requestIndex =>
            match nth_error requests requestIndex with
            | None => (s, FailedToAccept)
            | Some request =>
                let s1 :=
                  mkState (currentUser s) (wasteData s) (waste_inputs s)
                          (user_submissions s)
                          (JS.set_nth requestIndex
                             (acceptedBy request user now) requests)
                          (vangariwala_session s) (vangariwala_users s) in
                let newEarnings :=
                  JS.or0 (User.earnings user)
                  + Request.estimated_value request in
                let newJobsToday := JS.or0 (User.jobs_today user) + 1 in
                (Auth.updateUser s1
                   (Updates.mk None None
                               (Some newEarnings) (Some newJobsToday)),
                 RequestAccepted)
            end
        end
  end.

(** The user's submissions, as [loadUserWasteData] and
    [getWasteStatistics] select them. *)
Definition submissionsOf (user : User.t) (s : State) : list Submission.t :=
  filter (fun sub => String.eqb (Submission.user_id sub) (User.id user))
         (user_submissions s).


(** One entry of one submission added to the per-type buckets. *)
Definition addEntry (breakdown : list (string * TypeStat.t))
    (entry : string * Entry.t) : list (string * TypeStat.t) :=
  let '(type, data) := entry in
  let breakdown1 :=
    match JS.obj_get type breakdown with
    | None => JS.obj_set type (TypeStat.mk 0 0) breakdown
    | Some _ => breakdown
    end in
  match JS.obj_get type breakdown1 with
  | Some bucket =>
      JS.obj_set type
        (TypeStat.mk (TypeStat.weight bucket + Entry.weight data)
                     (TypeStat.count bucket + 1))
        breakdown1
  | None => breakdown1
  end.

(** One submission added to the statistics. *)
Definition addSubmission (stats : Stats.t) (submission : Submission.t)
  : Stats.t :=
  Stats.mk (Stats.total_submissions stats)
           (Stats.total_weight stats + Submission.total_weight submission)
           (Stats.total_points stats + Submission.total_points submission)
           (Stats.total_co2_saved stats
            + Submission.total_co2_saved submission)
           (fold_left addEntry (Submission.waste_types submission)
                      (Stats.waste_type_breakdown stats)).

(** [getWasteStatistics()], [None] being [null]. *)
Definition getWasteStatistics (s : State) : option Stats.t :=
  match Auth.getCurrentUser s with
  | None => None
  | Some user =>
      let submissions := submissionsOf user s in
      Some (fold_left addSubmission submissions
              (Stats.mk (List.length submissions) 0 0 0 []))
  end.

End Waste.

(** ** The service worker (src/waste.js, second half)

    A cache is the list of its request URLs, oldest first, which is
    the order [cache.keys()] reports. *)

Module ServiceWorker.

Definition MAX_DYNAMIC_CACHE_SIZE : nat := 50.

(** [cache.delete(request)]. *)
Definition delete (request : string) (cache : list string) : list string :=
  filter (fun key => negb (String.eqb key request)) cache.

(** [limitCacheSize(cacheName, maxSize)] on the cache of that name. *)
Definition limitCacheSize (cache : list string) (maxSize : nat)
  : list string :=
  let keys := cache in
  if (maxSize <? List.length keys)%nat then
    let itemsToDelete := (List.length keys - maxSize)%nat in
    fold_left
      (fun cache i =>
         match nth_error keys i with
         | Some key => delete key cache
         | None => cache
         end)
      (seq 0 itemsToDelete) cache
  else cache.

End ServiceWorker.

(** ** The operations as the specification words them *)

Module Spec.

(** [round]: nearest integer, a half rounding up. *)
Definition round (x : Q) : Q := inject_Z (Qfloor (x + (1 # 2))).

(** [round2]: rounding to two decimals. *)
Definition round2 (x : Q) : Q := round (x * 100) / 100.

Record Value := mkValue {
  points : Q;
  emissionsAvoided : Q;
  value : Q
}.

Definition pointsFactor := points_factor.
Definition emissionsFactor := co2_factor.
Definition price := price_per_kg.

(** The catalogue entry of a category identifier, if any. *)
Definition category (categoryId : string) : option WasteType :=
  find (fun c => String.eqb (type c) categoryId) CONFIG.WASTE_TYPES.

(** [valueFor] on a catalogue category and on an unknown identifier. *)
Definition valueFor (c : option WasteType) (w : Q) : Value :=
  match c with
  | Some c => mkValue (round (w * pointsFactor c))
                      (round2 (w * emissionsFactor c))
                      (round2 (w * price c))
  | None => mkValue 0 0 0
  end.

(** The entries of a batch that are kept: those of positive weight. *)
Definition positive (categoryWeights : list (string * Q)) : list (string * Q) :=
  filter (fun e => if Qlt_le_dec 0 (snd e) then true else false)
         categoryWeights.

Definition valueOf (e : string * Q) : Value :=
  valueFor (category (fst e)) (snd e).

Definition sum (l : list Q) : Q := fold_right Qplus 0 l.

(** The priority tiers. *)
Definition tier (p : Priority) : Z :=
  match p with
  | high => 3
  | medium => 2
  | low => 1
  end.

(** The two sort keys of a request. *)
Definition keys (r : Request.t) : Priority * Z :=
  (Request.priority r, Request.created_at r).

(** The listing order on keys: a higher tier first, and within a tier
    the later creation first. *)
Definition keysBefore (k1 k2 : Priority * Z) : Prop :=
  (tier (fst k2) < tier (fst k1))%Z \/
  (fst k1 = fst k2 /\ (snd k2 <= snd k1)%Z).

Definition before (a b : Request.t) : Prop := keysBefore (keys a) (keys b).

(** A two-decimal amount. *)
Definition twoDecimals (x : Q) : Prop := exists n : Z, x == inject_Z n / 100.

End Spec.

(** ** Numbers as the program has them

    A JavaScript Number is an IEEE 754 binary64 value: a signed zero,
    a signed infinity, NaN, or [(-1)^s * m * 2^e] with a mantissa of
    at most 53 bits.  The arithmetic is that of the standard, every
    result being the representable value nearest to the exact one,
    ties going to the even mantissa. *)

Module Number.

Definition t : Type := spec_float.

Definition prec : Z := 53.
Definition emax : Z := 1024.

(** The Number of an integer, exact below [2^53]. *)
Definition of_Z (n : Z) : t := binary_normalize prec emax n 0 false.

Definition zero : t := S754_zero false.

(** [x + y], [x * y] and [x / y]. *)
Definition add : t -> t -> t := SFadd prec emax.
Definition mul : t -> t -> t := SFmul prec emax.
Definition div : t -> t -> t := SFdiv prec emax.

(** [x > y], [x >= y] and [x === y]; each is false when an argument
    is NaN, and the two zeros are equal. *)
Definition gt (x y : t) : bool := SFltb y x.
Definition ge (x y : t) : bool := SFleb y x.
Definition strict_eq (x y : t) : bool := SFeqb x y.

(** The Number a decimal literal denotes, and the one [parseFloat]
    reads from a decimal text: the value nearest to it.  The literal
    is given as a fraction whose numerator and denominator are
    integers below [2^53], so that their quotient, rounded once by
    the division, is that value. *)
Definition literal (q : Q) : t :=
  div (of_Z (Qnum q)) (of_Z (Zpos (Qden q))).

(** [Math.round(x)]: the integer nearest to [x], a half going up;
    NaN, the infinities and the zeros are returned as they are, a
    Number whose exponent is not negative is an integer already, and
    a result of zero keeps the sign of [x].  For a negative exponent
    [e] the integer is [floor ((2 * m' + 2^-e) / 2^(1 - e))], where
    [m'] is the signed mantissa. *)
Definition Math_round (x : t) : t :=
  match x with
  | S754_finite s m e =>
      if (0 <=? e)%Z then x
      else
        let n :=
          Z.shiftr (2 * cond_Zopp s (Zpos m) + Z.shiftl 1 (- e)) (1 - e) in
        if (n =? 0)%Z then S754_zero s else of_Z n
  | _ => x
  end.

(** [x || y] on Numbers: [y] when [x] is a zero or NaN. *)
Definition or (x y : t) : t :=
  match x with
  | S754_zero _ | S754_nan => y
  | _ => x
  end.

(** The rational number a finite Number is. *)
Definition exact (x : t) : option Q :=
  match x with
  | S754_zero _ => Some 0
  | S754_finite s m e =>
      let m' := cond_Zopp s (Zpos m) in
      Some match e with
           | Zneg p => Qmake m' (2 ^ p)
           | _ => inject_Z (m' * 2 ^ e)
           end
  | _ => None
  end.

(** A Number above zero. *)
Definition positive (x : t) : bool :=
  match x with
  | S754_finite false _ _ | S754_infinity false => true
  | _ => false
  end.

End Number.

Declare Scope number_scope.
Delimit Scope number_scope with num.
Bind Scope number_scope with Number.t.
Infix "+" := Number.add : number_scope.
Infix "*" := Number.mul : number_scope.
Infix "/" := Number.div : number_scope.

(** ** The valuation in binary64

    The catalogue, the value calculator of [Utils], the summary and
    the breakdown of [Waste] and its estimate, embedded over the
    Numbers the program computes with. *)

Module Binary64.

Record WasteType := mkWasteType {
  type : string;
  co2_factor : Number.t;
  points_factor : Number.t;
  price_per_kg : Number.t
}.

Module CONFIG.

Definition WASTE_TYPES : list WasteType :=
  [ mkWasteType "organic"
      (Number.literal 0.6) (Number.literal 10) (Number.literal 3);
    mkWasteType "plastic"
      (Number.literal 1.2) (Number.literal 10) (Number.literal 12);
    mkWasteType "paper"
      (Number.literal 0.4) (Number.literal 10) (Number.literal 8);
    mkWasteType "metal"
      (Number.literal 0.1) (Number.literal 15) (Number.literal 45);
    mkWasteType "glass"
      (Number.literal 0.1) (Number.literal 12) (Number.literal 6);
    mkWasteType "electronic"
      (Number.literal 0.8) (Number.literal 20) (Number.literal 85) ].

End CONFIG.

Module Utils.

Definition getWasteTypeInfo (wasteType : string) : option WasteType :=
  find (fun w => String.eqb (type w) wasteType) CONFIG.WASTE_TYPES.

Definition calculateWastePoints (wasteType : string) (weight : Number.t)
  : Number.t :=
  match getWasteTypeInfo wasteType with
  | Some waste => Number.Math_round (weight * points_factor waste)%num
  | None => Number.literal 0
  end.

Definition calculateCO2Saved (wasteType : string) (weight : Number.t)
  : Number.t :=
  match getWasteTypeInfo wasteType with
  | Some waste =>
      (Number.Math_round ((weight * co2_factor waste) * Number.literal 100)
       / Number.literal 100)%num
  | None => Number.literal 0
  end.

Definition calculateTakaEarnings (wasteType : string) (weight : Number.t)
  : Number.t :=
  match getWasteTypeInfo wasteType with
  | Some waste =>
      (Number.Math_round ((weight * price_per_kg waste) * Number.literal 100)
       / Number.literal 100)%num
  | None => Number.literal 0
  end.

End Utils.

(** One entry of the per-type breakdown. *)
Module Entry.
Record t := mk {
  weight : Number.t;
  points : Number.t;
  co2_saved : Number.t;
  taka_earned : Number.t
}.
End Entry.

Definition Breakdown := list (string * Entry.t).

(** [Waste.wasteData] as [updateWasteSummary] leaves it. *)
Module WasteData.
Record t := mk {
  totalWeight : Number.t;
  totalPoints : Number.t;
  totalCO2 : Number.t;
  totalTaka : Number.t;
  wasteTypes : Breakdown
}.
End WasteData.

Module Waste.

(** The four running totals of [updateWasteSummary]. *)
Definition Totals : Type := Number.t * Number.t * Number.t * Number.t.

(** One round of the loop of [updateWasteSummary]; [weight] is
    [parseFloat(input.value) || 0]. *)
Definition addInput (acc : Totals) (input : string * Number.t) : Totals :=
  let '(totalWeight, totalPoints, totalCO2, totalTaka) := acc in
  let '(wasteType, weight) := input in
  if Number.gt weight (Number.literal 0) then
    ((totalWeight + weight)%num,
     (totalPoints + Utils.calculateWastePoints wasteType weight)%num,
     (totalCO2 + Utils.calculateCO2Saved wasteType weight)%num,
     (totalTaka + Utils.calculateTakaEarnings wasteType weight)%num)
  else acc.

Definition getWasteTypeBreakdown (inputs : list (string * Number.t))
  : Breakdown :=
  fold_left
    (fun breakdown input =>
       let '(wasteType, weight) := input in
       if Number.gt weight (Number.literal 0) then
         JS.obj_set wasteType
           (Entry.mk weight
              (Utils.calculateWastePoints wasteType weight)
              (Utils.calculateCO2Saved wasteType weight)
              (Utils.calculateTakaEarnings wasteType weight))
           breakdown
       else breakdown)
    inputs [].

(** [updateWasteSummary()]: the value it stores in [this.wasteData],
    for the inputs of the form in their order. *)
Definition updateWasteSummary (inputs : list (string * Number.t))
  : WasteData.t :=
  let '(totalWeight, totalPoints, totalCO2, totalTaka) :=
    fold_left addInput inputs
      (Number.literal 0, Number.literal 0, Number.literal 0,
       Number.literal 0) in
  WasteData.mk totalWeight totalPoints totalCO2 totalTaka
               (getWasteTypeBreakdown inputs).

(** The rate table local to [calculateEstimatedValue]. *)
Definition pricing : list (string * Number.t) :=
  [ ("plastic", Number.literal 15); ("paper", Number.literal 8);
    ("metal", Number.literal 25); ("glass", Number.literal 5);
    ("electronic", Number.literal 50); ("organic", Number.literal 3) ].

(** [pricing[type] || 5]. *)
Definition rate (type : string) : Number.t :=
  match JS.obj_get type pricing with
  | Some r => Number.or r (Number.literal 5)
  | None => Number.literal 5
  end.

Definition calculateEstimatedValue (wasteTypes : Breakdown) : Number.t :=
  Number.Math_round
    (fold_left
       (fun totalValue entry =>
          (totalValue + Entry.weight (snd entry) * rate (fst entry))%num)
       wasteTypes (Number.literal 0)).

End Waste.

(** The value calculator and the batch valuation as the specification
    words them, over the same Numbers. *)
Module Spec.

(** [round]: the integer nearest to the value of the Number, a half
    rounding up.  A Number whose exponent is not negative is a whole
    number and is kept, as are the zeros, the infinities and NaN;
    when the nearest integer is zero the sign is kept. *)
Definition round (x : Number.t) : Number.t :=
  match x, Number.exact x with
  | S754_finite s _ (Zneg _), Some q =>
      let n := Qfloor (q + (1 # 2)) in
      if (n =? 0)%Z then S754_zero s else Number.of_Z n
  | _, _ => x
  end.

(** [round2]: rounding to two decimals. *)
Definition round2 (x : Number.t) : Number.t :=
  (round (x * Number.literal 100) / Number.literal 100)%num.

Record Value := mkValue {
  points : Number.t;
  emissionsAvoided : Number.t;
  value : Number.t
}.

Definition pointsFactor := points_factor.
Definition emissionsFactor := co2_factor.
Definition price := price_per_kg.

(** The catalogue entry of a category identifier, if any. *)
Definition category (categoryId : string) : option WasteType :=
  find (fun c => String.eqb (type c) categoryId) CONFIG.WASTE_TYPES.

(** [valueFor] on a catalogue category and on an unknown identifier. *)
Definition valueFor (c : option WasteType) (w : Number.t) : Value :=
  match c with
  | Some c => mkValue (round (w * pointsFactor c))
                      (round2 (w * emissionsFactor c))
                      (round2 (w * price c))
  | None => mkValue Number.zero Number.zero Number.zero
  end.

(** The entries of a batch that are kept: those of positive weight. *)
Definition positive (categoryWeights : list (string * Number.t))
  : list (string * Number.t) :=
  filter (fun e => Number.positive (snd e)) categoryWeights.

Definition valueOf (e : string * Number.t) : Value :=
  valueFor (category (fst e)) (snd e).

(** The sum of a sequence of Numbers, accumulated from zero in the
    order of the sequence. *)
Definition sum (l : list Number.t) : Number.t :=
  fold_left Number.add l Number.zero.

Record Batch := mkBatch {
  totalWeight : Number.t;
  totalPoints : Number.t;
  totalEmissions : Number.t;
  totalValue : Number.t;
  perCategory : list (string * (Number.t * Value))
}.

(** [valueForBatch]: the kept entries valued one by one, and the sums
    of the values so obtained. *)
Definition valueForBatch (categoryWeights : list (string * Number.t))
  : Batch :=
  let kept := positive categoryWeights in
  mkBatch (sum (map snd kept))
          (sum (map (fun e => points (valueOf e)) kept))
          (sum (map (fun e => emissionsAvoided (valueOf e)) kept))
          (sum (map (fun e => value (valueOf e)) kept))
          (map (fun e => (fst e, (snd e, valueOf e))) kept).

(** A breakdown entry of the code read as a valued batch entry. *)
Definition ofEntry (e : string * Entry.t) : string * (Number.t * Value) :=
  (fst e, (Entry.weight (snd e),
           mkValue (Entry.points (snd e)) (Entry.co2_saved (snd e))
                   (Entry.taka_earned (snd e)))).

(** The other reading, which the specification rules out: the kept
    emissions summed unrounded and rounded once. *)
Definition emissionsRoundedOnce (categoryWeights : list (string * Number.t))
  : Number.t :=
  round2 (sum (map (fun e =>
                      match category (fst e) with
                      | Some c => (snd e * emissionsFactor c)%num
                      | None => Number.zero
                      end)
                   (positive categoryWeights))).

End Spec.

End Binary64.

(** ** Readings of the results, for the statements of the properties *)

Module Reading.

(** The text of [getRelativeTime] for [n] units. *)
Definition ago (n : Z) (unit : string) : Utils.RelativeTime :=
  Utils.Text (JS.toString n ++ " " ++ unit
              ++ (if (n =? 1)%Z then EmptyString else "s") ++ " ago")%string.

(** Sums over the buckets of the statistics, over the entries of a
    breakdown and over the breakdowns of submissions. *)
Definition bucketWeights (b : list (string * TypeStat.t)) : Q :=
  Spec.sum (map (fun x => TypeStat.weight (snd x)) b).

Definition bucketCounts (b : list (string * TypeStat.t)) : nat :=
  list_sum (map (fun x => TypeStat.count (snd x)) b).

Definition entryWeights (es : Breakdown) : Q :=
  Spec.sum (map (fun e => Entry.weight (snd e)) es).

Definition entriesOf (subs : list Submission.t) : Breakdown :=
  List.concat (map Submission.waste_types subs).

End Reading.

(** ** Sample data: the demo accounts of [CONFIG.DEMO_USERS], with the
       identifiers [Auth.createDemoData] gives them *)

Module Demo.

Definition HOUSEHOLD : User.t :=
  User.mk "demo_household_1" "test@example.com" "Rahul Ahmed" "01712345678"
          "Dhanmondi 27, Dhaka" "household" (Some 150) (Some 25.5) None None.

Definition COLLECTOR : User.t :=
  User.mk "demo_collector_1" "collector@example.com" "Karim Mia" "01798765432"
          "Uttara, Dhaka" "collector" None None (Some 2500) (Some 3).

(** The six weight inputs of the form, plastic 2 kg and paper 1 kg
    filled in. *)
Definition inputs : list (string * Q) :=
  [ ("organic", 0); ("plastic", 2); ("paper", 1);
    ("metal", 0); ("glass", 0); ("electronic", 0) ].

(** The household logged in, the form filled in, nothing stored. *)
Definition household_session : State :=
  Waste.updateWasteSummary
    (mkState (Some HOUSEHOLD) (WasteData.mk 0 0 0 0 []) inputs
             [] [] (Some HOUSEHOLD) [HOUSEHOLD; COLLECTOR]).

(** A request as [createPickupRequest] writes it. *)
Definition request (id : string) (weight : Q) (created_at : Z) : Request.t :=
  let wasteTypes := Waste.getWasteTypeBreakdown [("plastic", weight)] in
  Request.mk id ("sub_" ++ id)%string "demo_household_1" "Rahul Ahmed"
             "Dhanmondi 27, Dhaka" "01712345678" weight wasteTypes
             (Waste.calculateEstimatedValue wasteTypes)
             pending created_at (Waste.calculatePriority weight)
             None None None None.

(** The collector logged in, two requests stored. *)
Definition collector_session : State :=
  mkState (Some COLLECTOR) (WasteData.mk 0 0 0 0 []) []
          [] [request "r1" 7 1000; request "r2" 12 2000]
          (Some COLLECTOR) [HOUSEHOLD; COLLECTOR].

(** The same with the two requests stored the other way round. *)
Definition collector_session_swapped : State :=
  mkState (Some COLLECTOR) (WasteData.mk 0 0 0 0 []) []
          [] [request "r2" 12 2000; request "r1" 7 1000]
          (Some COLLECTOR) [HOUSEHOLD; COLLECTOR].

(** The same after the collector has accepted [r1] at time 3000. *)
Definition accepted_session : State :=
  fst (Waste.acceptPickupRequest collector_session "r1" 3000).

Definition r1_accepted : Request.t :=
  Waste.acceptedBy (request "r1" 7 1000) COLLECTOR 3000.

Definition COLLECTOR_after_r1 : User.t :=
  Auth.assign COLLECTOR
    (Updates.mk None None
       (Some (JS.or0 (User.earnings COLLECTOR)
              + Request.estimated_value (request "r1" 7 1000)))
       (Some (JS.or0 (User.jobs_today COLLECTOR) + 1))).

(** A submission of 12 kg of plastic by the household. *)
Definition submission12 : Submission.t :=
  let wd := Waste.summary [("plastic", 12)] in
  Submission.mk "s12" "demo_household_1" 500
                (WasteData.totalWeight wd) (WasteData.totalPoints wd)
                (WasteData.totalCO2 wd) (WasteData.wasteTypes wd) submitted.


(** The household's session after the filled-in form has been
    submitted at time 100. *)
Definition submitted_session : State :=
  fst (Waste.handleWasteSubmission household_session "s1" "q1" 100 101).

(** The sign-up form of the demo household. *)
Definition signup : SignupData.t :=
  SignupData.mk "Rahul Ahmed" "test@example.com" "01712345678" "demo123"
                "Dhanmondi 27, Dhaka" "household".

(** The six weight inputs as the Numbers the form yields. *)
Definition inputs64 : list (string * Number.t) :=
  map (fun input => (fst input, Number.literal (snd input))) inputs.

(** The catalogue entry of metal. *)
Definition metal64 : Binary64.WasteType :=
  Binary64.mkWasteType "metal" (Number.literal 0.1) (Number.literal 15)
                       (Number.literal 45).

(** The profile form filled in: [updateUser({ name, phone, address })]. *)
Definition profile_edit : Patch.t :=
  Patch.mk None None (Some "Rahul A.") (Some "01812345678")
           (Some "Mirpur 10, Dhaka") None None None None None.

(** A dynamic cache of three requests, oldest first. *)
Definition cache : list string := ["/"; "/index.html"; "/app.js"].

End Demo.


(** * Properties *)

(** [inject_Z 1] is the rational [1], which [lra] wants to see. *)
Ltac inject_one :=
  repeat match goal with
         | H : context [inject_Z (_ + 1)] |- _ => rewrite inject_Z_plus in H
         | |- context [inject_Z (_ + 1)] => rewrite inject_Z_plus
         end;
  change (inject_Z 1) with 1 in *.

(** Unfolds a calculator of [Utils] and splits on the catalogue
    lookup of type [t]. *)
Ltac by_catalogue t :=
  unfold Utils.calculateWastePoints, Utils.calculateCO2Saved,
         Utils.calculateTakaEarnings, Spec.valueOf;
  cbn [fst snd];
  change (Spec.category t) with (Utils.getWasteTypeInfo t);
  destruct (Utils.getWasteTypeInfo t); reflexivity.

(** ** Rounding *)

Section Rounding.

Lemma Math_round_is_round (x : Q) : JS.Math_round x = Spec.round x.
Proof. reflexivity. Qed.

(** [round x] is an integer within one half of [x], the upper one when
    two are. *)
Lemma round_nearest (x : Q) :
  exists n : Z, Spec.round x = inject_Z n /\ x - (1 # 2) < inject_Z n <= x + (1 # 2).
Proof.
  exists (Qfloor (x + (1 # 2))). split; [reflexivity|].
  pose proof (Qfloor_le (x + (1 # 2))) as Hle.
  pose proof (Qlt_floor (x + (1 # 2))) as Hlt.
  inject_one. split; lra.
Qed.

(** [round2 x] is a whole number of hundredths within half a hundredth
    of [x]. *)
Lemma round2_nearest (x : Q) :
  exists n : Z,
    Spec.round2 x == inject_Z n / 100 /\
    x - (1 # 200) < Spec.round2 x <= x + (1 # 200).
Proof.
  destruct (round_nearest (x * 100)) as [n [Hn [Hlo Hhi]]].
  exists n. unfold Spec.round2. rewrite Hn.
  split; [reflexivity|].
  assert (Hdiv : inject_Z n / 100 == inject_Z n * (1 # 100)) by (field).
  rewrite Hdiv. split; lra.
Qed.

(** A whole number is its own rounding. *)
Lemma round_integer (n : Z) : Spec.round (inject_Z n) = inject_Z n.
Proof.
  unfold Spec.round. f_equal.
  pose proof (Qfloor_le (inject_Z n + (1 # 2))) as Hle.
  pose proof (Qlt_floor (inject_Z n + (1 # 2))) as Hlt.
  set (m := Qfloor (inject_Z n + (1 # 2))) in *.
  assert (H1 : inject_Z m < inject_Z (n + 1)) by (inject_one; lra).
  assert (H2 : inject_Z n < inject_Z (m + 1)) by (inject_one; lra).
  rewrite <- Zlt_Qlt in H1, H2. lia.
Qed.

Lemma round_comp (x y : Q) : x == y -> Spec.round x = Spec.round y.
Proof.
  intros H. unfold Spec.round. f_equal. apply Qfloor_comp. rewrite H. reflexivity.
Qed.

(** A whole number of hundredths is its own rounding to two decimals. *)
Lemma round2_hundredths (x : Q) (n : Z) :
  x == inject_Z n / 100 -> Spec.round2 x == x.
Proof.
  intros H. unfold Spec.round2.
  rewrite (round_comp (x * 100) (inject_Z n)).
  - rewrite round_integer. rewrite H. reflexivity.
  - rewrite H. field.
Qed.

End Rounding.

(** ** Batch valuation *)

Section Batch.

Lemma gt_positive (w : Q) :
  Waste.gt w 0 = if Qlt_le_dec 0 w then true else false.
Proof.
  unfold Waste.gt. destruct (Qlt_le_dec 0 w) as [H | H].
  - destruct (Qle_bool w 0) eqn:E; [|reflexivity].
    apply Qle_bool_iff in E. lra.
  - apply Qle_bool_iff in H. rewrite H. reflexivity.
Qed.

Lemma calculateWastePoints_valueOf (t : string) (w : Q) :
  Utils.calculateWastePoints t w = Spec.points (Spec.valueOf (t, w)).
Proof. by_catalogue t. Qed.

Lemma calculateCO2Saved_valueOf (t : string) (w : Q) :
  Utils.calculateCO2Saved t w = Spec.emissionsAvoided (Spec.valueOf (t, w)).
Proof. by_catalogue t. Qed.

Lemma calculateTakaEarnings_valueOf (t : string) (w : Q) :
  Utils.calculateTakaEarnings t w = Spec.value (Spec.valueOf (t, w)).
Proof. by_catalogue t. Qed.

(** The loop of [updateWasteSummary] adds, to each running total, the
    sum over the inputs of positive weight. *)
Lemma fold_addInput (l : list (string * Q)) :
  forall a b c d : Q,
    match fold_left Waste.addInput l (a, b, c, d) with
    | (a', b', c', d') =>
        a' == a + Spec.sum (map snd (Spec.positive l)) /\
        b' == b + Spec.sum (map (fun e => Spec.points (Spec.valueOf e))
                              (Spec.positive l)) /\
        c' == c + Spec.sum (map (fun e => Spec.emissionsAvoided (Spec.valueOf e))
                              (Spec.positive l)) /\
        d' == d + Spec.sum (map (fun e => Spec.value (Spec.valueOf e))
                              (Spec.positive l))
    end.
Proof.
  induction l as [| [t w] l IH]; intros a b c d.
  - simpl. repeat split; lra.
  - cbn [fold_left]. unfold Waste.addInput at 2.
    rewrite gt_positive. unfold Spec.positive. cbn [filter snd].
    destruct (Qlt_le_dec 0 w) as [Hw | Hw].
    + specialize (IH (a + w)
                     (b + Utils.calculateWastePoints t w)
                     (c + Utils.calculateCO2Saved t w)
                     (d + Utils.calculateTakaEarnings t w)).
      fold (Spec.positive l).
      destruct (fold_left Waste.addInput l _) as [[[a' b'] c'] d'].
      destruct IH as (Ha & Hb & Hc & Hd).
      rewrite calculateWastePoints_valueOf in Hb.
      rewrite calculateCO2Saved_valueOf in Hc.
      rewrite calculateTakaEarnings_valueOf in Hd.
      cbn [map Spec.sum fold_right snd].
      fold (Spec.sum (map snd (Spec.positive l))).
      fold (Spec.sum (map (fun e => Spec.points (Spec.valueOf e)) (Spec.positive l))).
      fold (Spec.sum (map (fun e => Spec.emissionsAvoided (Spec.valueOf e)) (Spec.positive l))).
      fold (Spec.sum (map (fun e => Spec.value (Spec.valueOf e)) (Spec.positive l))).
      repeat split; lra.
    + fold (Spec.positive l). apply IH.
Qed.

Lemma obj_set_fresh {A : Type} (k : string) (v : A) (o : list (string * A)) :
  ~ In k (map fst o) -> JS.obj_set k v o = (o ++ [(k, v)])%list.
Proof.
  induction o as [| [k' v'] o IH]; intros Hk; [reflexivity|].
  cbn [JS.obj_set]. destruct (String.eqb_spec k' k) as [E | E].
  - exfalso. apply Hk. left. exact E.
  - rewrite IH; [reflexivity|]. intros Hin. apply Hk. right. exact Hin.
Qed.

(** With one input per type, the loop of [getWasteTypeBreakdown]
    appends one entry per input of positive weight, in order. *)
Lemma fold_breakdown (l : list (string * Q)) :
  forall acc : Breakdown,
    NoDup (map fst l) ->
    (forall k, In k (map fst l) -> ~ In k (map fst acc)) ->
    fold_left
      (fun breakdown input =>
         let '(wasteType, weight) := input in
         if Waste.gt weight 0 then
           JS.obj_set wasteType
             (Entry.mk weight
                (Utils.calculateWastePoints wasteType weight)
                (Utils.calculateCO2Saved wasteType weight)
                (Utils.calculateTakaEarnings wasteType weight))
             breakdown
         else breakdown)
      l acc
    = (acc ++ map (fun e => (fst e,
                             Entry.mk (snd e)
                               (Utils.calculateWastePoints (fst e) (snd e))
                               (Utils.calculateCO2Saved (fst e) (snd e))
                               (Utils.calculateTakaEarnings (fst e) (snd e))))
                  (Spec.positive l))%list.
Proof.
  induction l as [| [t w] l IH]; intros acc Hnd Hfresh.
  - simpl. rewrite app_nil_r. reflexivity.
  - cbn [fold_left]. rewrite gt_positive.
    unfold Spec.positive. cbn [filter snd]. fold (Spec.positive l).
    cbn [map fst] in Hnd. apply NoDup_cons_iff in Hnd. destruct Hnd as [Ht Hnd].
    destruct (Qlt_le_dec 0 w) as [Hw | Hw].
    + rewrite obj_set_fresh by (apply Hfresh; left; reflexivity).
      rewrite IH; [| exact Hnd |].
      * cbn [map fst snd]. rewrite <- app_assoc. reflexivity.
      * intros k Hk Hin. rewrite map_app in Hin. apply in_app_or in Hin.
        destruct Hin as [Hin | [Hin | []]].
        -- apply (Hfresh k); [right; exact Hk | exact Hin].
        -- cbn [fst] in Hin. subst k. exact (Ht Hk).
    + apply IH; [exact Hnd |].
      intros k Hk. apply Hfresh. right. exact Hk.
Qed.

End Batch.

(** ** Submission and request creation *)

Section SubmissionFlow.

Lemma calculatePriority_tiers (w : Q) :
  (10 <= w -> Waste.calculatePriority w = high) /\
  (5 <= w -> w < 10 -> Waste.calculatePriority w = medium) /\
  (w < 5 -> Waste.calculatePriority w = low).
Proof.
  unfold Waste.calculatePriority, Waste.ge.
  destruct (Qle_bool 10 w) eqn:E10; destruct (Qle_bool 5 w) eqn:E5;
    try (apply Qle_bool_iff in E10); try (apply Qle_bool_iff in E5);
    repeat split; intros; try reflexivity; try lra;
    exfalso;
    try (assert (Qle_bool 10 w = true) as C by (apply Qle_bool_iff; lra);
         rewrite C in E10; discriminate);
    try (assert (Qle_bool 5 w = true) as C by (apply Qle_bool_iff; lra);
         rewrite C in E5; discriminate).
Qed.

(** The request [createPickupRequest] builds for a logged-in user. *)
Lemma createPickupRequest_appends (s : State) (sub : Submission.t)
    (rid : string) (now : Z) (u : User.t) :
  currentUser s = Some u ->
  exists r : Request.t,
    Waste.createPickupRequest s sub rid now
    = mkState (currentUser s) (wasteData s) (waste_inputs s)
              (user_submissions s) (pickup_requests s ++ [r])
              (vangariwala_session s) (vangariwala_users s) /\
    Request.id r = rid /\
    Request.submission_id r = Submission.id sub /\
    Request.household_id r = User.id u /\
    Request.status r = pending /\
    Request.created_at r = now /\
    Request.total_weight r = Submission.total_weight sub /\
    Request.estimated_value r
      = Waste.calculateEstimatedValue (Submission.waste_types sub) /\
    Request.priority r = Waste.calculatePriority (Submission.total_weight sub).
Proof.
  intros Hu. unfold Waste.createPickupRequest, Auth.getCurrentUser.
  rewrite Hu. eexists. split; [reflexivity|]. repeat split.
Qed.

(** What a submission that ends in the success toast has done. *)
Lemma handleWasteSubmission_success (s : State) (sid rid : string)
    (date created_at : Z) :
  snd (Waste.handleWasteSubmission s sid rid date created_at) = WasteSubmitted ->
  exists u : User.t,
    currentUser s = Some u /\
    ~ WasteData.totalWeight (wasteData s) == 0 /\
    let wd := wasteData s in
    let sub := Submission.mk sid (User.id u) date
                 (WasteData.totalWeight wd) (WasteData.totalPoints wd)
                 (WasteData.totalCO2 wd) (WasteData.wasteTypes wd) submitted in
    let u' := Auth.assign u
                (Updates.mk
                   (Some (JS.or0 (User.points u) + WasteData.totalPoints wd))
                   (Some (Spec.round2
                            (JS.or0 (User.co2_saved u) + WasteData.totalCO2 wd)))
                   None None) in
    let s' := fst (Waste.handleWasteSubmission s sid rid date created_at) in
    currentUser s' = Some u' /\
    vangariwala_session s' = Some u' /\
    user_submissions s' = user_submissions s ++ [sub] /\
    exists r : Request.t,
      pickup_requests s' = pickup_requests s ++ [r] /\
      Request.id r = rid /\
      Request.submission_id r = sid /\
      Request.status r = pending /\
      Request.total_weight r = WasteData.totalWeight wd /\
      Request.priority r = Waste.calculatePriority (WasteData.totalWeight wd).
Proof.
  unfold Waste.handleWasteSubmission, Auth.getCurrentUser.
  destruct (currentUser s) as [u|] eqn:Hu; [| discriminate].
  unfold Waste.strict_eq.
  destruct (Qeq_bool (WasteData.totalWeight (wasteData s)) 0) eqn:Hw;
    [discriminate|].
  intros _. exists u. split; [reflexivity|].
  split; [apply Qeq_bool_neq; exact Hw|].
  cbv zeta. cbn [fst].
  unfold Auth.updateUser. cbn [currentUser].
  unfold Waste.createPickupRequest, Auth.getCurrentUser. cbn [currentUser].
  unfold Waste.resetWasteForm, Waste.updateWasteSummary.
  cbn [currentUser vangariwala_session user_submissions pickup_requests].
  repeat split.
  eexists. split; [reflexivity|]. repeat split.
Qed.

(** C5.  Creating the request of a submission, for a logged-in user,
    appends exactly one request to the stored ones: pending, referring
    to that submission, of priority high from 10 kg, medium from 5 kg
    and below 10 kg, low below 5 kg.  A submission that is recorded
    stores, together with it, exactly that one request. *)
Theorem enqueue_one_pending_request :
  (forall (s : State) (sub : Submission.t) (rid : string) (now : Z)
          (u : User.t),
      currentUser s = Some u ->
      exists r : Request.t,
        pickup_requests (Waste.createPickupRequest s sub rid now)
          = pickup_requests s ++ [r] /\
        Request.status r = pending /\
        Request.submission_id r = Submission.id sub /\
        (10 <= Submission.total_weight sub -> Request.priority r = high) /\
        (5 <= Submission.total_weight sub -> Submission.total_weight sub < 10 ->
         Request.priority r = medium) /\
        (Submission.total_weight sub < 5 -> Request.priority r = low)) /\
  (forall (s : State) (sid rid : string) (date created_at : Z),
      snd (Waste.handleWasteSubmission s sid rid date created_at)
        = WasteSubmitted ->
      let s' := fst (Waste.handleWasteSubmission s sid rid date created_at) in
      exists (sub : Submission.t) (r : Request.t),
        user_submissions s' = user_submissions s ++ [sub] /\
        pickup_requests s' = pickup_requests s ++ [r] /\
        Submission.id sub = sid /\
        Request.submission_id r = Submission.id sub /\
        Request.status r = pending /\
        Request.priority r
          = Waste.calculatePriority (Submission.total_weight sub)) /\
  (Waste.calculatePriority 12 = high /\
   Waste.calculatePriority 7 = medium /\
   Waste.calculatePriority 3 = low).
Proof.
  split; [| split].
  - intros s sub rid now u Hu.
    destruct (createPickupRequest_appends s sub rid now u Hu)
      as (r & Hs & _ & Hsub & _ & Hst & _ & _ & _ & Hp).
    exists r. rewrite Hs. cbn [pickup_requests].
    split; [reflexivity|]. split; [exact Hst|]. split; [exact Hsub|].
    rewrite Hp. apply calculatePriority_tiers.
  - intros s sid rid date created_at Hok s'.
    destruct (handleWasteSubmission_success s sid rid date created_at Hok)
      as (u & Hu & Hw & H).
    cbv zeta in H. destruct H as (_ & _ & Hsubs & r & Hreqs & _ & Hsid & Hst & Htw & Hp).
    eexists. exists r. split; [exact Hsubs|].
    split; [exact Hreqs|]. cbn [Submission.id Submission.total_weight].
    repeat split; assumption.
  - repeat split.
Qed.

End SubmissionFlow.

(** ** The household's ledger *)

Section HouseholdLedger.

Lemma round2_comp (x y : Q) : x == y -> Spec.round2 x == Spec.round2 y.
Proof.
  intros H. unfold Spec.round2.
  rewrite (round_comp (x * 100) (y * 100)); [reflexivity|].
  rewrite H. reflexivity.
Qed.

(** The totals of the summary when plastic 2 kg and paper 1 kg are the
    inputs of positive weight. *)
Lemma summary_plastic2_paper1 (inputs : list (string * Q)) :
  Spec.positive inputs = [("plastic", 2); ("paper", 1)] ->
  WasteData.totalWeight (Waste.summary inputs) == 3 /\
  WasteData.totalPoints (Waste.summary inputs) == 30 /\
  WasteData.totalCO2 (Waste.summary inputs) == 2.8.
Proof.
  intros Hpos. unfold Waste.summary.
  pose proof (fold_addInput inputs 0 0 0 0) as H.
  destruct (fold_left Waste.addInput inputs (0, 0, 0, 0)) as [[[a b] c] d].
  rewrite Hpos in H. destruct H as (Ha & Hb & Hc & _).
  cbn [WasteData.totalWeight WasteData.totalPoints WasteData.totalCO2].
  rewrite Ha, Hb, Hc. repeat split; vm_compute; reflexivity.
Qed.

(** The stored emissions figure is a two-decimal amount after every
    recorded submission. *)
Lemma submission_keeps_two_decimals (s : State) (sid rid : string)
    (date created_at : Z) :
  snd (Waste.handleWasteSubmission s sid rid date created_at) = WasteSubmitted ->
  exists u' : User.t,
    currentUser (fst (Waste.handleWasteSubmission s sid rid date created_at))
      = Some u' /\
    Spec.twoDecimals (JS.or0 (User.co2_saved u')).
Proof.
  intros Hok.
  destruct (handleWasteSubmission_success s sid rid date created_at Hok)
    as (u & Hu & _ & H).
  cbv zeta in H. destruct H as (Hu' & _).
  eexists. split; [exact Hu'|].
  cbn [Auth.assign User.co2_saved Updates.co2_saved JS.or0].
  destruct (round2_nearest
              (JS.or0 (User.co2_saved u) + WasteData.totalCO2 (wasteData s)))
    as (n & Hn & _).
  exists n. exact Hn.
Qed.

(** C8.  A recorded submission changes the household's account by
    [points += totalPoints] and [co2_saved += totalEmissions], the
    latter rounded to two decimals after the addition, and changes no
    other field of the account.  When plastic 2 kg and paper 1 kg are
    submitted, [points] grows by 30 and [co2_saved], a two-decimal
    amount as every credit leaves it, by 2.80. *)
Theorem submission_credits_only_points_and_co2 :
  (forall (s : State) (sid rid : string) (date created_at : Z),
      snd (Waste.handleWasteSubmission s sid rid date created_at)
        = WasteSubmitted ->
      let s' := fst (Waste.handleWasteSubmission s sid rid date created_at) in
      let wd := wasteData s in
      exists u u' : User.t,
        currentUser s = Some u /\
        currentUser s' = Some u' /\
        User.points u'
          = Some (JS.or0 (User.points u) + WasteData.totalPoints wd) /\
        User.co2_saved u'
          = Some (Spec.round2
                    (JS.or0 (User.co2_saved u) + WasteData.totalCO2 wd)) /\
        User.earnings u' = User.earnings u /\
        User.jobs_today u' = User.jobs_today u /\
        User.id u' = User.id u /\
        User.email u' = User.email u /\
        User.name u' = User.name u /\
        User.phone u' = User.phone u /\
        User.address u' = User.address u /\
        User.user_type u' = User.user_type u) /\
  (forall (s : State) (sid rid : string) (date created_at : Z) (u : User.t),
      currentUser s = Some u ->
      Spec.positive (waste_inputs s) = [("plastic", 2); ("paper", 1)] ->
      Spec.twoDecimals (JS.or0 (User.co2_saved u)) ->
      let s0 := Waste.updateWasteSummary s in
      snd (Waste.handleWasteSubmission s0 sid rid date created_at)
        = WasteSubmitted /\
      exists u' : User.t,
        currentUser (fst (Waste.handleWasteSubmission s0 sid rid date created_at))
          = Some u' /\
        JS.or0 (User.points u') == JS.or0 (User.points u) + 30 /\
        JS.or0 (User.co2_saved u') == JS.or0 (User.co2_saved u) + 2.80 /\
        User.earnings u' = User.earnings u /\
        User.jobs_today u' = User.jobs_today u).
Proof.
  split.
  - intros s sid rid date created_at Hok s' wd.
    destruct (handleWasteSubmission_success s sid rid date created_at Hok)
      as (u & Hu & _ & H).
    cbv zeta in H. destruct H as (Hu' & _).
    exists u. eexists. split; [exact Hu|]. split; [exact Hu'|].
    repeat split.
  - intros s sid rid date created_at u Hu Hpos [n Hn] s0.
    destruct (summary_plastic2_paper1 (waste_inputs s) Hpos) as (Hw & Hp & Hc).
    assert (Hok : snd (Waste.handleWasteSubmission s0 sid rid date created_at)
                  = WasteSubmitted).
    { unfold Waste.handleWasteSubmission, Auth.getCurrentUser.
      subst s0. cbn [Waste.updateWasteSummary currentUser wasteData].
      rewrite Hu. unfold Waste.strict_eq.
      destruct (Qeq_bool _ 0) eqn:E; [|reflexivity].
      apply Qeq_bool_eq in E. rewrite Hw in E. discriminate E. }
    split; [exact Hok|].
    destruct (handleWasteSubmission_success s0 sid rid date created_at Hok)
      as (u0 & Hu0 & _ & H).
    cbv zeta in H. destruct H as (Hu' & _).
    assert (u0 = u) by (subst s0; cbn [Waste.updateWasteSummary currentUser] in Hu0; congruence).
    subst u0. eexists. split; [exact Hu'|].
    subst s0. cbn [Waste.updateWasteSummary wasteData].
    cbn [Auth.assign User.points User.co2_saved User.earnings User.jobs_today
         Updates.points Updates.co2_saved Updates.earnings Updates.jobs_today
         JS.or0].
    split; [rewrite Hp; reflexivity|].
    split; [| split; reflexivity].
    apply Qeq_trans with (Spec.round2 (JS.or0 (User.co2_saved u) + 2.80)).
    { apply round2_comp. rewrite Hc. lra. }
    apply (round2_hundredths _ (n + 280)).
    rewrite Hn, inject_Z_plus. change (inject_Z 280) with 280. field.
Qed.

End HouseholdLedger.

(** ** Acceptance *)

Section Acceptance.

Lemma findIndex_None {A : Type} (p : A -> bool) (l : list A) :
  (forall x, In x l -> p x = false) -> JS.findIndex p l = None.
Proof.
  induction l as [| x l IH]; intros H; [reflexivity|].
  cbn [JS.findIndex]. rewrite (H x) by (left; reflexivity).
  rewrite IH; [reflexivity|]. intros y Hy. apply H. right. exact Hy.
Qed.

(** Where [find] answers [x], [findIndex] answers the position of that
    [x], which no match precedes. *)
Lemma find_findIndex {A : Type} (p : A -> bool) (l : list A) (x : A) :
  find p l = Some x ->
  exists (i : nat) (l1 l2 : list A),
    l = l1 ++ x :: l2 /\
    (forall y, In y l1 -> p y = false) /\
    p x = true /\
    JS.findIndex p l = Some i /\
    nth_error l i = Some x /\
    forall v, JS.set_nth i v l = l1 ++ v :: l2.
Proof.
  induction l as [| y l IH]; intros H; [discriminate|].
  cbn [find] in H. destruct (p y) eqn:Hy.
  - injection H as ->. exists 0%nat, [], l.
    cbn [JS.findIndex]. rewrite Hy. repeat split. intros ? [].
  - destruct (IH H) as (i & l1 & l2 & Hl & Hl1 & Hx & Hi & Hn & Hset).
    exists (S i), (y :: l1), l2. cbn [JS.findIndex]. rewrite Hy, Hi.
    repeat split.
    + rewrite Hl. reflexivity.
    + intros z [-> | Hz]; [exact Hy | exact (Hl1 z Hz)].
    + exact Hx.
    + exact Hn.
    + intros v. cbn [JS.set_nth app]. rewrite Hset. reflexivity.
Qed.

End Acceptance.

(** ** The listing of pending requests *)

Section Listing.

Lemma sort_insert_perm {A : Type} (cmp : A -> A -> Z) (x : A) (l : list A) :
  Permutation (JS.sort_insert cmp x l) (x :: l).
Proof.
  induction l as [| y l IH]; cbn [JS.sort_insert]; [apply Permutation_refl|].
  destruct (cmp x y <=? 0)%Z; [apply Permutation_refl|].
  apply perm_trans with (y :: x :: l); [| apply perm_swap].
  apply perm_skip. exact IH.
Qed.

Lemma sort_perm {A : Type} (cmp : A -> A -> Z) (l : list A) :
  Permutation (JS.sort cmp l) l.
Proof.
  induction l as [| x l IH]; cbn [JS.sort]; [apply perm_nil|].
  apply perm_trans with (x :: JS.sort cmp l); [apply sort_insert_perm|].
  apply perm_skip. exact IH.
Qed.

Lemma tier_inj (p q : Priority) : Spec.tier p = Spec.tier q -> p = q.
Proof. destruct p, q; cbn; intros H; try reflexivity; discriminate. Qed.

(** The comparator puts [a] first exactly when [a] is before [b] in
    the listing order. *)
Lemma compareRequests_before (a b : Request.t) :
  (Waste.compareRequests a b <= 0)%Z <-> Spec.before a b.
Proof.
  unfold Waste.compareRequests, Spec.before, Spec.keysBefore, Spec.keys.
  cbn [fst snd].
  change Waste.priorityOrder with Spec.tier.
  destruct (Z.eqb_spec (Spec.tier (Request.priority b)
                        - Spec.tier (Request.priority a)) 0) as [E | E];
    cbn [negb].
  - assert (Request.priority a = Request.priority b)
      by (apply tier_inj; lia).
    split; [intros; right; split; [assumption | lia] |].
    intros [H1 | [_ H1]]; lia.
  - split; [intros; left; lia |].
    intros [H1 | [H1 _]]; [lia |]. rewrite H1 in E. lia.
Qed.

Lemma before_total (a b : Request.t) :
  (0 < Waste.compareRequests a b)%Z -> Spec.before b a.
Proof.
  unfold Waste.compareRequests, Spec.before, Spec.keysBefore, Spec.keys.
  cbn [fst snd].
  change Waste.priorityOrder with Spec.tier.
  destruct (Z.eqb_spec (Spec.tier (Request.priority b)
                        - Spec.tier (Request.priority a)) 0) as [E | E];
    cbn [negb]; intros H.
  - right. split; [apply tier_inj |]; lia.
  - left. lia.
Qed.

Lemma keysBefore_trans (k1 k2 k3 : Priority * Z) :
  Spec.keysBefore k1 k2 -> Spec.keysBefore k2 k3 -> Spec.keysBefore k1 k3.
Proof.
  unfold Spec.keysBefore.
  intros [H1 | [E1 H1]] [H2 | [E2 H2]].
  - left. lia.
  - left. rewrite <- E2. exact H1.
  - left. rewrite E1. exact H2.
  - right. split; [congruence | lia].
Qed.

Lemma keysBefore_antisym (k1 k2 : Priority * Z) :
  Spec.keysBefore k1 k2 -> Spec.keysBefore k2 k1 -> k1 = k2.
Proof.
  unfold Spec.keysBefore. destruct k1 as [p1 t1], k2 as [p2 t2]. cbn [fst snd].
  intros [H1 | [E1 H1]] [H2 | [E2 H2]]; try lia.
  - rewrite E2 in H1. lia.
  - rewrite E1 in H2. lia.
  - f_equal; [exact E1 | lia].
Qed.

Lemma before_trans (a b c : Request.t) :
  Spec.before a b -> Spec.before b c -> Spec.before a c.
Proof. unfold Spec.before. apply keysBefore_trans. Qed.

Lemma sort_insert_sorted (x : Request.t) (l : list Request.t) :
  StronglySorted Spec.before l ->
  StronglySorted Spec.before (JS.sort_insert Waste.compareRequests x l).
Proof.
  induction 1 as [| y l Hl IH Hy]; cbn [JS.sort_insert].
  - constructor; constructor.
  - destruct (Z.leb_spec (Waste.compareRequests x y) 0) as [Hc | Hc].
    + apply compareRequests_before in Hc.
      constructor; [constructor; assumption |].
      constructor; [exact Hc |].
      eapply Forall_impl; [| exact Hy].
      intros z Hz. exact (before_trans _ _ _ Hc Hz).
    + apply before_total in Hc.
      constructor; [exact IH |].
      apply (Permutation_Forall (Permutation_sym (sort_insert_perm _ x l))).
      constructor; assumption.
Qed.

Lemma sort_sorted (l : list Request.t) :
  StronglySorted Spec.before (JS.sort Waste.compareRequests l).
Proof.
  induction l as [| x l IH]; cbn [JS.sort]; [constructor|].
  apply sort_insert_sorted. exact IH.
Qed.

(** Two orderings of the same keys, both sorted, are the same. *)
Lemma sorted_keys_unique (k1 : list (Priority * Z)) :
  forall k2,
    Permutation k1 k2 ->
    StronglySorted Spec.keysBefore k1 ->
    StronglySorted Spec.keysBefore k2 ->
    k1 = k2.
Proof.
  induction k1 as [| a k1 IH]; intros k2 Hp H1 H2.
  - apply Permutation_nil in Hp. symmetry. exact Hp.
  - destruct k2 as [| b k2].
    { apply Permutation_sym, Permutation_nil in Hp. discriminate. }
    inversion H1 as [| ? ? H1' Ha]; subst.
    inversion H2 as [| ? ? H2' Hb]; subst.
    assert (Hab : a = b).
    { assert (Hina : In a (b :: k2))
        by (apply (Permutation_in _ Hp); left; reflexivity).
      assert (Hinb : In b (a :: k1))
        by (apply (Permutation_in _ (Permutation_sym Hp)); left; reflexivity).
      destruct Hina as [E | Hina]; [symmetry; exact E |].
      destruct Hinb as [E | Hinb]; [exact E |].
      rewrite Forall_forall in Ha, Hb.
      apply keysBefore_antisym; [apply Ha | apply Hb]; assumption. }
    subst b. f_equal. apply IH; try assumption.
    exact (Permutation_cons_inv Hp).
Qed.

Lemma sorted_map_keys (l : list Request.t) :
  StronglySorted Spec.before l ->
  StronglySorted Spec.keysBefore (map Spec.keys l).
Proof.
  induction 1 as [| x l Hl IH Hx]; cbn [map]; constructor; [exact IH |].
  apply Forall_map. exact Hx.
Qed.

(** Lists with the same keys in the same order, made of the same
    elements, are equal when no key occurs twice. *)
Lemma same_keys_same_list {A K : Type} (f : A -> K) (l1 : list A) :
  forall l2,
    map f l1 = map f l2 ->
    Permutation l1 l2 ->
    NoDup (map f l1) ->
    l1 = l2.
Proof.
  induction l1 as [| a l1 IH]; intros l2 Hk Hp Hnd.
  - apply Permutation_nil in Hp. symmetry. exact Hp.
  - destruct l2 as [| b l2]; [discriminate|].
    cbn [map] in Hk, Hnd. injection Hk as Hab Hk.
    apply NoDup_cons_iff in Hnd. destruct Hnd as [Hna Hnd].
    assert (E : a = b).
    { assert (Hinb : In b (a :: l1))
        by (apply (Permutation_in _ (Permutation_sym Hp)); left; reflexivity).
      destruct Hinb as [E | Hinb]; [exact E |].
      exfalso. apply Hna. rewrite Hab. apply in_map. exact Hinb. }
    subst b. f_equal. apply IH; try assumption.
    exact (Permutation_cons_inv Hp).
Qed.

Lemma loadPickupRequests_pending (s : State) (x : Request.t) :
  In x (Waste.loadPickupRequests s) ->
  In x (pickup_requests s) /\ Request.status x = pending.
Proof.
  unfold Waste.loadPickupRequests. intros H.
  apply (Permutation_in _ (sort_perm _ _)) in H.
  apply filter_In in H. destruct H as [Hin Hst].
  split; [exact Hin |]. destruct (Request.status x); [reflexivity | discriminate].
Qed.

Lemma filter_perm {A : Type} (p : A -> bool) (l l' : list A) :
  Permutation l l' -> Permutation (filter p l) (filter p l').
Proof.
  induction 1 as [| x l l' _ IH | x y l | l l' l'' _ IH1 _ IH2]; cbn [filter].
  - apply perm_nil.
  - destruct (p x); [apply perm_skip |]; exact IH.
  - destruct (p x), (p y); try apply Permutation_refl. apply perm_swap.
  - exact (perm_trans IH1 IH2).
Qed.

(** C6.  The listing holds exactly the stored requests whose status is
    pending, higher tier first and, within a tier, later creation
    first.  Storing the same requests in another order gives a listing
    with the same sequence of (tier, creation time) keys, and the same
    listing when no two pending requests have both keys equal.  A
    pending high request and a pending medium request are listed high
    first in whichever order they are stored and whenever they were
    created, so also when the medium one was created earlier. *)
Theorem list_pending_by_priority_then_recency :
  (forall s : State,
      (forall x, In x (Waste.loadPickupRequests s) <->
                 In x (pickup_requests s) /\ Request.status x = pending) /\
      Permutation (Waste.loadPickupRequests s)
        (filter (fun r => Status_eqb (Request.status r) pending)
                (pickup_requests s)) /\
      StronglySorted Spec.before (Waste.loadPickupRequests s)) /\
  (forall s1 s2 : State,
      Permutation (pickup_requests s1) (pickup_requests s2) ->
      map Spec.keys (Waste.loadPickupRequests s1)
        = map Spec.keys (Waste.loadPickupRequests s2) /\
      (NoDup (map Spec.keys (Waste.loadPickupRequests s1)) ->
       Waste.loadPickupRequests s1 = Waste.loadPickupRequests s2)) /\
  (forall (s : State) (hi med : Request.t),
      pickup_requests s = [med; hi] \/ pickup_requests s = [hi; med] ->
      Request.status hi = pending -> Request.status med = pending ->
      Request.priority hi = high -> Request.priority med = medium ->
      Waste.loadPickupRequests s = [hi; med]).
Proof.
  split; [| split].
  - intros s. split; [| split].
    + intros x. split; [apply loadPickupRequests_pending |].
      intros [Hin Hst]. unfold Waste.loadPickupRequests.
      apply (Permutation_in _ (Permutation_sym (sort_perm _ _))).
      apply filter_In. split; [exact Hin |]. rewrite Hst. reflexivity.
    + apply sort_perm.
    + apply sort_sorted.
  - intros s1 s2 Hp.
    assert (Hl : Permutation (Waste.loadPickupRequests s1)
                             (Waste.loadPickupRequests s2)).
    { unfold Waste.loadPickupRequests.
      eapply perm_trans; [apply sort_perm |].
      eapply perm_trans; [| apply Permutation_sym, sort_perm].
      apply filter_perm. exact Hp. }
    assert (Hk : map Spec.keys (Waste.loadPickupRequests s1)
                 = map Spec.keys (Waste.loadPickupRequests s2)).
    { apply sorted_keys_unique.
      - apply Permutation_map. exact Hl.
      - apply sorted_map_keys, sort_sorted.
      - apply sorted_map_keys, sort_sorted. }
    split; [exact Hk |].
    intros Hnd. exact (same_keys_same_list Spec.keys _ _ Hk Hl Hnd).
  - intros s hi med Hs Hsh Hsm Hph Hpm.
    unfold Waste.loadPickupRequests.
    destruct Hs as [-> | ->]; cbn [filter]; rewrite Hsh, Hsm;
      cbn [Status_eqb JS.sort JS.sort_insert];
      unfold Waste.compareRequests; rewrite Hph, Hpm; reflexivity.
Qed.

End Listing.

(** ** Outcomes of acceptance *)

(** Calls made while a collector is logged in. *)
Section ByCollector.

Variables (s : State) (u : User.t) (requestId : string) (now : Z).
Hypothesis logged_in : currentUser s = Some u.
Hypothesis is_collector : User.user_type u = "collector".

(** The identifier test of [acceptPickupRequest]. *)
Let has_id (x : Request.t) : bool := String.eqb (Request.id x) requestId.

(** The account after one more job worth [value]. *)
Let credited (value : Q) : User.t :=
  Auth.assign u
    (Updates.mk None None
       (Some (JS.or0 (User.earnings u) + value))
       (Some (JS.or0 (User.jobs_today u) + 1))).

(** The role guard lets a collector through. *)
Lemma acceptPickupRequest_collector :
  Waste.acceptPickupRequest s requestId now
  = match JS.findIndex has_id (pickup_requests s) with
    | None => (s, RequestNotFound)
    | Some requestIndex =>
        match nth_error (pickup_requests s) requestIndex with
        | None => (s, FailedToAccept)
        | Some request =>
            (Auth.updateUser
               (mkState (currentUser s) (wasteData s) (waste_inputs s)
                        (user_submissions s)
                        (JS.set_nth requestIndex
                           (Waste.acceptedBy request u now) (pickup_requests s))
                        (vangariwala_session s) (vangariwala_users s))
               (Updates.mk None None
                  (Some (JS.or0 (User.earnings u)
                         + Request.estimated_value request))
                  (Some (JS.or0 (User.jobs_today u) + 1))),
             RequestAccepted)
        end
    end.
Proof.
  unfold Waste.acceptPickupRequest, Auth.getCurrentUser.
  rewrite logged_in, is_collector. reflexivity.
Qed.

(** Acceptance of the request an identifier denotes: no condition on
    the request is checked. *)
Lemma acceptPickupRequest_found (r : Request.t) :
  find has_id (pickup_requests s) = Some r ->
  exists l1 l2 : list Request.t,
    pickup_requests s = l1 ++ r :: l2 /\
    (forall y, In y l1 -> Request.id y <> requestId) /\
    Waste.acceptPickupRequest s requestId now
    = (let u' := credited (Request.estimated_value r) in
       mkState (Some u') (wasteData s) (waste_inputs s) (user_submissions s)
               (l1 ++ Waste.acceptedBy r u now :: l2)
               (Some u')
               (if Auth.includes_at (User.email u') then vangariwala_users s
                else Auth.saveDemoUser (vangariwala_users s) u'),
       RequestAccepted).
Proof.
  intros Hf.
  destruct (find_findIndex _ _ _ Hf)
    as (i & l1 & l2 & Hl & Hl1 & _ & Hi & Hn & Hset).
  exists l1, l2. split; [exact Hl|]. split.
  - intros y Hy E. specialize (Hl1 y Hy). unfold has_id in Hl1.
    rewrite E, String.eqb_refl in Hl1. discriminate.
  - rewrite acceptPickupRequest_collector, Hi, Hn, Hset.
    unfold Auth.updateUser. cbn [currentUser]. rewrite logged_in.
    reflexivity.
Qed.

(** C2.  When the current user is a collector and the identifier
    denotes a pending request, acceptance succeeds: the stored request
    becomes accepted, carries the collector's identifier, name and
    phone and the acceptance time, and is otherwise as before; the
    other stored requests are untouched; the collector's account gets
    [earnings += estimated_value] and [jobs_today += 1], a field that
    is [undefined] counting as 0, and is otherwise as before. *)
Theorem accept_pending_succeeds (r : Request.t) :
  find (fun x => String.eqb (Request.id x) requestId) (pickup_requests s)
    = Some r ->
  Request.status r = pending ->
  let result := Waste.acceptPickupRequest s requestId now in
  snd result = RequestAccepted /\
  exists (l1 l2 : list Request.t) (r' : Request.t) (u' : User.t),
    pickup_requests s = l1 ++ r :: l2 /\
    pickup_requests (fst result) = l1 ++ r' :: l2 /\
    r' = Waste.acceptedBy r u now /\
    Request.status r' = accepted /\
    Request.collector_id r' = Some (User.id u) /\
    Request.collector_name r' = Some (User.name u) /\
    Request.collector_phone r' = Some (User.phone u) /\
    Request.accepted_at r' = Some now /\
    Request.id r' = Request.id r /\
    Request.submission_id r' = Request.submission_id r /\
    Request.estimated_value r' = Request.estimated_value r /\
    Request.priority r' = Request.priority r /\
    Request.created_at r' = Request.created_at r /\
    currentUser (fst result) = Some u' /\
    vangariwala_session (fst result) = Some u' /\
    (forall e : Q,
        User.earnings u = Some e ->
        User.earnings u' = Some (e + Request.estimated_value r)) /\
    (User.earnings u = None ->
     User.earnings u' = Some (0 + Request.estimated_value r)) /\
    (forall j : Q,
        User.jobs_today u = Some j -> User.jobs_today u' = Some (j + 1)) /\
    (User.jobs_today u = None -> User.jobs_today u' = Some (0 + 1)) /\
    User.points u' = User.points u /\
    User.co2_saved u' = User.co2_saved u /\
    User.id u' = User.id u /\
    User.email u' = User.email u /\
    User.name u' = User.name u /\
    User.phone u' = User.phone u /\
    User.address u' = User.address u /\
    User.user_type u' = User.user_type u /\
    user_submissions (fst result) = user_submissions s.
Proof.
  intros Hf _ result.
  destruct (acceptPickupRequest_found r Hf) as (l1 & l2 & Hl & _ & Hacc).
  subst result. rewrite Hacc. cbv zeta. cbn [fst snd].
  split; [reflexivity|].
  exists l1, l2. eexists. eexists.
  split; [exact Hl|].
  cbn [pickup_requests currentUser vangariwala_session user_submissions].
  do 14 (split; [reflexivity |]).
  unfold credited.
  cbn [Auth.assign User.earnings User.jobs_today Updates.earnings
       Updates.jobs_today].
  split; [intros e He; rewrite He; reflexivity |].
  split; [intros He; rewrite He; reflexivity |].
  split; [intros j Hj; rewrite Hj; reflexivity |].
  split; [intros Hj; rewrite Hj; reflexivity |].
  repeat split.
Qed.

(** C7.  When the current user is a collector and no stored request
    has the identifier, acceptance answers that the request is not
    found and returns the state it was given: stored requests and
    every account are as before. *)
Theorem accept_unknown_not_found :
  (forall r, In r (pickup_requests s) -> Request.id r <> requestId) ->
  Waste.acceptPickupRequest s requestId now = (s, RequestNotFound).
Proof.
  intros Hno.
  rewrite acceptPickupRequest_collector, findIndex_None; [reflexivity|].
  intros r Hr. apply String.eqb_neq. exact (Hno r Hr).
Qed.

(** C1, as the code has it.  Acceptance checks no status: when the
    current user is a collector and the identifier denotes a stored
    request, pending or not, acceptance succeeds, the stored request
    becomes accepted with this collector's stamp, and the collector's
    account gets [earnings += estimated_value] and [jobs_today += 1].
    What keeps an accepted request from being accepted again is the
    listing, which is where acceptance is offered: the request just
    accepted is not in it, and no request in it is other than
    pending. *)
Theorem accept_checks_no_status (r : Request.t) :
  find (fun x => String.eqb (Request.id x) requestId) (pickup_requests s)
    = Some r ->
  let result := Waste.acceptPickupRequest s requestId now in
  snd result = RequestAccepted /\
  (exists (l1 l2 : list Request.t) (u' : User.t),
      pickup_requests s = l1 ++ r :: l2 /\
      pickup_requests (fst result) = l1 ++ Waste.acceptedBy r u now :: l2 /\
      Request.status (Waste.acceptedBy r u now) = accepted /\
      Request.collector_id (Waste.acceptedBy r u now) = Some (User.id u) /\
      Request.accepted_at (Waste.acceptedBy r u now) = Some now /\
      currentUser (fst result) = Some u' /\
      User.earnings u'
        = Some (JS.or0 (User.earnings u) + Request.estimated_value r) /\
      User.jobs_today u' = Some (JS.or0 (User.jobs_today u) + 1)) /\
  ~ In (Waste.acceptedBy r u now) (Waste.loadPickupRequests (fst result)) /\
  (forall x, In x (Waste.loadPickupRequests (fst result)) ->
             Request.status x = pending).
Proof.
  intros Hf result.
  destruct (acceptPickupRequest_found r Hf) as (l1 & l2 & Hl & _ & Hacc).
  split; [| split; [| split]].
  - subst result. rewrite Hacc. reflexivity.
  - subst result. rewrite Hacc. cbv zeta. cbn [fst].
    exists l1, l2. eexists. split; [exact Hl|].
    cbn [pickup_requests currentUser]. repeat split.
  - intros Hin. apply loadPickupRequests_pending in Hin.
    destruct Hin as [_ Hst]. discriminate Hst.
  - intros x Hin. apply (loadPickupRequests_pending _ x Hin).
Qed.

End ByCollector.

Section ByOthers.

(** C10.  When the current user is no collector (or nobody is logged
    in), acceptance answers that only collectors can accept, whatever
    the identifier, and returns the state it was given. *)
Theorem accept_by_non_collector_rejected :
  forall (s : State) (requestId : string) (now : Z),
    (forall u, currentUser s = Some u -> User.user_type u <> "collector") ->
    Waste.acceptPickupRequest s requestId now = (s, OnlyCollectors).
Proof.
  intros s requestId now Hno.
  unfold Waste.acceptPickupRequest, Auth.getCurrentUser.
  destruct (currentUser s) as [u|]; [| reflexivity].
  specialize (Hno u eq_refl). apply String.eqb_neq in Hno.
  rewrite Hno. reflexivity.
Qed.

(** C1 fails on the code.  The demo collector accepts request [r1]
    (7 kg of plastic, estimated at 105) and then accepts it again: the
    second call finds the request accepted, succeeds all the same,
    stamps it anew and credits the account a second time. *)
Lemma accept_twice_credits_twice :
  let s1 := fst (Waste.acceptPickupRequest Demo.collector_session "r1" 3000) in
  let second := Waste.acceptPickupRequest s1 "r1" 4000 in
  option_map Request.status
    (find (fun x => String.eqb (Request.id x) "r1") (pickup_requests s1))
    = Some accepted /\
  snd second = RequestAccepted /\
  option_map Request.accepted_at
    (find (fun x => String.eqb (Request.id x) "r1") (pickup_requests s1))
    = Some (Some 3000%Z) /\
  option_map Request.accepted_at
    (find (fun x => String.eqb (Request.id x) "r1")
          (pickup_requests (fst second)))
    = Some (Some 4000%Z) /\
  match currentUser Demo.collector_session, currentUser s1,
        currentUser (fst second) with
  | Some u0, Some u1, Some u2 =>
      JS.or0 (User.earnings u0) == 2500 /\
      JS.or0 (User.earnings u1) == 2605 /\
      JS.or0 (User.earnings u2) == 2710 /\
      JS.or0 (User.jobs_today u0) == 3 /\
      JS.or0 (User.jobs_today u1) == 4 /\
      JS.or0 (User.jobs_today u2) == 5
  | _, _, _ => False
  end.
Proof.
  cbv zeta. repeat split; vm_compute; reflexivity.
Qed.

End ByOthers.

(** ** Numbers in binary64 *)

Section Numbers.

Lemma literal_zero : Number.literal 0 = Number.zero.
Proof. reflexivity. Qed.

(** [x > 0] holds of the positive Numbers. *)
Lemma gt_zero_positive (x : Number.t) :
  Number.gt x (Number.literal 0) = Number.positive x.
Proof.
  rewrite literal_zero.
  destruct x as [s | s | | s m e]; try destruct s; reflexivity.
Qed.

(** The integer [Math.round] computes on the mantissa is the floor of
    the value plus a half. *)
Lemma round_mantissa (m' : Z) (p : positive) :
  Z.shiftr (2 * m' + Z.shiftl 1 (Zpos p)) (1 - Zneg p)
  = Qfloor (Qmake m' (2 ^ p) + (1 # 2)).
Proof.
  unfold Qfloor, Qplus. cbn [Qnum Qden].
  replace (1 - Zneg p)%Z with (Z.succ (Zpos p)) by lia.
  rewrite Z.shiftr_div_pow2 by lia.
  rewrite Z.shiftl_mul_pow2 by lia.
  rewrite Pos2Z.inj_mul, Pos2Z.inj_pow, Z.pow_succ_r by lia.
  f_equal; ring.
Qed.

Lemma Math_round64_is_round (x : Number.t) :
  Number.Math_round x = Binary64.Spec.round x.
Proof.
  destruct x as [s | s | | s m [| p | p]]; try reflexivity.
  unfold Number.Math_round, Binary64.Spec.round, Number.exact.
  change (0 <=? Zneg p)%Z with false. cbv iota.
  change (- Zneg p)%Z with (Zpos p).
  rewrite round_mantissa. reflexivity.
Qed.

End Numbers.

(** ** The value calculator in binary64 *)

Section ValueCalculator64.

Lemma getWasteTypeInfo64_catalog (c : Binary64.WasteType) :
  In c Binary64.CONFIG.WASTE_TYPES ->
  Binary64.Utils.getWasteTypeInfo (Binary64.type c) = Some c.
Proof.
  unfold Binary64.CONFIG.WASTE_TYPES. cbn [In].
  intros H. repeat (destruct H as [H | H]; [subst c; reflexivity|]).
  contradiction.
Qed.

Lemma getWasteTypeInfo64_unknown (t : string) :
  (forall c, In c Binary64.CONFIG.WASTE_TYPES -> Binary64.type c <> t) ->
  Binary64.Utils.getWasteTypeInfo t = None.
Proof.
  intros H. unfold Binary64.Utils.getWasteTypeInfo.
  destruct (find _ _) as [c|] eqn:E; [|reflexivity].
  apply find_some in E. destruct E as [Hin Heq].
  apply String.eqb_eq in Heq. exfalso. exact (H c Hin Heq).
Qed.

(** C3.  On a catalogue category the value calculator answers
    [round (w * pointsFactor)], [round2 (w * emissionsFactor)] and
    [round2 (w * price)], the products being those of the Numbers, for
    every weight [w] and so for every [w >= 0]; on an identifier that
    is no catalogue category it answers zero three times. *)
Theorem valueFor_catalog_or_zero :
  (forall (c : Binary64.WasteType) (w : Number.t),
      In c Binary64.CONFIG.WASTE_TYPES ->
      Binary64.Utils.calculateWastePoints (Binary64.type c) w
        = Binary64.Spec.round (w * Binary64.Spec.pointsFactor c) /\
      Binary64.Utils.calculateCO2Saved (Binary64.type c) w
        = Binary64.Spec.round2 (w * Binary64.Spec.emissionsFactor c) /\
      Binary64.Utils.calculateTakaEarnings (Binary64.type c) w
        = Binary64.Spec.round2 (w * Binary64.Spec.price c)) /\
  (forall (t : string) (w : Number.t),
      (forall c, In c Binary64.CONFIG.WASTE_TYPES -> Binary64.type c <> t) ->
      Binary64.Utils.calculateWastePoints t w = Number.zero /\
      Binary64.Utils.calculateCO2Saved t w = Number.zero /\
      Binary64.Utils.calculateTakaEarnings t w = Number.zero).
Proof.
  split.
  - intros c w Hin.
    unfold Binary64.Utils.calculateWastePoints,
           Binary64.Utils.calculateCO2Saved,
           Binary64.Utils.calculateTakaEarnings, Binary64.Spec.round2.
    rewrite (getWasteTypeInfo64_catalog c Hin), !Math_round64_is_round.
    repeat split.
  - intros t w Hun.
    unfold Binary64.Utils.calculateWastePoints,
           Binary64.Utils.calculateCO2Saved,
           Binary64.Utils.calculateTakaEarnings.
    rewrite (getWasteTypeInfo64_unknown t Hun).
    repeat split.
Qed.

End ValueCalculator64.

(** ** Batch valuation in binary64 *)

Section Batch64.

Ltac by_catalogue64 t :=
  unfold Binary64.Utils.calculateWastePoints,
         Binary64.Utils.calculateCO2Saved,
         Binary64.Utils.calculateTakaEarnings,
         Binary64.Spec.valueOf, Binary64.Spec.valueFor, Binary64.Spec.round2;
  cbn [fst snd];
  change (Binary64.Spec.category t) with (Binary64.Utils.getWasteTypeInfo t);
  destruct (Binary64.Utils.getWasteTypeInfo t); [| reflexivity];
  rewrite Math_round64_is_round; reflexivity.

Lemma calculateWastePoints64_valueOf (t : string) (w : Number.t) :
  Binary64.Utils.calculateWastePoints t w
  = Binary64.Spec.points (Binary64.Spec.valueOf (t, w)).
Proof. by_catalogue64 t. Qed.

Lemma calculateCO2Saved64_valueOf (t : string) (w : Number.t) :
  Binary64.Utils.calculateCO2Saved t w
  = Binary64.Spec.emissionsAvoided (Binary64.Spec.valueOf (t, w)).
Proof. by_catalogue64 t. Qed.

Lemma calculateTakaEarnings64_valueOf (t : string) (w : Number.t) :
  Binary64.Utils.calculateTakaEarnings t w
  = Binary64.Spec.value (Binary64.Spec.valueOf (t, w)).
Proof. by_catalogue64 t. Qed.

(** The loop of [updateWasteSummary] goes on accumulating, in each
    running total, the values of the inputs of positive weight, in
    their order. *)
Lemma fold_addInput64 (l : list (string * Number.t)) :
  forall a b c d : Number.t,
    let kept := Binary64.Spec.positive l in
    let over (f : Binary64.Spec.Value -> Number.t) (start : Number.t) :=
      fold_left Number.add (map (fun e => f (Binary64.Spec.valueOf e)) kept)
                start in
    fold_left Binary64.Waste.addInput l (a, b, c, d)
    = (fold_left Number.add (map snd kept) a,
       over Binary64.Spec.points b,
       over Binary64.Spec.emissionsAvoided c,
       over Binary64.Spec.value d).
Proof.
  induction l as [| [t w] l IH]; intros a b c d; [reflexivity |].
  cbv zeta in IH |- *.
  cbn [fold_left]. unfold Binary64.Waste.addInput at 2.
  rewrite gt_zero_positive.
  unfold Binary64.Spec.positive. cbn [filter snd].
  fold (Binary64.Spec.positive l).
  destruct (Number.positive w).
  - rewrite IH. cbn [map fold_left snd].
    rewrite calculateWastePoints64_valueOf, calculateCO2Saved64_valueOf,
            calculateTakaEarnings64_valueOf.
    reflexivity.
  - apply IH.
Qed.

(** With one input per type, the loop of [getWasteTypeBreakdown]
    appends one entry per input of positive weight, in order. *)
Lemma fold_breakdown64 (l : list (string * Number.t)) :
  forall acc : Binary64.Breakdown,
    NoDup (map fst l) ->
    (forall k, In k (map fst l) -> ~ In k (map fst acc)) ->
    fold_left
      (fun breakdown input =>
         let '(wasteType, weight) := input in
         if Number.gt weight (Number.literal 0) then
           JS.obj_set wasteType
             (Binary64.Entry.mk weight
                (Binary64.Utils.calculateWastePoints wasteType weight)
                (Binary64.Utils.calculateCO2Saved wasteType weight)
                (Binary64.Utils.calculateTakaEarnings wasteType weight))
             breakdown
         else breakdown)
      l acc
    = (acc
       ++ map (fun e =>
                 (fst e,
                  Binary64.Entry.mk (snd e)
                    (Binary64.Utils.calculateWastePoints (fst e) (snd e))
                    (Binary64.Utils.calculateCO2Saved (fst e) (snd e))
                    (Binary64.Utils.calculateTakaEarnings (fst e) (snd e))))
              (Binary64.Spec.positive l))%list.
Proof.
  induction l as [| [t w] l IH]; intros acc Hnd Hfresh.
  - cbn. rewrite app_nil_r. reflexivity.
  - cbn [fold_left]. rewrite gt_zero_positive.
    unfold Binary64.Spec.positive. cbn [filter snd].
    fold (Binary64.Spec.positive l).
    cbn [map fst] in Hnd. apply NoDup_cons_iff in Hnd.
    destruct Hnd as [Ht Hnd].
    destruct (Number.positive w).
    + rewrite obj_set_fresh by (apply Hfresh; left; reflexivity).
      rewrite IH; [| exact Hnd |].
      * cbn [map fst snd]. rewrite <- app_assoc. reflexivity.
      * intros k Hk Hin. rewrite map_app in Hin. apply in_app_or in Hin.
        destruct Hin as [Hin | [Hin | []]].
        -- apply (Hfresh k); [right; exact Hk | exact Hin].
        -- cbn [fst] in Hin. subst k. exact (Ht Hk).
    + apply IH; [exact Hnd |].
      intros k Hk. apply Hfresh. right. exact Hk.
Qed.

(** C4.  Whatever the weight inputs, the totals of the summary are the
    sums, over the inputs of positive weight and in their order, of
    the weights and of the per-category points, emissions and values,
    each already rounded for its category; with one input per category
    the breakdown lists exactly these per-category values.  At plastic
    2 kg and paper 1 kg the totals are 3, 30, 2.8 and 32.  Rounding
    the summed emissions once instead gives another total on some
    batch. *)
Theorem valueForBatch_sums_rounded_values :
  (forall inputs : list (string * Number.t),
      let wd := Binary64.Waste.updateWasteSummary inputs in
      let batch := Binary64.Spec.valueForBatch inputs in
      Binary64.WasteData.totalWeight wd = Binary64.Spec.totalWeight batch /\
      Binary64.WasteData.totalPoints wd = Binary64.Spec.totalPoints batch /\
      Binary64.WasteData.totalCO2 wd = Binary64.Spec.totalEmissions batch /\
      Binary64.WasteData.totalTaka wd = Binary64.Spec.totalValue batch /\
      (NoDup (map fst inputs) ->
       map Binary64.Spec.ofEntry (Binary64.WasteData.wasteTypes wd)
       = Binary64.Spec.perCategory batch)) /\
  (let wd := Binary64.Waste.updateWasteSummary
               [("plastic", Number.literal 2); ("paper", Number.literal 1)] in
   Binary64.Spec.category "plastic"
     = Some (Binary64.mkWasteType "plastic" (Number.literal 1.2)
               (Number.literal 10) (Number.literal 12)) /\
   Binary64.Spec.category "paper"
     = Some (Binary64.mkWasteType "paper" (Number.literal 0.4)
               (Number.literal 10) (Number.literal 8)) /\
   Binary64.WasteData.totalWeight wd = Number.literal 3 /\
   Binary64.WasteData.totalPoints wd = Number.literal 30 /\
   Binary64.WasteData.totalCO2 wd = Number.literal 2.8 /\
   Binary64.WasteData.totalTaka wd = Number.literal 32) /\
  (exists inputs : list (string * Number.t),
      Number.strict_eq
        (Binary64.WasteData.totalCO2 (Binary64.Waste.updateWasteSummary inputs))
        (Binary64.Spec.emissionsRoundedOnce inputs) = false).
Proof.
  split; [| split].
  - intros inputs wd batch. subst wd batch.
    unfold Binary64.Waste.updateWasteSummary, Binary64.Spec.valueForBatch,
           Binary64.Spec.sum.
    rewrite literal_zero, fold_addInput64.
    cbn [Binary64.WasteData.totalWeight Binary64.WasteData.totalPoints
         Binary64.WasteData.totalCO2 Binary64.WasteData.totalTaka
         Binary64.WasteData.wasteTypes
         Binary64.Spec.totalWeight Binary64.Spec.totalPoints
         Binary64.Spec.totalEmissions Binary64.Spec.totalValue
         Binary64.Spec.perCategory].
    repeat split.
    intros Hnd. unfold Binary64.Waste.getWasteTypeBreakdown.
    rewrite fold_breakdown64; [| exact Hnd | intros k _ []].
    cbn [app]. rewrite map_map. apply map_ext. intros [t w].
    unfold Binary64.Spec.ofEntry.
    cbn [fst snd Binary64.Entry.weight Binary64.Entry.points
         Binary64.Entry.co2_saved Binary64.Entry.taka_earned].
    rewrite calculateWastePoints64_valueOf, calculateCO2Saved64_valueOf,
            calculateTakaEarnings64_valueOf.
    destruct (Binary64.Spec.valueOf (t, w)); reflexivity.
  - cbv zeta. repeat split; vm_compute; reflexivity.
  - exists [("plastic", Number.literal 0.004); ("paper", Number.literal 0.01)].
    vm_compute. reflexivity.
Qed.

End Batch64.

(** ** The two rate tables in binary64 *)

Section Rates64.



End Rates64.

(** ** The properties at the demo data *)

Section DemoChecks.

(** The household's 12 kg submission gets one high-priority request,
    and the submission of the filled-in form one request. *)
Lemma enqueue_one_pending_request_witness :
  (currentUser Demo.household_session = Some Demo.HOUSEHOLD /\
   10 <= Submission.total_weight Demo.submission12 /\
   exists r : Request.t,
     pickup_requests
       (Waste.createPickupRequest Demo.household_session Demo.submission12
                                  "r12" 600)
       = pickup_requests Demo.household_session ++ [r] /\
     Request.status r = pending /\
     Request.submission_id r = "s12" /\
     Request.priority r = high) /\
  (snd (Waste.handleWasteSubmission Demo.household_session "s1" "q1" 100 101)
     = WasteSubmitted /\
   exists (sub : Submission.t) (r : Request.t),
     user_submissions
       (fst (Waste.handleWasteSubmission Demo.household_session
               "s1" "q1" 100 101)) = [sub] /\
     pickup_requests
       (fst (Waste.handleWasteSubmission Demo.household_session
               "s1" "q1" 100 101)) = [r] /\
     Request.submission_id r = Submission.id sub /\
     Request.status r = pending).
Proof.
  assert (Hu : currentUser Demo.household_session = Some Demo.HOUSEHOLD)
    by reflexivity.
  assert (Hw : 10 <= Submission.total_weight Demo.submission12)
    by (vm_compute; discriminate).
  assert (Hok : snd (Waste.handleWasteSubmission Demo.household_session
                       "s1" "q1" 100 101) = WasteSubmitted) by reflexivity.
  split.
  - split; [exact Hu |]. split; [exact Hw |].
    destruct (proj1 enqueue_one_pending_request Demo.household_session
                Demo.submission12 "r12" 600%Z Demo.HOUSEHOLD Hu)
      as (r & Hreqs & Hst & Hsub & Hhigh & _).
    exists r.
    repeat split; [exact Hreqs | exact Hst | exact Hsub | exact (Hhigh Hw)].
  - split; [exact Hok |].
    destruct (proj1 (proj2 enqueue_one_pending_request)
                Demo.household_session "s1" "q1" 100%Z 101%Z Hok)
      as (sub & r & Hsubs & Hreqs & _ & Href & Hst & _).
    exists sub, r.
    repeat split; [exact Hsubs | exact Hreqs | exact Href | exact Hst].
Defined.

(** Two pending requests stored medium first are listed high first,
    as they are when stored high first. *)
Lemma list_pending_by_priority_then_recency_witness :
  (pickup_requests Demo.collector_session
     = [Demo.request "r1" 7 1000; Demo.request "r2" 12 2000] /\
   Request.priority (Demo.request "r2" 12 2000) = high /\
   Request.priority (Demo.request "r1" 7 1000) = medium /\
   Waste.loadPickupRequests Demo.collector_session
     = [Demo.request "r2" 12 2000; Demo.request "r1" 7 1000]) /\
  (Permutation (pickup_requests Demo.collector_session)
               (pickup_requests Demo.collector_session_swapped) /\
   NoDup (map Spec.keys (Waste.loadPickupRequests Demo.collector_session)) /\
   Waste.loadPickupRequests Demo.collector_session
     = Waste.loadPickupRequests Demo.collector_session_swapped).
Proof.
  split.
  - split; [reflexivity |]. split; [reflexivity |]. split; [reflexivity |].
    apply (proj2 (proj2 list_pending_by_priority_then_recency)
             Demo.collector_session
             (Demo.request "r2" 12 2000) (Demo.request "r1" 7 1000));
      try reflexivity.
    left. reflexivity.
  - assert (Hp : Permutation (pickup_requests Demo.collector_session)
                             (pickup_requests Demo.collector_session_swapped))
      by apply perm_swap.
    assert (Hnd : NoDup (map Spec.keys
                           (Waste.loadPickupRequests Demo.collector_session))).
    { change (NoDup [(high, 2000%Z); (medium, 1000%Z)]).
      apply NoDup_cons; [| apply NoDup_cons; [intros [] | apply NoDup_nil]].
      intros [H | []]. discriminate H. }
    split; [exact Hp |]. split; [exact Hnd |].
    exact (proj2 (proj1 (proj2 list_pending_by_priority_then_recency)
                    Demo.collector_session Demo.collector_session_swapped Hp)
                 Hnd).
Defined.

(** The demo collector, at earnings 2500 and 3 jobs, accepts the
    pending request [r1], estimated at 105: the earnings are 2605 and
    the jobs 4. *)
Lemma accept_pending_succeeds_witness :
  currentUser Demo.collector_session = Some Demo.COLLECTOR /\
  find (fun x => String.eqb (Request.id x) "r1")
       (pickup_requests Demo.collector_session)
    = Some (Demo.request "r1" 7 1000) /\
  Request.status (Demo.request "r1" 7 1000) = pending /\
  Request.estimated_value (Demo.request "r1" 7 1000) = 105 /\
  User.earnings Demo.COLLECTOR = Some 2500 /\
  User.jobs_today Demo.COLLECTOR = Some 3 /\
  snd (Waste.acceptPickupRequest Demo.collector_session "r1" 3000)
    = RequestAccepted /\
  pickup_requests
    (fst (Waste.acceptPickupRequest Demo.collector_session "r1" 3000))
    = [Demo.r1_accepted; Demo.request "r2" 12 2000] /\
  Request.status Demo.r1_accepted = accepted /\
  Request.collector_id Demo.r1_accepted = Some "demo_collector_1" /\
  Request.accepted_at Demo.r1_accepted = Some 3000%Z /\
  exists u' : User.t,
    currentUser
      (fst (Waste.acceptPickupRequest Demo.collector_session "r1" 3000))
      = Some u' /\
    User.earnings u' = Some 2605 /\
    User.jobs_today u' = Some 4.
Proof.
  split; [reflexivity |]. split; [reflexivity |]. split; [reflexivity |].
  split; [reflexivity |]. split; [reflexivity |]. split; [reflexivity |].
  pose proof (accept_pending_succeeds Demo.collector_session Demo.COLLECTOR
                "r1" 3000%Z eq_refl eq_refl (Demo.request "r1" 7 1000)
                eq_refl eq_refl) as H.
  cbv zeta in H.
  destruct H
    as (Hok & l1 & l2 & r' & u' & _ & _ & _ & _ & _ & _ & _ & _
        & _ & _ & _ & _ & _ & Hu' & _ & He & _ & Hj & _).
  split; [exact Hok |].
  split; [reflexivity |]. split; [reflexivity |]. split; [reflexivity |].
  split; [reflexivity |].
  exists u'. split; [exact Hu' |].
  split; [exact (He 2500 eq_refl) | exact (Hj 3 eq_refl)].
Defined.

(** The demo collector accepts [r1], already accepted, once more. *)
Lemma accept_checks_no_status_witness :
  currentUser Demo.accepted_session = Some Demo.COLLECTOR_after_r1 /\
  find (fun x => String.eqb (Request.id x) "r1")
       (pickup_requests Demo.accepted_session) = Some Demo.r1_accepted /\
  Request.status Demo.r1_accepted = accepted /\
  snd (Waste.acceptPickupRequest Demo.accepted_session "r1" 4000)
    = RequestAccepted.
Proof.
  split; [reflexivity |]. split; [reflexivity |]. split; [reflexivity |].
  exact (proj1 (accept_checks_no_status Demo.accepted_session
                  Demo.COLLECTOR_after_r1 "r1" 4000%Z eq_refl eq_refl
                  Demo.r1_accepted eq_refl)).
Defined.

(** No stored request is called [nonexistent]. *)
Lemma accept_unknown_not_found_witness :
  Waste.acceptPickupRequest Demo.collector_session "nonexistent" 3000
  = (Demo.collector_session, RequestNotFound).
Proof.
  apply (accept_unknown_not_found Demo.collector_session Demo.COLLECTOR
           "nonexistent" 3000%Z eq_refl eq_refl).
  intros r Hr. cbn [Demo.collector_session pickup_requests In] in Hr.
  destruct Hr as [<- | [<- | []]]; discriminate.
Defined.

(** The demo household cannot accept. *)
Lemma accept_by_non_collector_rejected_witness :
  Waste.acceptPickupRequest Demo.household_session "r1" 3000
  = (Demo.household_session, OnlyCollectors).
Proof.
  apply (accept_by_non_collector_rejected Demo.household_session "r1" 3000%Z).
  intros u Hu. injection Hu as <-. discriminate.
Defined.

(** The demo household, at 150 points and 25.5 kg, submits plastic
    2 kg and paper 1 kg. *)
Lemma submission_credits_only_points_and_co2_witness :
  (snd (Waste.handleWasteSubmission Demo.household_session "s1" "q1" 100 101)
     = WasteSubmitted /\
   exists u u' : User.t,
     currentUser Demo.household_session = Some u /\
     currentUser
       (fst (Waste.handleWasteSubmission Demo.household_session
               "s1" "q1" 100 101)) = Some u' /\
     User.earnings u' = User.earnings u /\
     User.jobs_today u' = User.jobs_today u) /\
  (Spec.positive (waste_inputs Demo.household_session)
     = [("plastic", 2); ("paper", 1)] /\
   Spec.twoDecimals (JS.or0 (User.co2_saved Demo.HOUSEHOLD)) /\
   exists u' : User.t,
     currentUser
       (fst (Waste.handleWasteSubmission
               (Waste.updateWasteSummary Demo.household_session)
               "s1" "q1" 100 101)) = Some u' /\
     JS.or0 (User.points u') == 150 + 30 /\
     JS.or0 (User.co2_saved u') == 25.5 + 2.80).
Proof.
  assert (Hok : snd (Waste.handleWasteSubmission Demo.household_session
                       "s1" "q1" 100 101) = WasteSubmitted) by reflexivity.
  assert (Hpos : Spec.positive (waste_inputs Demo.household_session)
                 = [("plastic", 2); ("paper", 1)]) by reflexivity.
  assert (Htwo : Spec.twoDecimals (JS.or0 (User.co2_saved Demo.HOUSEHOLD)))
    by (exists 2550%Z; reflexivity).
  split.
  - split; [exact Hok |].
    destruct (proj1 submission_credits_only_points_and_co2
                Demo.household_session "s1" "q1" 100%Z 101%Z Hok)
      as (u & u' & Hu & Hu' & _ & _ & He & Hj & _).
    exists u, u'. repeat split; assumption.
  - split; [exact Hpos |]. split; [exact Htwo |].
    destruct (proj2 submission_credits_only_points_and_co2
                Demo.household_session "s1" "q1" 100%Z 101%Z Demo.HOUSEHOLD
                eq_refl Hpos Htwo)
      as (_ & u' & Hu' & Hp & Hc & _).
    exists u'. repeat split; assumption.
Defined.

(** Metal is a catalogue category: 4.1 kg of it are worth 61 points,
    the product [4.1 * 15] being the Number just below 61.5; wood is
    no category and is worth nothing. *)
Lemma valueFor_catalog_or_zero_witness :
  (In Demo.metal64 Binary64.CONFIG.WASTE_TYPES /\
   (exists q : Q,
       Number.exact (Number.literal 4.1 * Number.literal 15)%num = Some q /\
       61 < q /\ q < 61.5) /\
   Binary64.Utils.calculateWastePoints "metal" (Number.literal 4.1)
     = Number.literal 61 /\
   Binary64.Utils.calculateCO2Saved "metal" (Number.literal 4.1)
     = Number.literal 0.41 /\
   Binary64.Utils.calculateTakaEarnings "metal" (Number.literal 4.1)
     = Number.literal 184.5) /\
  ((forall c, In c Binary64.CONFIG.WASTE_TYPES -> Binary64.type c <> "wood") /\
   Binary64.Utils.calculateWastePoints "wood" (Number.literal 2)
     = Number.zero /\
   Binary64.Utils.calculateTakaEarnings "wood" (Number.literal 2)
     = Number.zero).
Proof.
  assert (Hin : In Demo.metal64 Binary64.CONFIG.WASTE_TYPES)
    by (do 3 right; left; reflexivity).
  assert (Hout : forall c, In c Binary64.CONFIG.WASTE_TYPES ->
                           Binary64.type c <> "wood").
  { intros c Hc. unfold Binary64.CONFIG.WASTE_TYPES in Hc. cbn [In] in Hc.
    repeat (destruct Hc as [Hc | Hc]; [subst c; discriminate|]).
    contradiction. }
  destruct (proj1 valueFor_catalog_or_zero Demo.metal64 (Number.literal 4.1)
              Hin) as (Hp & Hc & Ht).
  destruct (proj2 valueFor_catalog_or_zero "wood" (Number.literal 2) Hout)
    as (Hp0 & _ & Ht0).
  split; [split; [exact Hin |] | split; [exact Hout |]].
  - split.
    { eexists. split; [vm_compute; reflexivity |].
      split; vm_compute; reflexivity. }
    change (Binary64.type Demo.metal64) with "metal" in Hp, Hc, Ht.
    rewrite Hp, Hc, Ht. repeat split; vm_compute; reflexivity.
  - split; [exact Hp0 | exact Ht0].
Defined.

(** The six inputs of the form have six different types; plastic
    2 kg and paper 1 kg are the two that are kept. *)
Lemma valueForBatch_sums_rounded_values_witness :
  NoDup (map fst Demo.inputs64) /\
  map Binary64.Spec.ofEntry
      (Binary64.WasteData.wasteTypes
         (Binary64.Waste.updateWasteSummary Demo.inputs64))
  = Binary64.Spec.perCategory (Binary64.Spec.valueForBatch Demo.inputs64) /\
  Binary64.WasteData.totalPoints
    (Binary64.Waste.updateWasteSummary Demo.inputs64) = Number.literal 30 /\
  Binary64.WasteData.totalCO2
    (Binary64.Waste.updateWasteSummary Demo.inputs64) = Number.literal 2.8.
Proof.
  assert (Hnd : NoDup (map fst Demo.inputs64)).
  { unfold Demo.inputs64, Demo.inputs. cbn [map fst].
    repeat (apply NoDup_cons;
            [cbn [In]; intros H;
             repeat (destruct H as [H | H]; [discriminate H|]); exact H |]).
    apply NoDup_nil. }
  destruct (proj1 valueForBatch_sums_rounded_values Demo.inputs64)
    as (_ & Hp & Hc & _ & Hb).
  split; [exact Hnd |]. split; [exact (Hb Hnd) |].
  rewrite Hp, Hc. split; vm_compute; reflexivity.
Defined.


End DemoChecks.

(** * Further properties of the code *)

(** ** Matching by derivatives is membership *)

Module RegExpFacts.

Import RegExp.

Lemma seq_inv r1 r2 s :
  matches (Seq r1 r2) s ->
  exists s1 s2, s = s1 ++ s2 /\ matches r1 s1 /\ matches r2 s2.
Proof. intros H. inversion H; subst. eexists _, _. repeat split; eassumption. Qed.

Lemma alt_inv r1 r2 s : matches (Alt r1 r2) s -> matches r1 s \/ matches r2 s.
Proof. intros H. inversion H; subst; [left | right]; assumption. Qed.

Lemma class_inv p s : matches (Class p) s -> exists c, s = [c] /\ p c = true.
Proof. intros H. inversion H; subst. eexists. split; [reflexivity | assumption]. Qed.

Lemma seq_cons r1 r2 c s1 s2 :
  matches r1 (c :: s1) -> matches r2 s2 -> matches (Seq r1 r2) (c :: s1 ++ s2).
Proof. intros H1 H2. exact (MSeq r1 r2 (c :: s1) s2 H1 H2). Qed.

Lemma nullable_matches r : nullable r = true <-> matches r [].
Proof.
  induction r; cbn [nullable]; split; intros H.
  - discriminate.
  - inversion H.
  - constructor.
  - reflexivity.
  - discriminate.
  - inversion H.
  - apply andb_true_iff in H. destruct H as [H1 H2].
    apply (MSeq r1 r2 [] []); [apply IHr1 | apply IHr2]; assumption.
  - apply seq_inv in H. destruct H as (s1 & s2 & E & H1 & H2).
    symmetry in E. apply app_eq_nil in E. destruct E; subst.
    apply andb_true_iff. split; [apply IHr1 | apply IHr2]; assumption.
  - apply orb_true_iff in H.
    destruct H as [H | H]; [apply MAltL, IHr1 | apply MAltR, IHr2]; assumption.
  - apply orb_true_iff. apply alt_inv in H.
    destruct H; [left; apply IHr1 | right; apply IHr2]; assumption.
  - constructor.
  - reflexivity.
Qed.

Lemma star_cons r c s :
  matches (Star r) (c :: s) ->
  exists s1 s2, s = s1 ++ s2 /\ matches r (c :: s1) /\ matches (Star r) s2.
Proof.
  intros H. remember (Star r) as r' eqn:Er. remember (c :: s) as cs eqn:Ecs.
  revert s Ecs.
  induction H; try discriminate.
  intros s Ecs. injection Er as ->.
  destruct s1 as [| c' s1'].
  - cbn in Ecs. apply IHmatches2; [reflexivity | exact Ecs].
  - cbn in Ecs. injection Ecs as -> <-.
    exists s1', s2. repeat split; assumption.
Qed.

Lemma deriv_matches r : forall c s, matches (deriv c r) s <-> matches r (c :: s).
Proof.
  induction r; intros c s; cbn [deriv].
  - split; intros H; inversion H.
  - split; intros H; inversion H.
  - destruct (p c) eqn:E; split; intros H.
    + inversion H; subst. constructor. exact E.
    + apply class_inv in H. destruct H as (c' & E' & _). injection E' as _ ->. constructor.
    + inversion H.
    + apply class_inv in H. destruct H as (c' & E' & Hp). injection E' as -> _. congruence.
  - assert (Hseq : matches (Seq (deriv c r1) r2) s <->
                   exists s1 s2, s = s1 ++ s2 /\ matches r1 (c :: s1) /\ matches r2 s2).
    { split.
      - intros H. apply seq_inv in H. destruct H as (s1 & s2 & -> & H1 & H2).
        exists s1, s2. split; [reflexivity |]. split; [apply IHr1 |]; assumption.
      - intros (s1 & s2 & -> & H1 & H2). constructor; [apply IHr1 |]; assumption. }
    assert (Hcons : matches (Seq r1 r2) (c :: s) <->
                    (matches r1 [] /\ matches r2 (c :: s)) \/
                    exists s1 s2, s = s1 ++ s2 /\ matches r1 (c :: s1) /\ matches r2 s2).
    { split.
      - intros H. apply seq_inv in H. destruct H as (s1 & s2 & E & H1 & H2).
        destruct s1 as [| c' s1'].
        + cbn in E. subst s2. left. split; assumption.
        + cbn in E. injection E as <- ->. right. exists s1', s2. repeat split; assumption.
      - intros [[H1 H2] | (s1 & s2 & -> & H1 & H2)].
        + exact (MSeq r1 r2 [] (c :: s) H1 H2).
        + apply seq_cons; assumption. }
    rewrite Hcons.
    destruct (nullable r1) eqn:En.
    + split.
      * intros H. apply alt_inv in H. destruct H as [H | H].
        -- right. apply Hseq. exact H.
        -- left. split; [apply nullable_matches; exact En | apply IHr2; exact H].
      * intros [[_ H2] | H].
        -- apply MAltR, IHr2. exact H2.
        -- apply MAltL, Hseq. exact H.
    + rewrite Hseq. split.
      * intros H. right. exact H.
      * intros [[H1 _] | H]; [| exact H].
        apply nullable_matches in H1. congruence.
  - split; intros H.
    + apply alt_inv in H.
      destruct H; [apply MAltL, IHr1 | apply MAltR, IHr2]; assumption.
    + apply alt_inv in H.
      destruct H; [apply MAltL, IHr1 | apply MAltR, IHr2]; assumption.
  - split.
    + intros H. apply seq_inv in H. destruct H as (s1 & s2 & -> & H1 & H2).
      exact (MStarApp r (c :: s1) s2 (proj1 (IHr c s1) H1) H2).
    + intros H. apply star_cons in H. destruct H as (s1 & s2 & -> & H1 & H2).
      constructor; [apply IHr |]; assumption.
Qed.

Lemma test_matches s : forall r, test r s = true <-> matches r (list_ascii_of_string s).
Proof.
  induction s as [| c s IH]; intros r; cbn [test list_ascii_of_string].
  - apply nullable_matches.
  - rewrite IH. apply deriv_matches.
Qed.

Lemma lit_matches p : forall l, matches (Lit p) l <-> l = list_ascii_of_string p.
Proof.
  induction p as [| c p IH]; intros l; cbn [Lit list_ascii_of_string].
  - split; intros H; [inversion H; reflexivity | subst; constructor].
  - split.
    + intros H. apply seq_inv in H. destruct H as (s1 & s2 & -> & H1 & H2).
      apply class_inv in H1. destruct H1 as (c' & -> & E).
      apply Ascii.eqb_eq in E. subst c'. apply IH in H2. subst. reflexivity.
    + intros ->. apply (MSeq _ _ [c] (list_ascii_of_string p)).
      * constructor. apply Ascii.eqb_refl.
      * apply IH. reflexivity.
Qed.

Lemma repeat_class_matches p n : forall l,
  matches (Repeat n (Class p)) l <-> List.length l = n /\ Forall (fun c => p c = true) l.
Proof.
  induction n as [| n IH]; intros l; cbn [Repeat].
  - split.
    + intros H. inversion H. split; [reflexivity | constructor].
    + intros [H _]. apply length_zero_iff_nil in H. subst. constructor.
  - split.
    + intros H. apply seq_inv in H. destruct H as (s1 & s2 & -> & H1 & H2).
      apply class_inv in H1. destruct H1 as (c & -> & E).
      apply IH in H2. destruct H2 as [Hl Hf]. cbn. split; [lia |].
      constructor; assumption.
    + intros [Hl Hf]. destruct l as [| c l]; [discriminate |].
      inversion Hf; subst. apply (MSeq _ _ [c] l).
      * constructor. assumption.
      * apply IH. split; [cbn in Hl; lia | assumption].
Qed.

Lemma star_class_matches p l :
  matches (Star (Class p)) l <-> Forall (fun c => p c = true) l.
Proof.
  split.
  - induction l as [| c l IH]; intros H; [constructor |].
    apply star_cons in H. destruct H as (s1 & s2 & -> & H1 & H2).
    apply class_inv in H1. destruct H1 as (c' & E & Hp).
    injection E as -> ->. constructor; [exact Hp | apply IH; exact H2].
  - induction 1 as [| c l Hc _ IH]; [constructor |].
    apply (MStarApp _ [c] l); [constructor; exact Hc | exact IH].
Qed.

Lemma plus_class_matches p l :
  matches (Plus (Class p)) l <-> l <> [] /\ Forall (fun c => p c = true) l.
Proof.
  unfold Plus. split.
  - intros H. apply seq_inv in H. destruct H as (s1 & s2 & -> & H1 & H2).
    apply class_inv in H1. destruct H1 as (c & -> & Hp).
    apply star_class_matches in H2. split; [discriminate |].
    constructor; assumption.
  - intros [Hne Hf]. destruct l as [| c l]; [congruence |].
    inversion Hf; subst. apply (MSeq _ _ [c] l).
    + constructor. assumption.
    + apply star_class_matches. assumption.
Qed.

Lemma length_chars s : List.length (list_ascii_of_string s) = String.length s.
Proof. induction s; cbn; congruence. Qed.

(** An unanchored one-character pattern is found in a string exactly
    when some character of the string is in the class. *)
Lemma search_class p s :
  search (Class p) s = true <->
  exists c, In c (list_ascii_of_string s) /\ p c = true.
Proof.
  unfold search. rewrite test_matches. unfold anything. split.
  - intros H. apply seq_inv in H. destruct H as (s1 & r & E & _ & H).
    apply seq_inv in H. destruct H as (x & s2 & -> & Hc & _).
    apply class_inv in Hc. destruct Hc as (c & -> & Hp).
    exists c. split; [| exact Hp]. rewrite E. apply in_or_app. right. left. reflexivity.
  - intros (c & Hin & Hp). apply in_split in Hin. destruct Hin as (s1 & s2 & E).
    rewrite E. constructor.
    + apply star_class_matches. apply Forall_forall. reflexivity.
    + apply (MSeq _ _ [c] s2); [constructor; exact Hp |].
      apply star_class_matches. apply Forall_forall. reflexivity.
Qed.

End RegExpFacts.

(** ** Validators (src/app.js) *)

Section Validators.

(** The language of [PHONE_PATTERN]. *)
Lemma phone_pattern_language (phone : string) :
  Utils.validatePhone phone = true <->
  exists (prefix : string) (d : ascii) (ds : list ascii),
    (prefix = "+8801" \/ prefix = "01") /\
    list_ascii_of_string phone = list_ascii_of_string prefix ++ d :: ds /\
    RegExp.in_range "3" "9" d = true /\
    List.length ds = 8%nat /\
    Forall (fun c => RegExp.digit c = true) ds.
Proof.
  unfold Utils.validatePhone. rewrite RegExpFacts.test_matches.
  unfold CONFIG.VALIDATION.PHONE_PATTERN. split.
  - intros H. apply RegExpFacts.seq_inv in H.
    destruct H as (p & rest & E & Hp & Hrest).
    apply RegExpFacts.seq_inv in Hrest.
    destruct Hrest as (d' & ds & -> & Hd & Hds).
    apply RegExpFacts.class_inv in Hd. destruct Hd as (d & -> & Hd).
    apply RegExpFacts.repeat_class_matches in Hds. destruct Hds as [Hl Hf].
    apply RegExpFacts.alt_inv in Hp.
    destruct Hp as [Hp | Hp]; apply RegExpFacts.lit_matches in Hp; subst p.
    + exists "+8801", d, ds. repeat split; try assumption. left. reflexivity.
    + exists "01", d, ds. repeat split; try assumption. right. reflexivity.
  - intros (prefix & d & ds & Hp & E & Hd & Hl & Hf). rewrite E.
    constructor.
    + destruct Hp as [-> | ->]; [apply RegExp.MAltL | apply RegExp.MAltR];
        apply RegExpFacts.lit_matches; reflexivity.
    + apply (RegExp.MSeq _ _ [d] ds); [constructor; exact Hd |].
      apply RegExpFacts.repeat_class_matches. split; assumption.
Qed.

(** A valid phone number has 11 or 14 characters. *)
Lemma validatePhone_length (phone : string) :
  Utils.validatePhone phone = true ->
  String.length phone = 11%nat \/ String.length phone = 14%nat.
Proof.
  intros H. apply phone_pattern_language in H.
  destruct H as (prefix & d & ds & Hp & E & _ & Hl & _).
  apply (f_equal (@List.length ascii)) in E.
  rewrite RegExpFacts.length_chars, length_app in E. cbn [List.length] in E.
  rewrite Hl in E. destruct Hp as [-> | ->]; cbn in E; [right | left]; lia.
Qed.

(** X1.  [validatePhone] accepts exactly [+8801] or [01], then one
    digit from 3 to 9, then eight digits, and nothing else; what it
    accepts has 11 or 14 characters. *)
Theorem validatePhone_format (phone : string) :
  (Utils.validatePhone phone = true <->
   exists (prefix : string) (d : ascii) (ds : list ascii),
     (prefix = "+8801" \/ prefix = "01") /\
     list_ascii_of_string phone = list_ascii_of_string prefix ++ d :: ds /\
     RegExp.in_range "3" "9" d = true /\
     List.length ds = 8%nat /\
     Forall (fun c => RegExp.digit c = true) ds) /\
  (Utils.validatePhone phone = true ->
   String.length phone = 11%nat \/ String.length phone = 14%nat).
Proof.
  split; [apply phone_pattern_language | apply validatePhone_length].
Qed.

(** The language of [EMAIL_PATTERN]. *)
Lemma email_pattern_language (email : string) :
  Utils.validateEmail email = true <->
  exists a b c : list ascii,
    list_ascii_of_string email = a ++ "@"%char :: b ++ "."%char :: c /\
    a <> [] /\ b <> [] /\ c <> [] /\
    Forall (fun x => RegExp.not_space_or_at x = true) (a ++ b ++ c).
Proof.
  unfold Utils.validateEmail. rewrite RegExpFacts.test_matches.
  unfold CONFIG.VALIDATION.EMAIL_PATTERN. split.
  - intros H.
    apply RegExpFacts.seq_inv in H. destruct H as (a & r1 & E1 & Ha & H).
    apply RegExpFacts.seq_inv in H. destruct H as (at' & r2 & -> & Hat & H).
    apply RegExpFacts.seq_inv in H. destruct H as (b & r3 & -> & Hb & H).
    apply RegExpFacts.seq_inv in H. destruct H as (dot & c & -> & Hdot & Hc).
    apply RegExpFacts.class_inv in Hat. destruct Hat as (x & -> & Hx).
    apply Ascii.eqb_eq in Hx. subst x.
    apply RegExpFacts.class_inv in Hdot. destruct Hdot as (y & -> & Hy).
    apply Ascii.eqb_eq in Hy. subst y.
    apply RegExpFacts.plus_class_matches in Ha, Hb, Hc.
    destruct Ha as [Ha1 Ha2], Hb as [Hb1 Hb2], Hc as [Hc1 Hc2].
    exists a, b, c. split; [exact E1 |]. repeat split; try assumption.
    apply Forall_app. split; [assumption |].
    apply Forall_app. split; assumption.
  - intros (a & b & c & E & Ha & Hb & Hc & Hf). rewrite E.
    apply Forall_app in Hf. destruct Hf as [Hfa Hf].
    apply Forall_app in Hf. destruct Hf as [Hfb Hfc].
    constructor; [apply RegExpFacts.plus_class_matches; split; assumption |].
    apply (RegExp.MSeq _ _ ["@"%char] (b ++ "."%char :: c));
      [constructor; reflexivity |].
    constructor; [apply RegExpFacts.plus_class_matches; split; assumption |].
    apply (RegExp.MSeq _ _ ["."%char] c); [constructor; reflexivity |].
    apply RegExpFacts.plus_class_matches; split; assumption.
Qed.

Lemma includes_at_In (s : string) :
  Auth.includes_at s = true <-> In "@"%char (list_ascii_of_string s).
Proof.
  induction s as [| c s IH]; cbn [Auth.includes_at list_ascii_of_string In].
  - split; [discriminate | intros []].
  - destruct (Ascii.eqb_spec c "@"%char) as [-> | Hne].
    + split; [left; reflexivity | reflexivity].
    + rewrite IH. split; [right; assumption |].
      intros [E | H]; [congruence | exact H].
Qed.

(** A valid email address contains [@]. *)
Lemma validateEmail_includes_at (email : string) :
  Utils.validateEmail email = true -> Auth.includes_at email = true.
Proof.
  intros H. apply email_pattern_language in H.
  destruct H as (a & b & c & E & _). apply includes_at_In. rewrite E.
  apply in_or_app. right. left. reflexivity.
Qed.

(** X2.  [validateEmail] accepts exactly the strings [a@b.c] with [a],
    [b] and [c] not empty and free of white space and of [@]; what it
    accepts contains [@] and no space. *)
Theorem validateEmail_format (email : string) :
  (Utils.validateEmail email = true <->
   exists a b c : list ascii,
     list_ascii_of_string email = a ++ "@"%char :: b ++ "."%char :: c /\
     a <> [] /\ b <> [] /\ c <> [] /\
     Forall (fun x => RegExp.not_space_or_at x = true) (a ++ b ++ c)) /\
  (Utils.validateEmail email = true ->
   Auth.includes_at email = true /\
   ~ In " "%char (list_ascii_of_string email)).
Proof.
  split; [apply email_pattern_language |].
  intros H. split; [apply validateEmail_includes_at; exact H |].
  apply email_pattern_language in H.
  destruct H as (a & b & c & E & _ & _ & _ & Hf).
  rewrite E. intros Hin.
  assert (Hsp : forall l, Forall (fun x => RegExp.not_space_or_at x = true) l ->
                          ~ In " "%char l).
  { intros l Hl Hs. rewrite Forall_forall in Hl. specialize (Hl _ Hs).
    discriminate Hl. }
  apply Forall_app in Hf. destruct Hf as [Hfa Hf].
  apply Forall_app in Hf. destruct Hf as [Hfb Hfc].
  apply in_app_or in Hin. destruct Hin as [Hin | [Hin | Hin]].
  - exact (Hsp a Hfa Hin).
  - discriminate Hin.
  - apply in_app_or in Hin. destruct Hin as [Hin | [Hin | Hin]].
    + exact (Hsp b Hfb Hin).
    + discriminate Hin.
    + exact (Hsp c Hfc Hin).
Qed.

(** What [validatePassword] decides. *)
Lemma validatePassword_decides (password : string) :
  let v := Utils.validatePassword password in
  (Validation.isValid v = true <-> Validation.errors v = []) /\
  (Validation.isValid v = true <->
   (6 <= String.length password)%nat /\
   (exists c, In c (list_ascii_of_string password) /\ RegExp.letter c = true) /\
   (exists c, In c (list_ascii_of_string password) /\ RegExp.digit c = true)) /\
  (List.length (Validation.errors v) <= 3)%nat.
Proof.
  unfold Utils.validatePassword.
  destruct (String.eqb_spec password EmptyString) as [-> | Hne].
  { cbn. repeat split; intros; try discriminate; lia. }
  pose proof (RegExpFacts.search_class RegExp.letter password) as HL.
  pose proof (RegExpFacts.search_class RegExp.digit password) as HD.
  unfold CONFIG.VALIDATION.MIN_PASSWORD_LENGTH.
  destruct (Z.ltb_spec (Z.of_nat (String.length password)) 6) as [Hlen | Hlen];
    destruct (RegExp.search (RegExp.Class RegExp.letter) password);
    destruct (RegExp.search (RegExp.Class RegExp.digit) password);
    cbn; repeat split; intros; try discriminate; try reflexivity; try lia;
    try (apply HL; reflexivity); try (apply HD; reflexivity);
    try (exfalso;
         match goal with
         | H : _ /\ _ /\ _ |- _ => destruct H as (H1 & H2 & H3)
         end;
         first [ lia
               | apply HL in H2; discriminate
               | apply HD in H3; discriminate ]).
Qed.

(** X3.  [validatePassword] reports a password valid exactly when it
    lists no error, and exactly when the password has at least six
    characters, a letter among them and a digit; it lists at most
    three errors, and for a password that is not valid the first
    error exists. *)
Theorem validatePassword_valid_iff (password : string) :
  let v := Utils.validatePassword password in
  (Validation.isValid v = true <-> Validation.errors v = []) /\
  (Validation.isValid v = true <->
   (6 <= String.length password)%nat /\
   (exists c, In c (list_ascii_of_string password) /\ RegExp.letter c = true) /\
   (exists c, In c (list_ascii_of_string password) /\ RegExp.digit c = true)) /\
  (List.length (Validation.errors v) <= 3)%nat /\
  (Validation.isValid v = false ->
   exists e rest, Validation.errors v = e :: rest).
Proof.
  intros v. destruct (validatePassword_decides password) as (H1 & H2 & H3).
  fold v in H1, H2, H3.
  split; [exact H1 |]. split; [exact H2 |]. split; [exact H3 |].
  intros Hf. destruct (Validation.errors v) as [| e rest] eqn:E.
  - assert (Validation.isValid v = true) by (apply H1; reflexivity). congruence.
  - exists e, rest. reflexivity.
Qed.

Lemma obj_set_not_nil {A : Type} (k : string) (v : A) (o : list (string * A)) :
  JS.obj_set k v o <> [].
Proof.
  destruct o as [| [k' v'] o]; cbn [JS.obj_set]; [discriminate |].
  destruct (String.eqb k' k); discriminate.
Qed.

Lemma validateEmail_empty : Utils.validateEmail EmptyString = false.
Proof. reflexivity. Qed.

Lemma validatePhone_empty : Utils.validatePhone EmptyString = false.
Proof. reflexivity. Qed.

Lemma validatePassword_empty :
  Validation.isValid (Utils.validatePassword EmptyString) = false.
Proof. reflexivity. Qed.

(** One field of the sign-up form checked: a first and a second
    reason to report the field under [key]. *)
Let stage (v : Validation.t (list (string * string)))
    (bad1 : bool) (message1 : string) (bad2 : bool) (message2 : string)
    (key : string) : Validation.t (list (string * string)) :=
  if bad1 then
    Validation.mk false (JS.obj_set key message1 (Validation.errors v))
  else if bad2 then
    Validation.mk false (JS.obj_set key message2 (Validation.errors v))
  else v.

Let agrees (v : Validation.t (list (string * string))) (P : Prop) : Prop :=
  (Validation.isValid v = true <-> Validation.errors v = []) /\
  (Validation.isValid v = true <-> P).

Lemma stage_agrees v bad1 message1 bad2 message2 key (P : Prop) :
  agrees v P ->
  agrees (stage v bad1 message1 bad2 message2 key)
         (P /\ bad1 = false /\ bad2 = false).
Proof.
  unfold agrees, stage. intros [H1 H2].
  destruct bad1; [| destruct bad2];
    cbn [Validation.isValid Validation.errors].
  - split; split; intros H; try discriminate.
    + exfalso. exact (obj_set_not_nil _ _ _ H).
    + destruct H as (_ & H & _). discriminate.
  - split; split; intros H; try discriminate.
    + exfalso. exact (obj_set_not_nil _ _ _ H).
    + destruct H as (_ & _ & H). discriminate.
  - split; [exact H1 |]. split.
    + intros H. split; [apply H2; exact H | split; reflexivity].
    + intros (H & _). apply H2. exact H.
Qed.

Lemma validateSignupData_stages (data : SignupData.t) :
  Auth.validateSignupData data
  = stage
      (stage
         (stage
            (stage
               (stage
                  (stage (Validation.mk true [])
                     (String.eqb (SignupData.name data) EmptyString
                      || (String.length (SignupData.name data) <? 2)%nat)
                     "Name must be at least 2 characters"
                     false EmptyString "signup-name")
                  (String.eqb (SignupData.email data) EmptyString)
                  "Email is required"
                  (negb (Utils.validateEmail (SignupData.email data)))
                  "Please enter a valid email address" "signup-email")
               (String.eqb (SignupData.phone data) EmptyString)
               "Phone number is required"
               (negb (Utils.validatePhone (SignupData.phone data)))
               "Please enter a valid Bangladesh phone number" "signup-phone")
            (String.eqb (SignupData.password data) EmptyString)
            "Password is required"
            (negb (Validation.isValid
                     (Utils.validatePassword (SignupData.password data))))
            (hd EmptyString
                (Validation.errors
                   (Utils.validatePassword (SignupData.password data))))
            "signup-password")
         (String.eqb (SignupData.address data) EmptyString
          || (String.length (SignupData.address data) <? 5)%nat)
         "Please enter a complete address"
         false EmptyString "signup-address")
      (String.eqb (SignupData.usertype data) EmptyString)
      "Please select a user type"
      false EmptyString "signup-usertype".
Proof. reflexivity. Qed.

Lemma short_or_empty (s : string) (n : nat) :
  (0 < n)%nat ->
  (String.eqb s EmptyString || (String.length s <? n)%nat = false
   <-> (n <= String.length s)%nat).
Proof.
  intros Hn. destruct (String.eqb_spec s EmptyString) as [-> | Hne];
    cbn [orb String.length].
  - split; [discriminate | lia].
  - destruct (Nat.ltb_spec (String.length s) n); split; intros;
      try reflexivity; try discriminate; lia.
Qed.

(** What [validateSignupData] decides. *)
Lemma validateSignupData_decides (data : SignupData.t) :
  let v := Auth.validateSignupData data in
  (Validation.isValid v = true <-> Validation.errors v = []) /\
  (Validation.isValid v = true <->
   (2 <= String.length (SignupData.name data))%nat /\
   Utils.validateEmail (SignupData.email data) = true /\
   Utils.validatePhone (SignupData.phone data) = true /\
   Validation.isValid (Utils.validatePassword (SignupData.password data))
     = true /\
   (5 <= String.length (SignupData.address data))%nat /\
   SignupData.usertype data <> EmptyString) /\
  (Validation.isValid v = true ->
   Auth.includes_at (SignupData.email data) = true).
Proof.
  intros v. subst v. rewrite validateSignupData_stages.
  assert (H0 : agrees (Validation.mk true []) True).
  { split; split; intros; try reflexivity; exact I. }
  repeat match goal with
         | |- context [stage ?w ?b1 ?m1 ?b2 ?m2 ?k] =>
             lazymatch goal with
             | H : agrees w _ |- _ =>
                 let H' := fresh "Hs" in
                 pose proof (stage_agrees w b1 m1 b2 m2 k _ H) as H';
                 clear H;
                 generalize dependent (stage w b1 m1 b2 m2 k); intros
             end
         end.
  match goal with
  | H : agrees ?t _ |- _ => rename t into checked; destruct H as [H1 H2]
  end.
  assert (H3 : Validation.isValid checked = true <->
     (2 <= String.length (SignupData.name data))%nat /\
     Utils.validateEmail (SignupData.email data) = true /\
     Utils.validatePhone (SignupData.phone data) = true /\
     Validation.isValid (Utils.validatePassword (SignupData.password data))
       = true /\
     (5 <= String.length (SignupData.address data))%nat /\
     SignupData.usertype data <> EmptyString).
  { rewrite H2.
    rewrite (short_or_empty (SignupData.name data) 2) by lia.
    rewrite (short_or_empty (SignupData.address data) 5) by lia.
    pose proof validateEmail_empty as Ee.
    pose proof validatePhone_empty as Ep.
    pose proof validatePassword_empty as Ew.
    destruct (String.eqb_spec (SignupData.email data) EmptyString) as [E1 | E1];
      [rewrite E1 in *; rewrite Ee |];
      (destruct (String.eqb_spec (SignupData.phone data) EmptyString)
         as [E2 | E2]; [rewrite E2 in *; rewrite Ep |]);
      (destruct (String.eqb_spec (SignupData.password data) EmptyString)
         as [E3 | E3]; [rewrite E3 in *; rewrite Ew |]);
      (destruct (String.eqb_spec (SignupData.usertype data) EmptyString)
         as [E4 | E4]);
      try destruct (Utils.validateEmail (SignupData.email data));
      try destruct (Utils.validatePhone (SignupData.phone data));
      try destruct (Validation.isValid
                      (Utils.validatePassword (SignupData.password data)));
      cbn [negb]; intuition (try discriminate; try congruence). }
  split; [exact H1 |]. split; [exact H3 |].
  intros Hv. apply H3 in Hv. destruct Hv as (_ & He & _).
  apply validateEmail_includes_at. exact He.
Qed.

(** X4.  [validateSignupData] reports the form valid exactly when it
    lists no error, and exactly when the name has two characters or
    more, the email and the phone pass their validators, the password
    passes [validatePassword], the address has five characters or
    more and a user type is chosen.  The email of a valid form
    contains [@]. *)
Theorem validateSignupData_valid_iff (data : SignupData.t) :
  let v := Auth.validateSignupData data in
  (Validation.isValid v = true <-> Validation.errors v = []) /\
  (Validation.isValid v = true <->
   (2 <= String.length (SignupData.name data))%nat /\
   Utils.validateEmail (SignupData.email data) = true /\
   Utils.validatePhone (SignupData.phone data) = true /\
   Validation.isValid (Utils.validatePassword (SignupData.password data))
     = true /\
   (5 <= String.length (SignupData.address data))%nat /\
   SignupData.usertype data <> EmptyString) /\
  (Validation.isValid v = true ->
   Auth.includes_at (SignupData.email data) = true).
Proof. exact (validateSignupData_decides data). Qed.

End Validators.

(** ** Escaping of text put into the page (src/app.js) *)

Section Sanitizing.

(** What [sanitizeInput] makes of one character. *)
Let escape (c : ascii) : string :=
  if Ascii.eqb c "&" then "&amp;"
  else if Ascii.eqb c "<" then "&lt;"
  else if Ascii.eqb c ">" then "&gt;"
  else if Ascii.eqb c "034" then "&quot;"
  else if Ascii.eqb c "'" then "&#x27;"
  else if Ascii.eqb c "/" then "&#x2F;"
  else String c EmptyString.

Lemma append_assoc3 (a b c : string) :
  ((a ++ b) ++ c = a ++ (b ++ c))%string.
Proof. induction a as [| x a IH]; cbn; [reflexivity | rewrite IH; reflexivity]. Qed.

Lemma replaceAll_app (c : ascii) (by_ a b : string) :
  JS.replaceAll c by_ (a ++ b)%string
  = (JS.replaceAll c by_ a ++ JS.replaceAll c by_ b)%string.
Proof.
  induction a as [| x a IH]; cbn [JS.replaceAll String.append]; [reflexivity |].
  destruct (Ascii.eqb x c); rewrite IH; [| reflexivity].
  symmetry. apply append_assoc3.
Qed.

Lemma sanitizeInput_app (a b : string) :
  Utils.sanitizeInput (a ++ b)%string
  = (Utils.sanitizeInput a ++ Utils.sanitizeInput b)%string.
Proof. unfold Utils.sanitizeInput. repeat rewrite replaceAll_app. reflexivity. Qed.

Lemma sanitizeInput_char (c : ascii) :
  Utils.sanitizeInput (String c EmptyString) = escape c.
Proof.
  destruct c as [[] [] [] [] [] [] [] []]; reflexivity.
Qed.

Lemma sanitizeInput_cons (c : ascii) (s : string) :
  Utils.sanitizeInput (String c s) = (escape c ++ Utils.sanitizeInput s)%string.
Proof.
  change (String c s) with (String c EmptyString ++ s)%string.
  rewrite sanitizeInput_app, sanitizeInput_char. reflexivity.
Qed.

Lemma chars_app (a b : string) :
  list_ascii_of_string (a ++ b)
  = list_ascii_of_string a ++ list_ascii_of_string b.
Proof. induction a as [| x a IH]; cbn; [reflexivity | rewrite IH; reflexivity]. Qed.

(** The characters with a meaning in markup. *)
Let markup (c : ascii) : Prop :=
  c = "<"%char \/ c = ">"%char \/ c = "034"%char \/ c = "'"%char \/ c = "/"%char.

Lemma escape_safe (x c : ascii) :
  In c (list_ascii_of_string (escape x)) -> ~ markup c.
Proof.
  unfold escape, markup.
  destruct (Ascii.eqb_spec x "&"); [| destruct (Ascii.eqb_spec x "<");
    [| destruct (Ascii.eqb_spec x ">"); [| destruct (Ascii.eqb_spec x "034");
      [| destruct (Ascii.eqb_spec x "'"); [| destruct (Ascii.eqb_spec x "/")]]]]];
    cbn [list_ascii_of_string In]; intros Hin Hm;
    repeat (destruct Hin as [Hin | Hin]; [subst c; intuition congruence |]);
    try contradiction.
Qed.

(** X5.  The text [sanitizeInput] returns contains none of the
    characters [<], [>], the double quote, the single quote and [/],
    whatever text it is given. *)
Theorem sanitizeInput_no_markup (input : string) (c : ascii) :
  In c (list_ascii_of_string (Utils.sanitizeInput input)) ->
  c <> "<"%char /\ c <> ">"%char /\ c <> "034"%char /\
  c <> "'"%char /\ c <> "/"%char.
Proof.
  intros Hin.
  assert (Hm : ~ markup c).
  { revert Hin. induction input as [| x input IH]; [intros [] |].
    rewrite sanitizeInput_cons, chars_app. intros Hin.
    apply in_app_or in Hin. destruct Hin as [Hin | Hin].
    - exact (escape_safe x c Hin).
    - exact (IH Hin). }
  unfold markup in Hm. repeat split; intros E; apply Hm; subst c; tauto.
Qed.

Lemma escape_not_empty (x : ascii) (s : string) :
  (escape x ++ s)%string <> EmptyString.
Proof.
  unfold escape.
  repeat match goal with
         | |- context [Ascii.eqb ?a ?b] => destruct (Ascii.eqb a b)
         end; discriminate.
Qed.

(** Peels equal leading characters off an equation between strings. *)
Ltac peel H :=
  repeat (let E := fresh "E" in
          injection H as E H;
          first [ discriminate E | subst ]).

Lemma escape_prefix (x y : ascii) (sa sb : string) :
  (escape x ++ sa = escape y ++ sb)%string -> x = y /\ sa = sb.
Proof.
  unfold escape.
  destruct (Ascii.eqb_spec x "&"); [| destruct (Ascii.eqb_spec x "<");
    [| destruct (Ascii.eqb_spec x ">"); [| destruct (Ascii.eqb_spec x "034");
      [| destruct (Ascii.eqb_spec x "'"); [| destruct (Ascii.eqb_spec x "/")]]]]];
  (destruct (Ascii.eqb_spec y "&"); [| destruct (Ascii.eqb_spec y "<");
    [| destruct (Ascii.eqb_spec y ">"); [| destruct (Ascii.eqb_spec y "034");
      [| destruct (Ascii.eqb_spec y "'"); [| destruct (Ascii.eqb_spec y "/")]]]]]);
  cbn [String.append]; intros H; subst;
  try (split; congruence);
  try (exfalso; injection H as E H; congruence);
  try (exfalso; peel H; fail).
Qed.

(** X6.  [sanitizeInput] works character by character, so that the
    sanitized form of a concatenation is the concatenation of the
    sanitized forms, and it loses nothing: two different texts are
    never sanitized to the same text. *)
Theorem sanitizeInput_injective :
  (forall a b : string,
      Utils.sanitizeInput (a ++ b)%string
      = (Utils.sanitizeInput a ++ Utils.sanitizeInput b)%string) /\
  (forall a b : string,
      Utils.sanitizeInput a = Utils.sanitizeInput b -> a = b).
Proof.
  split; [exact sanitizeInput_app |].
  induction a as [| x a IH]; intros [| y b] H.
  - reflexivity.
  - rewrite sanitizeInput_cons in H. symmetry in H.
    exfalso. exact (escape_not_empty _ _ H).
  - rewrite sanitizeInput_cons in H. exfalso. exact (escape_not_empty _ _ H).
  - rewrite !sanitizeInput_cons in H. apply escape_prefix in H.
    destruct H as [-> H]. f_equal. apply IH. exact H.
Qed.

End Sanitizing.

(** ** Relative times (src/app.js) *)

Section RelativeTimes.

Open Scope Z_scope.

Import Reading.

Lemma seconds_below (d k : Z) :
  0 < k -> (d / 1000 <? k) = (d <? 1000 * k).
Proof.
  intros Hk.
  pose proof (Z.div_mod d 1000 ltac:(lia)) as Hd.
  pose proof (Z.mod_pos_bound d 1000 ltac:(lia)) as Hm.
  destruct (Z.ltb_spec (d / 1000) k), (Z.ltb_spec d (1000 * k));
    try reflexivity; lia.
Qed.

Lemma units_in_seconds (d k : Z) :
  0 < k -> d / 1000 / k = d / (1000 * k).
Proof. intros Hk. apply Z.div_div; lia. Qed.

Lemma count_bounds (d unit lo hi : Z) :
  0 < unit -> unit * lo <= d -> d < unit * hi -> lo <= d / unit < hi.
Proof.
  intros Hu Hlo Hhi. split.
  - apply Z.div_le_lower_bound; lia.
  - apply Z.div_lt_upper_bound; lia.
Qed.

(** X7.  [getRelativeTime] answers [Just now] for a date less than a
    minute old, and so for every date in the future; then whole
    minutes, from 1 to 59, whole hours, from 1 to 23, and whole days,
    from 1 to 29, each with a plural [s] exactly when the count is not
    1; and it leaves a date of thirty days or more to [formatDate]. *)
Theorem getRelativeTime_buckets (now date : Z) :
  let d := now - date in
  let shown := Utils.getRelativeTime now date in
  (d < 60000 -> shown = Utils.Text "Just now") /\
  (60000 <= d < 3600000 ->
   1 <= d / 60000 <= 59 /\ shown = ago (d / 60000) "minute") /\
  (3600000 <= d < 86400000 ->
   1 <= d / 3600000 <= 23 /\ shown = ago (d / 3600000) "hour") /\
  (86400000 <= d < 2592000000 ->
   1 <= d / 86400000 <= 29 /\ shown = ago (d / 86400000) "day") /\
  (2592000000 <= d -> shown = Utils.FormatDate date).
Proof.
  intros d shown. subst shown. unfold Utils.getRelativeTime. fold d.
  rewrite !seconds_below, !units_in_seconds by lia.
  change (1000 * 60) with 60000. change (1000 * 3600) with 3600000.
  change (1000 * 86400) with 86400000.
  change (1000 * 2592000) with 2592000000.
  assert (Hplural : forall n, 1 <= n -> (1 <? n) = negb (n =? 1)).
  { intros n Hn. destruct (Z.ltb_spec 1 n), (Z.eqb_spec n 1);
      try reflexivity; lia. }
  repeat split; intros;
    try (pose proof (count_bounds d 60000 1 60 ltac:(lia) ltac:(lia) ltac:(lia)));
    try (pose proof (count_bounds d 3600000 1 24 ltac:(lia) ltac:(lia) ltac:(lia)));
    try (pose proof (count_bounds d 86400000 1 30 ltac:(lia) ltac:(lia) ltac:(lia)));
    try lia;
    repeat match goal with
           | |- context [?a <? ?b] =>
               lazymatch b with
               | d / _ => fail
               | _ => destruct (Z.ltb_spec a b); try lia
               end
           end;
    try reflexivity;
    unfold ago; rewrite Hplural by lia;
    match goal with
    | |- context [?n =? 1] => destruct (n =? 1); reflexivity
    end.
Qed.

End RelativeTimes.

(** ** The cache bound of the service worker (src/waste.js) *)

Section CacheBound.

Lemma delete_absent (key : string) (cache : list string) :
  ~ In key cache -> ServiceWorker.delete key cache = cache.
Proof.
  unfold ServiceWorker.delete.
  induction cache as [| x cache IH]; intros Hn; cbn [filter]; [reflexivity |].
  destruct (String.eqb_spec x key) as [-> | _]; cbn [negb].
  - exfalso. apply Hn. left. reflexivity.
  - rewrite IH; [reflexivity |]. intros Hin. apply Hn. right. exact Hin.
Qed.

Lemma delete_head (key : string) (cache : list string) :
  ~ In key cache -> ServiceWorker.delete key (key :: cache) = cache.
Proof.
  intros Hn. unfold ServiceWorker.delete. cbn [filter].
  rewrite String.eqb_refl. cbn [negb]. apply delete_absent. exact Hn.
Qed.

Lemma skipn_nth_error {A : Type} (l : list A) :
  forall (k : nat) (x : A),
    nth_error l k = Some x -> skipn k l = x :: skipn (S k) l.
Proof.
  induction l as [| y l IH]; intros [| k] x H; cbn in H; try discriminate.
  - injection H as ->. reflexivity.
  - cbn [skipn]. rewrite (IH k x H). reflexivity.
Qed.

Lemma NoDup_skipn {A : Type} (l : list A) :
  forall k, NoDup l -> NoDup (skipn k l).
Proof.
  induction l as [| y l IH]; intros [| k] H; cbn [skipn]; try assumption.
  apply IH. inversion H; assumption.
Qed.

(** Deleting the first [k] keys of a cache, one by one, leaves the
    cache without its first [k] entries. *)
Lemma delete_oldest (keys : list string) :
  NoDup keys ->
  forall k, (k <= List.length keys)%nat ->
    fold_left
      (fun cache i =>
         match nth_error keys i with
         | Some key => ServiceWorker.delete key cache
         | None => cache
         end)
      (seq 0 k) keys
    = skipn k keys.
Proof.
  intros Hnd. induction k as [| k IH]; intros Hk; [reflexivity |].
  rewrite seq_S, fold_left_app, IH by lia. cbn [fold_left Nat.add].
  destruct (nth_error keys k) as [key |] eqn:E.
  - rewrite (skipn_nth_error keys k key E).
    apply delete_head.
    pose proof (NoDup_skipn keys k Hnd) as Hs.
    rewrite (skipn_nth_error keys k key E) in Hs.
    inversion Hs; assumption.
  - apply nth_error_None in E. lia.
Qed.

(** X8.  On a cache that holds each request once, [limitCacheSize]
    leaves the [maxSize] newest entries, in their order, and leaves a
    cache of at most [maxSize] entries as it is: afterwards the cache
    never has more than [maxSize] entries. *)
Theorem limitCacheSize_keeps_newest (cache : list string) (maxSize : nat) :
  NoDup cache ->
  ServiceWorker.limitCacheSize cache maxSize
    = skipn (List.length cache - maxSize) cache /\
  List.length (ServiceWorker.limitCacheSize cache maxSize)
    = Nat.min (List.length cache) maxSize /\
  ((List.length cache <= maxSize)%nat ->
   ServiceWorker.limitCacheSize cache maxSize = cache).
Proof.
  intros Hnd.
  assert (E : ServiceWorker.limitCacheSize cache maxSize
              = skipn (List.length cache - maxSize) cache).
  { unfold ServiceWorker.limitCacheSize.
    destruct (Nat.ltb_spec maxSize (List.length cache)) as [Hlt | Hge].
    - apply delete_oldest; [exact Hnd | lia].
    - replace (List.length cache - maxSize)%nat with 0%nat by lia. reflexivity. }
  split; [exact E |]. split.
  - rewrite E, length_skipn. lia.
  - intros Hle. rewrite E.
    replace (List.length cache - maxSize)%nat with 0%nat by lia. reflexivity.
Qed.

End CacheBound.

(** ** When a submission goes through (src/waste.js) *)

Section SubmissionOutcomes.

Lemma sum_positive (l : list Q) :
  Forall (fun x => 0 < x) l -> l <> [] -> 0 < Spec.sum l.
Proof.
  induction 1 as [| x l Hx Hl IH]; intros Hne; [congruence |].
  cbn [Spec.sum fold_right]. fold (Spec.sum l).
  destruct l as [| y l]; [cbn; lra |].
  assert (0 < Spec.sum (y :: l)) by (apply IH; discriminate). lra.
Qed.

Lemma positive_weights (inputs : list (string * Q)) :
  Forall (fun x => 0 < x) (map snd (Spec.positive inputs)).
Proof.
  apply Forall_map. apply Forall_forall. intros e He.
  unfold Spec.positive in He. apply filter_In in He. destruct He as [_ He].
  destruct (Qlt_le_dec 0 (snd e)); [assumption | discriminate].
Qed.

(** The total weight is zero exactly when no input is positive. *)
Lemma totalWeight_zero_iff (inputs : list (string * Q)) :
  WasteData.totalWeight (Waste.summary inputs) == 0
  <-> Spec.positive inputs = [].
Proof.
  unfold Waste.summary.
  pose proof (fold_addInput inputs 0 0 0 0) as H.
  destruct (fold_left Waste.addInput inputs (0, 0, 0, 0)) as [[[a b] c] d].
  destruct H as (Ha & _). cbn [WasteData.totalWeight]. rewrite Ha. split.
  - intros Hz. destruct (Spec.positive inputs) as [| e l] eqn:E; [reflexivity |].
    pose proof (positive_weights inputs) as Hp. rewrite E in Hp.
    apply sum_positive in Hp; [| discriminate]. lra.
  - intros ->. cbn. lra.
Qed.

(** With no positive input the summary is all zeros and lists no
    type. *)
Lemma summary_nothing (inputs : list (string * Q)) :
  Spec.positive inputs = [] ->
  Waste.summary inputs = WasteData.mk 0 0 0 0 [].
Proof.
  intros Hpos.
  assert (Hgt : forall e, In e inputs -> Waste.gt (snd e) 0 = false).
  { intros e He. rewrite gt_positive.
    destruct (Qlt_le_dec 0 (snd e)) as [Hlt |] eqn:E; [| reflexivity].
    assert (Hin : In e (Spec.positive inputs)).
    { unfold Spec.positive. apply filter_In. split; [exact He |].
      rewrite E. reflexivity. }
    rewrite Hpos in Hin. destruct Hin. }
  unfold Waste.summary, Waste.getWasteTypeBreakdown.
  assert (Hfold : forall acc, fold_left Waste.addInput inputs acc = acc).
  { clear Hpos. induction inputs as [| [t w] inputs IH]; intros acc; [reflexivity |].
    cbn [fold_left]. unfold Waste.addInput at 2.
    destruct acc as [[[a b] c] d].
    pose proof (Hgt (t, w) (or_introl eq_refl)) as G. cbn [snd] in G.
    rewrite G. apply IH. intros e He. apply Hgt. right. exact He. }
  rewrite Hfold. f_equal.
  clear Hpos Hfold. generalize (@nil (string * Entry.t)).
  induction inputs as [| [t w] inputs IH]; intros acc; [reflexivity |].
  cbn [fold_left].
  pose proof (Hgt (t, w) (or_introl eq_refl)) as G. cbn [snd] in G.
  rewrite G. apply IH. intros e He. apply Hgt. right. exact He.
Qed.

(** X9.  Nobody logged in: the submission is refused with the log-in
    message and nothing changes.  Somebody logged in and the summary
    up to date: the submission is refused with the enter-amounts
    message, nothing changing, exactly when no input holds a positive
    weight, and goes through otherwise. *)
Theorem submission_needs_login_and_weight :
  forall (s : State) (sid rid : string) (date created_at : Z),
    (currentUser s = None ->
     Waste.handleWasteSubmission s sid rid date created_at = (s, PleaseLogIn)) /\
    (forall u : User.t,
        currentUser s = Some u ->
        let s0 := Waste.updateWasteSummary s in
        (Spec.positive (waste_inputs s) = [] ->
         Waste.handleWasteSubmission s0 sid rid date created_at
         = (s0, PleaseEnterAmounts)) /\
        (Spec.positive (waste_inputs s) <> [] ->
         snd (Waste.handleWasteSubmission s0 sid rid date created_at)
         = WasteSubmitted)).
Proof.
  intros s sid rid date created_at. split.
  - intros Hu. unfold Waste.handleWasteSubmission, Auth.getCurrentUser.
    rewrite Hu. reflexivity.
  - intros u Hu s0. subst s0.
    unfold Waste.handleWasteSubmission, Auth.getCurrentUser.
    cbn [Waste.updateWasteSummary currentUser wasteData]. rewrite Hu.
    unfold Waste.strict_eq.
    pose proof (totalWeight_zero_iff (waste_inputs s)) as Hz.
    destruct (Qeq_bool (WasteData.totalWeight (Waste.summary (waste_inputs s))) 0)
      eqn:E.
    + apply Qeq_bool_eq in E. apply Hz in E.
      split; [reflexivity | intros Hne; contradiction].
    + apply Qeq_bool_neq in E. split; [| reflexivity].
      intros Hpos. exfalso. apply E, Hz. exact Hpos.
Qed.

Lemma positive_reset (inputs : list (string * Q)) :
  Spec.positive (map (fun input => (fst input, 0)) inputs) = [].
Proof.
  induction inputs as [| e inputs IH]; [reflexivity |].
  unfold Spec.positive in *. cbn [map filter snd]. exact IH.
Qed.

(** X10.  A submission that has gone through leaves the form empty
    and the summary at zero, so that submitting again at once is
    refused with the enter-amounts message and changes nothing: one
    filling of the form gives one submission. *)
Theorem second_submission_refused :
  forall (s : State) (sid rid : string) (date created_at : Z),
    snd (Waste.handleWasteSubmission s sid rid date created_at)
      = WasteSubmitted ->
    let s' := fst (Waste.handleWasteSubmission s sid rid date created_at) in
    wasteData s' = WasteData.mk 0 0 0 0 [] /\
    Forall (fun input => snd input = 0) (waste_inputs s') /\
    forall (sid' rid' : string) (date' created_at' : Z),
      Waste.handleWasteSubmission s' sid' rid' date' created_at'
      = (s', PleaseEnterAmounts).
Proof.
  intros s sid rid date created_at Hok s'.
  destruct (handleWasteSubmission_success s sid rid date created_at Hok)
    as (u & Hu & _ & H).
  cbv zeta in H. destruct H as (Hu' & _). fold s' in Hu'.
  assert (Hwd : wasteData s' = WasteData.mk 0 0 0 0 [] /\
                Forall (fun input => snd input = 0) (waste_inputs s')).
  { subst s'. revert Hok. unfold Waste.handleWasteSubmission, Auth.getCurrentUser.
    rewrite Hu. destruct (Waste.strict_eq _ 0); [discriminate |]. intros _.
    cbv zeta. cbn [fst]. unfold Waste.resetWasteForm, Waste.updateWasteSummary.
    cbn [wasteData waste_inputs]. split.
    - apply summary_nothing, positive_reset.
    - apply Forall_map. apply Forall_forall. reflexivity. }
  destruct Hwd as [Hwd Hin]. split; [exact Hwd |]. split; [exact Hin |].
  intros sid' rid' date' created_at'.
  unfold Waste.handleWasteSubmission at 1, Auth.getCurrentUser.
  rewrite Hu', Hwd. reflexivity.
Qed.

End SubmissionOutcomes.

(** ** Credits are never negative *)

Section NeverNegative.

Lemma round_mono (x y : Q) : x <= y -> Spec.round x <= Spec.round y.
Proof.
  intros H. unfold Spec.round. rewrite <- Zle_Qle.
  apply Qfloor_resp_le. lra.
Qed.

Lemma round_nonneg (x : Q) : 0 <= x -> 0 <= Spec.round x.
Proof.
  intros H. change 0 with (Spec.round 0). apply round_mono. exact H.
Qed.

Lemma round2_mono (x y : Q) : x <= y -> Spec.round2 x <= Spec.round2 y.
Proof.
  intros H. unfold Spec.round2.
  assert (Hr : Spec.round (x * 100) <= Spec.round (y * 100))
    by (apply round_mono; lra).
  unfold Qdiv. apply Qmult_le_compat_r; [exact Hr | discriminate].
Qed.

Lemma round2_nonneg (x : Q) : 0 <= x -> 0 <= Spec.round2 x.
Proof.
  intros H. apply Qle_trans with (Spec.round2 0); [discriminate |].
  apply round2_mono. exact H.
Qed.

Lemma catalogue_nonneg (c : WasteType) :
  In c CONFIG.WASTE_TYPES ->
  0 <= points_factor c /\ 0 <= co2_factor c /\ 0 <= price_per_kg c.
Proof.
  unfold CONFIG.WASTE_TYPES. cbn [In]. intros H.
  repeat (destruct H as [H | H];
          [subst c; cbn; repeat split; discriminate |]).
  contradiction.
Qed.

Lemma valueOf_nonneg (e : string * Q) :
  0 <= snd e ->
  0 <= Spec.points (Spec.valueOf e) /\
  0 <= Spec.emissionsAvoided (Spec.valueOf e) /\
  0 <= Spec.value (Spec.valueOf e).
Proof.
  intros Hw. unfold Spec.valueOf, Spec.valueFor, Spec.category.
  destruct (find _ CONFIG.WASTE_TYPES) as [c |] eqn:E.
  - apply find_some in E. destruct E as [Hin _].
    destruct (catalogue_nonneg c Hin) as (Hp & Hc & Hv).
    cbn [Spec.points Spec.emissionsAvoided Spec.value].
    unfold Spec.pointsFactor, Spec.emissionsFactor, Spec.price.
    repeat split;
      [apply round_nonneg | apply round2_nonneg | apply round2_nonneg];
      apply Qmult_le_0_compat; assumption.
  - cbn. repeat split; lra.
Qed.

Lemma sum_nonneg (l : list Q) : Forall (fun x => 0 <= x) l -> 0 <= Spec.sum l.
Proof.
  induction 1 as [| x l Hx _ IH]; cbn [Spec.sum fold_right]; [lra |].
  fold (Spec.sum l). lra.
Qed.

Lemma positive_nonneg (inputs : list (string * Q)) (e : string * Q) :
  In e (Spec.positive inputs) -> 0 <= snd e.
Proof.
  intros He. pose proof (positive_weights inputs) as H.
  rewrite Forall_map, Forall_forall in H. specialize (H e He). lra.
Qed.

(** No total of the summary is negative. *)
Lemma summary_nonneg (inputs : list (string * Q)) :
  0 <= WasteData.totalWeight (Waste.summary inputs) /\
  0 <= WasteData.totalPoints (Waste.summary inputs) /\
  0 <= WasteData.totalCO2 (Waste.summary inputs) /\
  0 <= WasteData.totalTaka (Waste.summary inputs).
Proof.
  unfold Waste.summary.
  pose proof (fold_addInput inputs 0 0 0 0) as H.
  destruct (fold_left Waste.addInput inputs (0, 0, 0, 0)) as [[[a b] c] d].
  destruct H as (Ha & Hb & Hc & Hd).
  cbn [WasteData.totalWeight WasteData.totalPoints WasteData.totalCO2
       WasteData.totalTaka].
  rewrite Ha, Hb, Hc, Hd.
  assert (Hall : forall f : string * Q -> Q,
             (forall e, 0 <= snd e -> 0 <= f e) ->
             0 <= 0 + Spec.sum (map f (Spec.positive inputs))).
  { intros f Hf.
    assert (0 <= Spec.sum (map f (Spec.positive inputs))); [| lra].
    apply sum_nonneg, Forall_map, Forall_forall.
    intros e He. apply Hf. exact (positive_nonneg inputs e He). }
  repeat split; apply Hall; intros e He;
    [exact He | apply valueOf_nonneg | apply valueOf_nonneg
     | apply valueOf_nonneg]; exact He.
Qed.

(** X11.  No total of the summary is negative, whatever the inputs;
    so a submission made from an up-to-date summary never lowers the
    household's points, nor its [co2_saved] when that is a two-decimal
    amount. *)
Theorem household_ledger_never_decreases :
  (forall inputs : list (string * Q),
      0 <= WasteData.totalWeight (Waste.summary inputs) /\
      0 <= WasteData.totalPoints (Waste.summary inputs) /\
      0 <= WasteData.totalCO2 (Waste.summary inputs) /\
      0 <= WasteData.totalTaka (Waste.summary inputs)) /\
  (forall (s : State) (sid rid : string) (date created_at : Z) (u : User.t),
      currentUser s = Some u ->
      let s0 := Waste.updateWasteSummary s in
      snd (Waste.handleWasteSubmission s0 sid rid date created_at)
        = WasteSubmitted ->
      exists u' : User.t,
        currentUser (fst (Waste.handleWasteSubmission s0 sid rid date created_at))
          = Some u' /\
        JS.or0 (User.points u) <= JS.or0 (User.points u') /\
        (Spec.twoDecimals (JS.or0 (User.co2_saved u)) ->
         JS.or0 (User.co2_saved u) <= JS.or0 (User.co2_saved u'))).
Proof.
  split; [exact summary_nonneg |].
  intros s sid rid date created_at u Hu s0 Hok.
  destruct (handleWasteSubmission_success s0 sid rid date created_at Hok)
    as (u0 & Hu0 & _ & H).
  cbv zeta in H. destruct H as (Hu' & _).
  assert (u0 = u)
    by (subst s0; cbn [Waste.updateWasteSummary currentUser] in Hu0; congruence).
  subst u0. eexists. split; [exact Hu' |].
  subst s0. cbn [Waste.updateWasteSummary wasteData].
  cbn [Auth.assign User.points User.co2_saved Updates.points Updates.co2_saved
       JS.or0].
  destruct (summary_nonneg (waste_inputs s)) as (_ & Hp & Hc & _).
  split; [lra |].
  intros [n Hn].
  apply Qle_trans with (Spec.round2 (JS.or0 (User.co2_saved u))).
  - rewrite (round2_hundredths _ n Hn). apply Qle_refl.
  - apply round2_mono. lra.
Qed.

End NeverNegative.

(** ** What acceptance does to the store (src/waste.js) *)

Section AcceptanceEffect.

(** Every call of [acceptPickupRequest] either returns the state it
    was given or replaces one stored request by its accepted form and
    credits the collector who called. *)
Lemma acceptPickupRequest_effect (s : State) (requestId : string) (now : Z) :
  fst (Waste.acceptPickupRequest s requestId now) = s \/
  exists (u : User.t) (l1 l2 : list Request.t) (r : Request.t),
    currentUser s = Some u /\
    pickup_requests s = l1 ++ r :: l2 /\
    Request.id r = requestId /\
    Waste.acceptPickupRequest s requestId now
    = (let u' := Auth.assign u
                   (Updates.mk None None
                      (Some (JS.or0 (User.earnings u) + Request.estimated_value r))
                      (Some (JS.or0 (User.jobs_today u) + 1))) in
       mkState (Some u') (wasteData s) (waste_inputs s) (user_submissions s)
               (l1 ++ Waste.acceptedBy r u now :: l2)
               (Some u')
               (if Auth.includes_at (User.email u') then vangariwala_users s
                else Auth.saveDemoUser (vangariwala_users s) u'),
       RequestAccepted).
Proof.
  destruct (currentUser s) as [u |] eqn:Hu.
  2:{ left. unfold Waste.acceptPickupRequest, Auth.getCurrentUser.
      rewrite Hu. reflexivity. }
  destruct (String.eqb_spec (User.user_type u) "collector") as [Hc | Hc].
  2:{ left. unfold Waste.acceptPickupRequest, Auth.getCurrentUser.
      rewrite Hu. apply String.eqb_neq in Hc. rewrite Hc. reflexivity. }
  destruct (find (fun x => String.eqb (Request.id x) requestId)
                 (pickup_requests s)) as [r |] eqn:Hf.
  - right.
    destruct (acceptPickupRequest_found s u requestId now Hu Hc r Hf)
      as (l1 & l2 & Hl & _ & Hacc).
    exists u, l1, l2, r. split; [reflexivity |]. split; [exact Hl |].
    split; [| exact Hacc].
    apply find_some in Hf. destruct Hf as [_ Hid].
    apply String.eqb_eq. exact Hid.
  - left. rewrite (acceptPickupRequest_collector s u requestId now Hu Hc).
    rewrite findIndex_None; [reflexivity |].
    intros x Hx. exact (find_none _ _ Hf x Hx).
Qed.

Lemma nth_error_middle {A : Type} (l1 l2 : list A) (x y : A) (i : nat) (z : A) :
  nth_error (l1 ++ x :: l2) i = Some z ->
  (i = List.length l1 /\ z = x /\ nth_error (l1 ++ y :: l2) i = Some y) \/
  (i <> List.length l1 /\ nth_error (l1 ++ y :: l2) i = Some z).
Proof.
  intros H. destruct (Nat.lt_trichotomy i (List.length l1)) as [Hlt | [-> | Hgt]].
  - right. split; [lia |].
    rewrite nth_error_app1 by assumption.
    rewrite nth_error_app1 in H by assumption. exact H.
  - left. rewrite nth_error_app2 by lia.
    rewrite nth_error_app2 in H by lia.
    rewrite Nat.sub_diag in *. cbn in *. injection H as <-. repeat split.
  - right. split; [lia |].
    rewrite nth_error_app2 by lia.
    rewrite nth_error_app2 in H by lia.
    destruct (i - List.length l1)%nat as [| j] eqn:E; [lia |]. exact H.
Qed.

(** X12.  [acceptPickupRequest] never removes, adds or moves a stored
    request, never changes a request's identifier, submission,
    household, weight, estimated value, priority or creation time,
    never turns an accepted request back to pending, and never touches
    the stored submissions. *)
Theorem accept_keeps_the_store :
  forall (s : State) (requestId : string) (now : Z),
    let s' := fst (Waste.acceptPickupRequest s requestId now) in
    List.length (pickup_requests s') = List.length (pickup_requests s) /\
    user_submissions s' = user_submissions s /\
    forall (i : nat) (r : Request.t),
      nth_error (pickup_requests s) i = Some r ->
      exists r' : Request.t,
        nth_error (pickup_requests s') i = Some r' /\
        Request.id r' = Request.id r /\
        Request.submission_id r' = Request.submission_id r /\
        Request.household_id r' = Request.household_id r /\
        Request.total_weight r' = Request.total_weight r /\
        Request.estimated_value r' = Request.estimated_value r /\
        Request.priority r' = Request.priority r /\
        Request.created_at r' = Request.created_at r /\
        (Request.status r = accepted -> Request.status r' = accepted) /\
        (Request.id r <> requestId -> r' = r).
Proof.
  intros s requestId now s'. subst s'.
  destruct (acceptPickupRequest_effect s requestId now)
    as [E | (u & l1 & l2 & r0 & Hu & Hl & Hid & E)].
  - rewrite E. split; [reflexivity |]. split; [reflexivity |].
    intros i r Hr. exists r. repeat split; auto.
  - rewrite E. cbv zeta. cbn [fst pickup_requests user_submissions].
    rewrite Hl. split; [rewrite !length_app; reflexivity |].
    split; [reflexivity |].
    intros i r Hr.
    destruct (nth_error_middle l1 l2 r0 (Waste.acceptedBy r0 u now) i r Hr)
      as [(_ & -> & Hn) | (_ & Hn)].
    + exists (Waste.acceptedBy r0 u now). split; [exact Hn |].
      repeat split; auto. intros Hne. congruence.
    + exists r. repeat split; auto.
Qed.

End AcceptanceEffect.

(** ** The listing after an acceptance *)

Section ListingAfterAcceptance.

Variables (s : State) (u : User.t) (requestId : string) (now : Z).
Hypothesis logged_in : currentUser s = Some u.
Hypothesis is_collector : User.user_type u = "collector".

(** X13.  When a collector accepts the request an identifier denotes,
    the listing of pending requests loses that request and no other if
    the request was pending, and stays as it was if the request was
    accepted already. *)
Theorem accept_takes_request_off_the_listing (r : Request.t) :
  find (fun x => String.eqb (Request.id x) requestId) (pickup_requests s)
    = Some r ->
  let s' := fst (Waste.acceptPickupRequest s requestId now) in
  (Request.status r = pending ->
   Permutation (Waste.loadPickupRequests s) (r :: Waste.loadPickupRequests s') /\
   List.length (Waste.loadPickupRequests s)
   = S (List.length (Waste.loadPickupRequests s'))) /\
  (Request.status r = accepted ->
   Waste.loadPickupRequests s' = Waste.loadPickupRequests s).
Proof.
  intros Hf s'. subst s'.
  destruct (acceptPickupRequest_found s u requestId now logged_in is_collector
              r Hf) as (l1 & l2 & Hl & _ & Hacc).
  rewrite Hacc. cbv zeta. cbn [fst].
  unfold Waste.loadPickupRequests. cbn [pickup_requests]. rewrite Hl.
  rewrite !filter_app. cbn [filter Waste.acceptedBy Request.status Status_eqb].
  split.
  - intros Hp. rewrite Hp. cbn [Status_eqb].
    assert (P : Permutation
                  (JS.sort Waste.compareRequests
                     (filter (fun x => Status_eqb (Request.status x) pending) l1
                      ++ r :: filter (fun x => Status_eqb (Request.status x) pending) l2))
                  (r :: JS.sort Waste.compareRequests
                          (filter (fun x => Status_eqb (Request.status x) pending) l1
                           ++ filter (fun x => Status_eqb (Request.status x) pending) l2))).
    { eapply perm_trans; [apply sort_perm |].
      eapply perm_trans; [apply Permutation_sym, Permutation_middle |].
      apply perm_skip, Permutation_sym, sort_perm. }
    split; [exact P |]. apply Permutation_length in P. exact P.
  - intros Ha. rewrite Ha. reflexivity.
Qed.

End ListingAfterAcceptance.

(** ** Estimates and earnings *)

Section Earnings.

Lemma rate_nonneg (t : string) : 0 <= Waste.rate t.
Proof.
  unfold Waste.rate, Waste.pricing. cbn [JS.obj_get].
  repeat match goal with
         | |- context [String.eqb ?a ?b] => destruct (String.eqb a b)
         end; discriminate.
Qed.

Lemma calculateEstimatedValue_nonneg (wasteTypes : Breakdown) :
  Forall (fun e => 0 <= Entry.weight (snd e)) wasteTypes ->
  0 <= Waste.calculateEstimatedValue wasteTypes.
Proof.
  intros H. unfold Waste.calculateEstimatedValue.
  apply round_nonneg.
  assert (G : forall acc, 0 <= acc ->
              0 <= fold_left
                     (fun totalValue entry =>
                        totalValue + Entry.weight (snd entry) * Waste.rate (fst entry))
                     wasteTypes acc).
  { induction H as [| e l He _ IH]; intros acc Hacc; [exact Hacc |].
    cbn [fold_left]. apply IH.
    pose proof (rate_nonneg (fst e)) as Hr.
    pose proof (Qmult_le_0_compat _ _ He Hr). lra. }
  apply G. lra.
Qed.

Lemma obj_set_Forall {A : Type} (P : string * A -> Prop) (k : string) (v : A)
    (o : list (string * A)) :
  P (k, v) -> Forall P o -> Forall P (JS.obj_set k v o).
Proof.
  intros Hv. induction 1 as [| [k' v'] o Hx Ho IH]; cbn [JS.obj_set].
  - constructor; [exact Hv | constructor].
  - destruct (String.eqb k' k); constructor; assumption.
Qed.

(** Every entry of a breakdown has a positive weight. *)
Lemma getWasteTypeBreakdown_positive (inputs : list (string * Q)) :
  Forall (fun e => 0 < Entry.weight (snd e)) (Waste.getWasteTypeBreakdown inputs).
Proof.
  unfold Waste.getWasteTypeBreakdown.
  assert (G : forall acc : Breakdown,
             Forall (fun e => 0 < Entry.weight (snd e)) acc ->
             Forall (fun e => 0 < Entry.weight (snd e))
               (fold_left
                  (fun breakdown input =>
                     let '(wasteType, weight) := input in
                     if Waste.gt weight 0 then
                       JS.obj_set wasteType
                         (Entry.mk weight
                            (Utils.calculateWastePoints wasteType weight)
                            (Utils.calculateCO2Saved wasteType weight)
                            (Utils.calculateTakaEarnings wasteType weight))
                         breakdown
                     else breakdown)
                  inputs acc)).
  { induction inputs as [| [t w] inputs IH]; intros acc Hacc; [exact Hacc |].
    cbn [fold_left]. apply IH. rewrite gt_positive.
    destruct (Qlt_le_dec 0 w) as [Hw | _]; [| exact Hacc].
    apply obj_set_Forall; [exact Hw | exact Hacc]. }
  apply G. constructor.
Qed.

(** The request a submission stores, with its estimated value. *)
Lemma handleWasteSubmission_request (s : State) (sid rid : string)
    (date created_at : Z) :
  snd (Waste.handleWasteSubmission s sid rid date created_at) = WasteSubmitted ->
  exists r : Request.t,
    pickup_requests (fst (Waste.handleWasteSubmission s sid rid date created_at))
      = pickup_requests s ++ [r] /\
    Request.estimated_value r
      = Waste.calculateEstimatedValue (WasteData.wasteTypes (wasteData s)).
Proof.
  unfold Waste.handleWasteSubmission, Auth.getCurrentUser.
  destruct (currentUser s) as [u |] eqn:Hu; [| discriminate].
  destruct (Waste.strict_eq _ 0); [discriminate |]. intros _.
  cbv zeta. cbn [fst].
  unfold Auth.updateUser. cbn [currentUser].
  unfold Waste.createPickupRequest, Auth.getCurrentUser. cbn [currentUser].
  unfold Waste.resetWasteForm, Waste.updateWasteSummary.
  cbn [pickup_requests]. eexists. split; reflexivity.
Qed.

Lemma wasteTypes_summary (inputs : list (string * Q)) :
  WasteData.wasteTypes (Waste.summary inputs)
  = Waste.getWasteTypeBreakdown inputs.
Proof.
  unfold Waste.summary.
  destruct (fold_left Waste.addInput inputs (0, 0, 0, 0)) as [[[a b] c] d].
  reflexivity.
Qed.

(** X14.  The estimated value of the request of a breakdown is a
    whole number and is not negative.  A submission made from an
    up-to-date summary and an acceptance both keep the stored
    estimates non-negative, and while they are, an acceptance never
    lowers the caller's earnings nor the caller's job count. *)
Theorem collector_earnings_never_decrease :
  (forall inputs : list (string * Q),
      0 <= Waste.calculateEstimatedValue (Waste.getWasteTypeBreakdown inputs) /\
      exists n : Z,
        Waste.calculateEstimatedValue (Waste.getWasteTypeBreakdown inputs)
        = inject_Z n) /\
  (forall (s : State) (sid rid : string) (date created_at : Z),
      let s0 := Waste.updateWasteSummary s in
      snd (Waste.handleWasteSubmission s0 sid rid date created_at)
        = WasteSubmitted ->
      Forall (fun r => 0 <= Request.estimated_value r) (pickup_requests s) ->
      Forall (fun r => 0 <= Request.estimated_value r)
             (pickup_requests
                (fst (Waste.handleWasteSubmission s0 sid rid date created_at)))) /\
  (forall (s : State) (requestId : string) (now : Z),
      Forall (fun r => 0 <= Request.estimated_value r) (pickup_requests s) ->
      Forall (fun r => 0 <= Request.estimated_value r)
             (pickup_requests (fst (Waste.acceptPickupRequest s requestId now))) /\
      forall u u' : User.t,
        currentUser s = Some u ->
        currentUser (fst (Waste.acceptPickupRequest s requestId now)) = Some u' ->
        JS.or0 (User.earnings u) <= JS.or0 (User.earnings u') /\
        JS.or0 (User.jobs_today u) <= JS.or0 (User.jobs_today u')).
Proof.
  assert (Hest : forall inputs,
             0 <= Waste.calculateEstimatedValue
                    (Waste.getWasteTypeBreakdown inputs)).
  { intros inputs. apply calculateEstimatedValue_nonneg.
    eapply Forall_impl; [| apply getWasteTypeBreakdown_positive].
    intros e He. cbv beta in He. lra. }
  split; [| split].
  - intros inputs. split; [apply Hest |]. eexists. reflexivity.
  - intros s sid rid date created_at s0 Hok Hall.
    destruct (handleWasteSubmission_request s0 sid rid date created_at Hok)
      as (r & Hr & Hev).
    rewrite Hr. apply Forall_app. split; [exact Hall |].
    constructor; [| constructor]. rewrite Hev.
    subst s0. cbn [Waste.updateWasteSummary wasteData].
    rewrite wasteTypes_summary. apply Hest.
  - intros s requestId now Hall.
    destruct (acceptPickupRequest_effect s requestId now)
      as [E | (u0 & l1 & l2 & r & Hu0 & Hl & _ & E)].
    + rewrite E. split; [exact Hall |].
      intros u u' Hu Hu'. assert (u' = u) by congruence. subst u'.
      split; apply Qle_refl.
    + rewrite E. cbv zeta. cbn [fst pickup_requests currentUser].
      rewrite Hl in Hall. apply Forall_app in Hall. destruct Hall as [H1 H2].
      inversion H2 as [| ? ? Hr H2']; subst.
      split.
      * apply Forall_app. split; [exact H1 |]. constructor; assumption.
      * intros u u' Hu Hu'. assert (u0 = u) by congruence. subst u0.
        injection Hu' as <-.
        cbn [Auth.assign User.earnings User.jobs_today Updates.earnings
             Updates.jobs_today JS.or0].
        split; lra.
Qed.

End Earnings.

(** ** Priority and weight *)

Section PriorityOrder.

(** X15.  A heavier load never gets a lower priority than a lighter
    one; so, of two requests as [createPickupRequest] makes them, the
    one that is at least as heavy and at least as recent is never put
    after the other by the comparator of the listing. *)
Theorem calculatePriority_monotone :
  (forall w1 w2 : Q,
      w1 <= w2 ->
      (Waste.priorityOrder (Waste.calculatePriority w1)
       <= Waste.priorityOrder (Waste.calculatePriority w2))%Z) /\
  (forall a b : Request.t,
      Request.priority a = Waste.calculatePriority (Request.total_weight a) ->
      Request.priority b = Waste.calculatePriority (Request.total_weight b) ->
      Request.total_weight b <= Request.total_weight a ->
      (Request.created_at b <= Request.created_at a)%Z ->
      (Waste.compareRequests a b <= 0)%Z).
Proof.
  assert (Hmono : forall w1 w2 : Q,
             w1 <= w2 ->
             (Waste.priorityOrder (Waste.calculatePriority w1)
              <= Waste.priorityOrder (Waste.calculatePriority w2))%Z).
  { intros w1 w2 Hw.
    destruct (calculatePriority_tiers w1) as (A1 & B1 & C1).
    destruct (calculatePriority_tiers w2) as (A2 & B2 & C2).
    destruct (Qlt_le_dec w1 5) as [L1 | L1].
    - rewrite (C1 L1). destruct (Waste.calculatePriority w2); cbn; lia.
    - destruct (Qlt_le_dec w1 10) as [M1 | M1].
      + rewrite (B1 L1 M1).
        destruct (Qlt_le_dec w2 10) as [M2 | M2].
        * rewrite (B2 ltac:(lra) M2). cbn. lia.
        * rewrite (A2 M2). cbn. lia.
      + rewrite (A1 M1), (A2 ltac:(lra)). cbn. lia. }
  split; [exact Hmono |].
  intros a b Ha Hb Hw Ht.
  specialize (Hmono _ _ Hw). rewrite <- Ha, <- Hb in Hmono.
  unfold Waste.compareRequests.
  destruct (Z.eqb_spec (Waste.priorityOrder (Request.priority b)
                        - Waste.priorityOrder (Request.priority a)) 0);
    cbn [negb]; lia.
Qed.

End PriorityOrder.

(** ** Statistics of past submissions (src/waste.js) *)

Section Statistics.

Import Reading.

Lemma sum_cons (x : Q) (l : list Q) : Spec.sum (x :: l) = x + Spec.sum l.
Proof. reflexivity. Qed.

Lemma sum_nil : Spec.sum [] = 0.
Proof. reflexivity. Qed.

Lemma list_sum_cons (x : nat) (l : list nat) :
  list_sum (x :: l) = (x + list_sum l)%nat.
Proof. reflexivity. Qed.

Lemma sum_app (l1 l2 : list Q) :
  Spec.sum (l1 ++ l2) == Spec.sum l1 + Spec.sum l2.
Proof.
  induction l1 as [| x l1 IH]; cbn [app].
  - rewrite sum_nil. lra.
  - rewrite !sum_cons, IH. lra.
Qed.

Lemma obj_get_None {A : Type} (k : string) (o : list (string * A)) :
  JS.obj_get k o = None -> ~ In k (map fst o).
Proof.
  induction o as [| [k' v'] o IH]; cbn [JS.obj_get map fst In]; [tauto |].
  destruct (String.eqb_spec k' k) as [-> | Hne]; [discriminate |].
  intros H [E | Hin]; [congruence | exact (IH H Hin)].
Qed.

Lemma obj_set_last {A : Type} (k : string) (v v' : A) (o : list (string * A)) :
  JS.obj_get k o = None ->
  JS.obj_get k (o ++ [(k, v)]) = Some v /\
  JS.obj_set k v' (o ++ [(k, v)]) = o ++ [(k, v')].
Proof.
  induction o as [| [k' w] o IH]; cbn [JS.obj_get JS.obj_set app].
  - rewrite String.eqb_refl. split; reflexivity.
  - destruct (String.eqb_spec k' k) as [-> | Hne]; [discriminate |].
    intros H. destruct (IH H) as [H1 H2]. rewrite H1, H2. split; reflexivity.
Qed.

(** [addEntry] opens a bucket at the end for a type seen for the first
    time and adds to the bucket of a type seen before. *)
Lemma addEntry_cases (b : list (string * TypeStat.t)) (t : string) (d : Entry.t) :
  Waste.addEntry b (t, d)
  = match JS.obj_get t b with
    | None => b ++ [(t, TypeStat.mk (0 + Entry.weight d) (0 + 1))]
    | Some bucket =>
        JS.obj_set t
          (TypeStat.mk (TypeStat.weight bucket + Entry.weight d)
                       (TypeStat.count bucket + 1)) b
    end.
Proof.
  unfold Waste.addEntry. destruct (JS.obj_get t b) as [bucket |] eqn:E.
  - rewrite E. reflexivity.
  - rewrite (obj_set_fresh t _ b (obj_get_None t b E)).
    destruct (obj_set_last t (TypeStat.mk 0 0)
                (TypeStat.mk (0 + Entry.weight d) (0 + 1)) b E) as [H1 H2].
    rewrite H1. cbn [TypeStat.weight TypeStat.count]. exact H2.
Qed.

Lemma obj_set_weights (k : string) (v bucket : TypeStat.t)
    (b : list (string * TypeStat.t)) :
  JS.obj_get k b = Some bucket ->
  bucketWeights (JS.obj_set k v b) + TypeStat.weight bucket
    == bucketWeights b + TypeStat.weight v /\
  (bucketCounts (JS.obj_set k v b) + TypeStat.count bucket
   = bucketCounts b + TypeStat.count v)%nat.
Proof.
  unfold bucketWeights, bucketCounts.
  induction b as [| [k' w] b IH]; cbn [JS.obj_get JS.obj_set]; [discriminate |].
  destruct (String.eqb_spec k' k) as [-> | Hne].
  - intros H. injection H as ->.
    cbn [map snd]. rewrite !sum_cons, !list_sum_cons.
    split; [lra | lia].
  - intros H. destruct (IH H) as [H1 H2].
    cbn [map snd]. rewrite !sum_cons, !list_sum_cons.
    split; [lra | lia].
Qed.

Lemma addEntry_sums (b : list (string * TypeStat.t)) (e : string * Entry.t) :
  bucketWeights (Waste.addEntry b e) == bucketWeights b + Entry.weight (snd e) /\
  bucketCounts (Waste.addEntry b e) = S (bucketCounts b).
Proof.
  destruct e as [t d]. rewrite addEntry_cases. cbn [snd].
  destruct (JS.obj_get t b) as [bucket |] eqn:E.
  - destruct (obj_set_weights t
                (TypeStat.mk (TypeStat.weight bucket + Entry.weight d)
                             (TypeStat.count bucket + 1)) bucket b E)
      as [H1 H2].
    cbn [TypeStat.weight TypeStat.count] in H1, H2. split; [lra | lia].
  - unfold bucketWeights, bucketCounts.
    rewrite !map_app, sum_app, list_sum_app.
    cbn [map snd TypeStat.weight TypeStat.count].
    rewrite sum_cons, sum_nil, list_sum_cons. cbn [list_sum fold_right].
    split; [lra | lia].
Qed.

Lemma fold_addEntry_sums (es : Breakdown) :
  forall b : list (string * TypeStat.t),
    bucketWeights (fold_left Waste.addEntry es b)
      == bucketWeights b + entryWeights es /\
    bucketCounts (fold_left Waste.addEntry es b)
      = (bucketCounts b + List.length es)%nat.
Proof.
  unfold entryWeights.
  induction es as [| e es IH]; intros b; cbn [fold_left map List.length].
  - rewrite sum_nil. split; [lra | lia].
  - destruct (IH (Waste.addEntry b e)) as [H1 H2].
    destruct (addEntry_sums b e) as [G1 G2].
    rewrite sum_cons, H1, H2, G1, G2. split; [lra | lia].
Qed.

(** The statistics after the submissions [subs], from [st] on. *)
Lemma fold_addSubmission_sums (subs : list Submission.t) :
  forall st : Stats.t,
    let st' := fold_left Waste.addSubmission subs st in
    Stats.total_submissions st' = Stats.total_submissions st /\
    Stats.total_weight st'
      == Stats.total_weight st + Spec.sum (map Submission.total_weight subs) /\
    Stats.total_points st'
      == Stats.total_points st + Spec.sum (map Submission.total_points subs) /\
    Stats.total_co2_saved st'
      == Stats.total_co2_saved st
         + Spec.sum (map Submission.total_co2_saved subs) /\
    bucketWeights (Stats.waste_type_breakdown st')
      == bucketWeights (Stats.waste_type_breakdown st)
         + entryWeights (entriesOf subs) /\
    bucketCounts (Stats.waste_type_breakdown st')
      = (bucketCounts (Stats.waste_type_breakdown st)
         + List.length (entriesOf subs))%nat.
Proof.
  unfold entriesOf, entryWeights.
  induction subs as [| sub subs IH]; intros st; cbv zeta;
    cbn [fold_left map List.concat].
  - rewrite !sum_nil. cbn [List.length]. repeat split; try lra; lia.
  - specialize (IH (Waste.addSubmission st sub)). cbv zeta in IH.
    destruct IH as (H0 & H1 & H2 & H3 & H4 & H5).
    destruct (fold_addEntry_sums (Submission.waste_types sub)
                (Stats.waste_type_breakdown st)) as [G1 G2].
    unfold entryWeights in G1.
    cbn [Waste.addSubmission Stats.total_submissions Stats.total_weight
         Stats.total_points Stats.total_co2_saved Stats.waste_type_breakdown]
      in H0, H1, H2, H3, H4, H5.
    rewrite map_app, sum_app, length_app, !sum_cons.
    rewrite H0, H1, H2, H3, H4, H5, G1, G2.
    repeat split; try lra; lia.
Qed.


(** The statistics of a user over a list of submissions. *)
Let statsOver (subs : list Submission.t) : Stats.t :=
  fold_left Waste.addSubmission subs (Stats.mk (List.length subs) 0 0 0 []).

Lemma getWasteStatistics_statsOver (s : State) (u : User.t) :
  currentUser s = Some u ->
  Waste.getWasteStatistics s = Some (statsOver (Waste.submissionsOf u s)).
Proof.
  intros Hu. unfold Waste.getWasteStatistics, Auth.getCurrentUser.
  rewrite Hu. reflexivity.
Qed.

Lemma statsOver_snoc (subs : list Submission.t) (sub : Submission.t) :
  Stats.total_submissions (statsOver (subs ++ [sub]))
    = S (Stats.total_submissions (statsOver subs)) /\
  Stats.total_weight (statsOver (subs ++ [sub]))
    == Stats.total_weight (statsOver subs) + Submission.total_weight sub /\
  Stats.total_points (statsOver (subs ++ [sub]))
    == Stats.total_points (statsOver subs) + Submission.total_points sub /\
  Stats.total_co2_saved (statsOver (subs ++ [sub]))
    == Stats.total_co2_saved (statsOver subs)
       + Submission.total_co2_saved sub.
Proof.
  unfold statsOver.
  pose proof (fold_addSubmission_sums (subs ++ [sub])
                (Stats.mk (List.length (subs ++ [sub])) 0 0 0 [])) as H.
  pose proof (fold_addSubmission_sums subs
                (Stats.mk (List.length subs) 0 0 0 [])) as G.
  cbv zeta in H, G.
  destruct H as (H0 & H1 & H2 & H3 & _). destruct G as (G0 & G1 & G2 & G3 & _).
  cbn [Stats.total_submissions Stats.total_weight Stats.total_points
       Stats.total_co2_saved] in H0, H1, H2, H3, G0, G1, G2, G3.
  rewrite !map_app, !sum_app in H1, H2, H3. cbn [map] in H1, H2, H3.
  rewrite !sum_cons, !sum_nil in H1, H2, H3.
  rewrite H0, H1, H2, H3, G0, G1, G2, G3, length_app. cbn [List.length].
  repeat split; try lra; lia.
Qed.

(** X17.  A submission that goes through adds one to the user's
    number of submissions and adds its weight, points and emissions
    to the user's statistics; the points the statistics gain are the
    points the account gains.  Submissions stored for other users
    leave a user's statistics as they are. *)
Theorem statistics_follow_submissions :
  (forall (s : State) (sid rid : string) (date created_at : Z),
      snd (Waste.handleWasteSubmission s sid rid date created_at)
        = WasteSubmitted ->
      let s' := fst (Waste.handleWasteSubmission s sid rid date created_at) in
      exists (st st' : Stats.t) (u u' : User.t),
        Waste.getWasteStatistics s = Some st /\
        Waste.getWasteStatistics s' = Some st' /\
        currentUser s = Some u /\ currentUser s' = Some u' /\
        Stats.total_submissions st' = S (Stats.total_submissions st) /\
        Stats.total_weight st'
          == Stats.total_weight st + WasteData.totalWeight (wasteData s) /\
        Stats.total_points st'
          == Stats.total_points st + WasteData.totalPoints (wasteData s) /\
        Stats.total_co2_saved st'
          == Stats.total_co2_saved st + WasteData.totalCO2 (wasteData s) /\
        JS.or0 (User.points u') - JS.or0 (User.points u)
          == Stats.total_points st' - Stats.total_points st) /\
  (forall (s s' : State) (u u' : User.t) (others : list Submission.t),
      currentUser s = Some u ->
      currentUser s' = Some u' ->
      User.id u' = User.id u ->
      user_submissions s' = user_submissions s ++ others ->
      Forall (fun sub => Submission.user_id sub <> User.id u) others ->
      Waste.getWasteStatistics s' = Waste.getWasteStatistics s).
Proof.
  split.
  - intros s sid rid date created_at Hok s'.
    destruct (handleWasteSubmission_success s sid rid date created_at Hok)
      as (u & Hu & _ & H).
    cbv zeta in H. destruct H as (Hu' & _ & Hsubs & _). fold s' in Hu', Hsubs.
    eexists. eexists. exists u. eexists.
    split; [exact (getWasteStatistics_statsOver s u Hu) |].
    split; [exact (getWasteStatistics_statsOver s' _ Hu') |].
    split; [exact Hu |]. split; [exact Hu' |].
    unfold Waste.submissionsOf at 1 3 5 7 9.
    rewrite Hsubs, filter_app.
    cbn [filter Submission.user_id Auth.assign User.id].
    rewrite String.eqb_refl.
    match goal with
    | |- context [statsOver (?l ++ [?x])] =>
        destruct (statsOver_snoc l x) as (S0 & S1 & S2 & S3)
    end.
    cbn [Submission.total_weight Submission.total_points
         Submission.total_co2_saved] in S1, S2, S3.
    unfold Waste.submissionsOf.
    cbn [Auth.assign User.points Updates.points JS.or0].
    repeat split; try assumption.
    rewrite S2. lra.
  - intros s s' u u' others Hu Hu' Hid Hsubs Hall.
    rewrite (getWasteStatistics_statsOver s u Hu),
            (getWasteStatistics_statsOver s' u' Hu').
    f_equal. f_equal. unfold Waste.submissionsOf.
    rewrite Hsubs, filter_app, Hid.
    assert (E : filter (fun sub => String.eqb (Submission.user_id sub) (User.id u))
                       others = []).
    { clear - Hall. induction Hall as [| sub l Hsub _ IH]; [reflexivity |].
      cbn [filter]. apply String.eqb_neq in Hsub. rewrite Hsub. exact IH. }
    rewrite E. apply app_nil_r.
Qed.

(** X18.  With one input per waste type, the submission that a
    household stores from an up-to-date summary weighs what its
    entries weigh together and earns the points its entries earn
    together, every entry having a positive weight: it is a submission
    of the kind whose bucket weights add up in the statistics. *)
Theorem stored_submission_adds_up :
  forall (s : State) (sid rid : string) (date created_at : Z),
    NoDup (map fst (waste_inputs s)) ->
    let s0 := Waste.updateWasteSummary s in
    snd (Waste.handleWasteSubmission s0 sid rid date created_at)
      = WasteSubmitted ->
    exists sub : Submission.t,
      user_submissions
        (fst (Waste.handleWasteSubmission s0 sid rid date created_at))
      = user_submissions s ++ [sub] /\
      Submission.id sub = sid /\
      Submission.total_weight sub
        == entryWeights (Submission.waste_types sub) /\
      Submission.total_points sub
        == Spec.sum (map (fun e => Entry.points (snd e))
                         (Submission.waste_types sub)) /\
      Submission.total_co2_saved sub
        == Spec.sum (map (fun e => Entry.co2_saved (snd e))
                         (Submission.waste_types sub)) /\
      Forall (fun e => 0 < Entry.weight (snd e)) (Submission.waste_types sub).
Proof.
  intros s sid rid date created_at Hnd s0 Hok.
  destruct (handleWasteSubmission_success s0 sid rid date created_at Hok)
    as (u & Hu & _ & H).
  cbv zeta in H. destruct H as (_ & _ & Hsubs & _).
  eexists. split; [exact Hsubs |].
  cbn [Submission.id Submission.total_weight Submission.total_points
       Submission.total_co2_saved Submission.waste_types].
  split; [reflexivity |].
  subst s0. cbn [Waste.updateWasteSummary wasteData].
  rewrite wasteTypes_summary.
  pose proof (getWasteTypeBreakdown_positive (waste_inputs s)) as Hpos.
  unfold Waste.summary.
  pose proof (fold_addInput (waste_inputs s) 0 0 0 0) as H.
  destruct (fold_left Waste.addInput (waste_inputs s) (0, 0, 0, 0))
    as [[[a b] c] d].
  destruct H as (Ha & Hb & Hc & _).
  cbn [WasteData.totalWeight WasteData.totalPoints WasteData.totalCO2].
  unfold Waste.getWasteTypeBreakdown in *.
  rewrite fold_breakdown in * by (try exact Hnd; intros k _ []).
  cbn [app] in *. unfold entryWeights. rewrite !map_map.
  cbn [snd Entry.weight Entry.points Entry.co2_saved].
  repeat split.
  - rewrite Ha.
    change (fun x : string * Q => snd x) with (@snd string Q). lra.
  - rewrite Hb.
    rewrite (map_ext
               (fun x : string * Q =>
                  Utils.calculateWastePoints (fst x) (snd x))
               (fun e => Spec.points (Spec.valueOf e))).
    + lra.
    + intros [t w]. apply calculateWastePoints_valueOf.
  - rewrite Hc.
    rewrite (map_ext
               (fun x : string * Q =>
                  Utils.calculateCO2Saved (fst x) (snd x))
               (fun e => Spec.emissionsAvoided (Spec.valueOf e))).
    + lra.
    + intros [t w]. apply calculateCO2Saved_valueOf.
  - exact Hpos.
Qed.

End Statistics.

(** ** The account store (src/app.js) *)

Section Accounts.

(** What [saveDemoUser] does with an identifier the store knows and
    with one it does not. *)
Lemma saveDemoUser_cases (users : list User.t) (user : User.t) :
  (exists (l1 l2 : list User.t) (old : User.t),
      users = l1 ++ old :: l2 /\
      User.id old = User.id user /\
      (forall v, In v l1 -> User.id v <> User.id user) /\
      Auth.saveDemoUser users user = l1 ++ user :: l2) \/
  ((forall v, In v users -> User.id v <> User.id user) /\
   Auth.saveDemoUser users user = users ++ [user]).
Proof.
  unfold Auth.saveDemoUser.
  destruct (find (fun v => String.eqb (User.id v) (User.id user)) users)
    as [old |] eqn:Hf.
  - left. destruct (find_findIndex _ _ _ Hf)
      as (i & l1 & l2 & Hl & Hl1 & Hold & Hi & _ & Hset).
    exists l1, l2, old. rewrite Hi, Hset.
    split; [exact Hl |]. split; [apply String.eqb_eq; exact Hold |].
    split; [| reflexivity].
    intros v Hv. apply String.eqb_neq. exact (Hl1 v Hv).
  - right. rewrite findIndex_None.
    + split; [| reflexivity].
      intros v Hv. apply String.eqb_neq. exact (find_none _ _ Hf v Hv).
    + intros v Hv. exact (find_none _ _ Hf v Hv).
Qed.

Lemma find_first {A : Type} (p : A -> bool) (l1 l2 : list A) (x : A) :
  (forall y, In y l1 -> p y = false) -> p x = true ->
  find p (l1 ++ x :: l2) = Some x.
Proof.
  intros H1 Hx. induction l1 as [| y l1 IH]; cbn [app find].
  - rewrite Hx. reflexivity.
  - rewrite (H1 y) by (left; reflexivity).
    apply IH. intros z Hz. apply H1. right. exact Hz.
Qed.

Lemma saveDemoUser_find (users : list User.t) (user : User.t) :
  find (fun v => String.eqb (User.id v) (User.id user))
       (Auth.saveDemoUser users user) = Some user.
Proof.
  destruct (saveDemoUser_cases users user)
    as [(l1 & l2 & old & _ & _ & Hl1 & ->) | (Hno & ->)].
  - apply find_first; [| apply String.eqb_refl].
    intros y Hy. apply String.eqb_neq. exact (Hl1 y Hy).
  - apply find_first; [| apply String.eqb_refl].
    intros y Hy. apply String.eqb_neq. exact (Hno y Hy).
Qed.

Lemma findIndex_first {A : Type} (p : A -> bool) (l1 l2 : list A) (x : A) :
  (forall y, In y l1 -> p y = false) -> p x = true ->
  JS.findIndex p (l1 ++ x :: l2) = Some (List.length l1) /\
  forall v, JS.set_nth (List.length l1) v (l1 ++ x :: l2) = l1 ++ v :: l2.
Proof.
  intros H1 Hx. induction l1 as [| y l1 IH];
    cbn [app JS.findIndex JS.set_nth List.length].
  - rewrite Hx. split; reflexivity.
  - rewrite (H1 y) by (left; reflexivity).
    destruct IH as [IH1 IH2]; [intros z Hz; apply H1; right; exact Hz |].
    rewrite IH1. split; [reflexivity |].
    intros v. rewrite IH2. reflexivity.
Qed.

(** Saving over the first account with the identifier. *)
Lemma saveDemoUser_at (l1 l2 : list User.t) (old user : User.t) :
  (forall v, In v l1 -> User.id v <> User.id user) ->
  User.id old = User.id user ->
  Auth.saveDemoUser (l1 ++ old :: l2) user = l1 ++ user :: l2.
Proof.
  intros Hl1 Hold. unfold Auth.saveDemoUser.
  destruct (findIndex_first
              (fun v => String.eqb (User.id v) (User.id user)) l1 l2 old)
    as [Hi Hset].
  - intros y Hy. apply String.eqb_neq. exact (Hl1 y Hy).
  - apply String.eqb_eq. exact Hold.
  - rewrite Hi. apply Hset.
Qed.

Lemma saveDemoUser_again (users : list User.t) (user : User.t) :
  Auth.saveDemoUser (Auth.saveDemoUser users user) user
  = Auth.saveDemoUser users user.
Proof.
  destruct (saveDemoUser_cases users user)
    as [(l1 & l2 & old & _ & _ & Hl1 & ->) | (Hno & ->)].
  - apply saveDemoUser_at; [exact Hl1 | reflexivity].
  - apply (saveDemoUser_at users [] user user); [exact Hno | reflexivity].
Qed.

(** X19.  After [saveDemoUser], looking the identifier up in the store
    gives the account just saved.  The store keeps its length when it
    knew the identifier and grows by one when it did not; accounts
    with another identifier stay, and nothing else comes in.  Saving
    the same account twice is saving it once. *)
Theorem saveDemoUser_then_lookup (users : list User.t) (user : User.t) :
  let users' := Auth.saveDemoUser users user in
  find (fun v => String.eqb (User.id v) (User.id user)) users' = Some user /\
  ((exists v, In v users /\ User.id v = User.id user) ->
   List.length users' = List.length users) /\
  ((forall v, In v users -> User.id v <> User.id user) ->
   users' = users ++ [user]) /\
  (forall v, In v users -> User.id v <> User.id user -> In v users') /\
  (forall v, In v users' -> v = user \/ In v users) /\
  Auth.saveDemoUser users' user = users'.
Proof.
  intros users'. subst users'.
  split; [apply saveDemoUser_find |].
  split; [| split; [| split; [| split; [| apply saveDemoUser_again]]]].
  - intros (v & Hv & Hid).
    destruct (saveDemoUser_cases users user)
      as [(l1 & l2 & old & -> & _ & _ & ->) | (Hno & _)].
    + rewrite !length_app. reflexivity.
    + exfalso. exact (Hno v Hv Hid).
  - intros Hno.
    destruct (saveDemoUser_cases users user)
      as [(l1 & l2 & old & -> & Hold & _ & _) | (_ & E)]; [| exact E].
    exfalso. apply (Hno old); [| exact Hold].
    apply in_or_app. right. left. reflexivity.
  - intros v Hv Hne.
    destruct (saveDemoUser_cases users user)
      as [(l1 & l2 & old & -> & Hold & _ & ->) | (_ & ->)].
    + apply in_app_or in Hv. apply in_or_app.
      destruct Hv as [Hv | [Hv | Hv]].
      * left. exact Hv.
      * subst v. congruence.
      * right. right. exact Hv.
    + apply in_or_app. left. exact Hv.
  - intros v Hv.
    destruct (saveDemoUser_cases users user)
      as [(l1 & l2 & old & -> & _ & _ & E) | (_ & E)]; rewrite E in Hv.
    + apply in_app_or in Hv. destruct Hv as [Hv | [Hv | Hv]].
      * right. apply in_or_app. left. exact Hv.
      * left. symmetry. exact Hv.
      * right. apply in_or_app. right. right. exact Hv.
    + apply in_app_or in Hv. destruct Hv as [Hv | [Hv | []]].
      * right. exact Hv.
      * left. symmetry. exact Hv.
Qed.

Lemma assign_any_again (u : User.t) (p : Patch.t) :
  Auth.assign_any (Auth.assign_any u p) p = Auth.assign_any u p.
Proof.
  destruct p as [[i |] [e |] [n |] [ph |] [a |] [t |]
                 [pt |] [c |] [ea |] [j |]]; reflexivity.
Qed.

Lemma updateUser_any_again (s : State) (p : Patch.t) :
  Auth.updateUser_any (Auth.updateUser_any s p) p = Auth.updateUser_any s p.
Proof.
  unfold Auth.updateUser_any at 2 3.
  destruct (currentUser s) as [u |] eqn:Hu.
  - cbv zeta. unfold Auth.updateUser_any. cbn [currentUser]. cbv zeta.
    rewrite !assign_any_again.
    cbn [wasteData waste_inputs user_submissions pickup_requests
         vangariwala_users].
    destruct (Auth.includes_at (User.email (Auth.assign_any u p))).
    + reflexivity.
    + rewrite saveDemoUser_again. reflexivity.
  - unfold Auth.updateUser_any. rewrite Hu. reflexivity.
Qed.

Lemma assign_any_ofUpdates (u : User.t) (up : Updates.t) :
  Auth.assign_any u (Patch.ofUpdates up) = Auth.assign u up.
Proof. reflexivity. Qed.

(** X20.  [updateUser] does nothing when nobody is logged in.
    Otherwise the stored session is the current user afterwards; every
    field of the user takes the value given for its key and keeps its
    own when none is given, the profile fields as well as the ledger
    fields; the account goes to the store of accounts exactly when its
    email, as updated, has no [@]; requests, submissions and the form
    are untouched; and applying the same update again changes nothing
    more.  On the ledger keys alone it is the update the engine
    makes. *)
Theorem updateUser_keeps_session_in_step (s : State) (p : Patch.t) :
  let s' := Auth.updateUser_any s p in
  (currentUser s = None -> s' = s) /\
  (forall u : User.t,
      currentUser s = Some u ->
      exists u' : User.t,
        currentUser s' = Some u' /\
        vangariwala_session s' = Some u' /\
        (forall v, Patch.id p = Some v -> User.id u' = v) /\
        (Patch.id p = None -> User.id u' = User.id u) /\
        (forall v, Patch.email p = Some v -> User.email u' = v) /\
        (Patch.email p = None -> User.email u' = User.email u) /\
        (forall v, Patch.name p = Some v -> User.name u' = v) /\
        (Patch.name p = None -> User.name u' = User.name u) /\
        (forall v, Patch.phone p = Some v -> User.phone u' = v) /\
        (Patch.phone p = None -> User.phone u' = User.phone u) /\
        (forall v, Patch.address p = Some v -> User.address u' = v) /\
        (Patch.address p = None -> User.address u' = User.address u) /\
        (forall v, Patch.user_type p = Some v -> User.user_type u' = v) /\
        (Patch.user_type p = None -> User.user_type u' = User.user_type u) /\
        (forall q, Patch.points p = Some q -> User.points u' = Some q) /\
        (Patch.points p = None -> User.points u' = User.points u) /\
        (forall q, Patch.co2_saved p = Some q -> User.co2_saved u' = Some q) /\
        (Patch.co2_saved p = None -> User.co2_saved u' = User.co2_saved u) /\
        (forall q, Patch.earnings p = Some q -> User.earnings u' = Some q) /\
        (Patch.earnings p = None -> User.earnings u' = User.earnings u) /\
        (forall q, Patch.jobs_today p = Some q ->
                   User.jobs_today u' = Some q) /\
        (Patch.jobs_today p = None ->
         User.jobs_today u' = User.jobs_today u) /\
        (Auth.includes_at (User.email u') = true ->
         vangariwala_users s' = vangariwala_users s) /\
        (Auth.includes_at (User.email u') = false ->
         find (fun v => String.eqb (User.id v) (User.id u'))
              (vangariwala_users s') = Some u')) /\
  pickup_requests s' = pickup_requests s /\
  user_submissions s' = user_submissions s /\
  wasteData s' = wasteData s /\
  waste_inputs s' = waste_inputs s /\
  Auth.updateUser_any s' p = s' /\
  (forall up : Updates.t,
      Auth.updateUser_any s (Patch.ofUpdates up) = Auth.updateUser s up).
Proof.
  intros s'.
  pose proof (updateUser_any_again s p
              : Auth.updateUser_any s' p = s') as Hagain.
  split; [| split; [| split; [| split; [| split; [| split;
    [| split; [exact Hagain | reflexivity]]]]]]];
    clear Hagain; subst s'; unfold Auth.updateUser_any;
    destruct (currentUser s) as [u |] eqn:Hu;
    try reflexivity; try discriminate.
  intros u0 E. injection E as <-. eexists.
  cbn [currentUser vangariwala_session vangariwala_users].
  split; [reflexivity |]. split; [reflexivity |].
  do 20 (split; [destruct p as [i e n ph a t pt c ea j];
                 cbn; intros; subst; reflexivity |]).
  split; intros Hat; rewrite Hat; [reflexivity | apply saveDemoUser_find].
Qed.

Lemma handleWasteSubmission_users (s : State) (sid rid : string)
    (date created_at : Z) (u : User.t) :
  currentUser s = Some u ->
  vangariwala_users (fst (Waste.handleWasteSubmission s sid rid date created_at))
  = vangariwala_users s \/
  (Auth.includes_at (User.email u) = false /\
   exists u', User.id u' = User.id u /\
     vangariwala_users
       (fst (Waste.handleWasteSubmission s sid rid date created_at))
     = Auth.saveDemoUser (vangariwala_users s) u').
Proof.
  intros Hu. unfold Waste.handleWasteSubmission, Auth.getCurrentUser.
  rewrite Hu. destruct (Waste.strict_eq _ 0); [left; reflexivity |].
  cbv zeta. cbn [fst]. unfold Auth.updateUser. cbn [currentUser].
  unfold Waste.createPickupRequest, Auth.getCurrentUser. cbn [currentUser].
  unfold Waste.resetWasteForm, Waste.updateWasteSummary.
  cbn [vangariwala_users Auth.assign User.email].
  destruct (Auth.includes_at (User.email u)); [left; reflexivity |].
  right. split; [reflexivity |]. eexists. split; [| reflexivity]. reflexivity.
Qed.

(** X21.  For an account whose email contains [@], which is every
    account whose sign-up form was valid, no profile update,
    submission or acceptance ever writes to the store of accounts, and
    [checkExistingSession] does not take the stored session up.  For
    an account whose email contains none, a profile update leaves the
    updated account in the store under its identifier. *)
Theorem credits_reach_the_account_store_only_without_at :
  (forall data : SignupData.t,
      Validation.isValid (Auth.validateSignupData data) = true ->
      Auth.includes_at (SignupData.email data) = true) /\
  (forall (s : State) (u : User.t),
      currentUser s = Some u ->
      Auth.includes_at (User.email u) = true ->
      (forall up, vangariwala_users (Auth.updateUser s up)
                  = vangariwala_users s) /\
      (forall sid rid date created_at,
          vangariwala_users
            (fst (Waste.handleWasteSubmission s sid rid date created_at))
          = vangariwala_users s) /\
      (forall requestId now,
          vangariwala_users (fst (Waste.acceptPickupRequest s requestId now))
          = vangariwala_users s)) /\
  (forall (s : State) (u : User.t),
      vangariwala_session s = Some u ->
      Auth.includes_at (User.email u) = true ->
      Auth.checkExistingSession s = s) /\
  (forall (s : State) (u : User.t) (up : Updates.t),
      currentUser s = Some u ->
      Auth.includes_at (User.email u) = false ->
      find (fun v => String.eqb (User.id v) (User.id u))
           (vangariwala_users (Auth.updateUser s up))
      = Some (Auth.assign u up)).
Proof.
  split; [| split; [| split]].
  - intros data Hv.
    destruct (validateSignupData_decides data) as (_ & _ & H). exact (H Hv).
  - intros s u Hu Hat. split; [| split].
    + intros up. unfold Auth.updateUser. rewrite Hu.
      cbn [vangariwala_users Auth.assign User.email]. rewrite Hat. reflexivity.
    + intros sid rid date created_at.
      destruct (handleWasteSubmission_users s sid rid date created_at u Hu)
        as [E | [E _]]; [exact E | congruence].
    + intros requestId now.
      destruct (acceptPickupRequest_effect s requestId now)
        as [E | (u0 & l1 & l2 & r & Hu0 & _ & _ & E)].
      * rewrite E. reflexivity.
      * assert (u0 = u) by congruence. subst u0.
        rewrite E. cbv zeta. cbn [fst vangariwala_users Auth.assign User.email].
        rewrite Hat. reflexivity.
  - intros s u Hs Hat. unfold Auth.checkExistingSession.
    rewrite Hs, Hat. rewrite andb_false_r. reflexivity.
  - intros s u up Hu Hat. unfold Auth.updateUser. rewrite Hu.
    cbn [vangariwala_users Auth.assign User.email]. rewrite Hat.
    exact (saveDemoUser_find (vangariwala_users s) (Auth.assign u up)).
Qed.

(** X22.  After [logout] nothing can be written before somebody logs
    in again: a submission is refused with the log-in message, an
    acceptance with the collectors-only message, a profile update and
    a request creation do nothing, there are no statistics, and the
    removed session cannot be taken up; logging out itself leaves the
    submissions, the requests and the accounts as they are. *)
Theorem logout_closes_the_engine (s : State) :
  let s' := Auth.logout s in
  (forall sid rid date created_at,
      Waste.handleWasteSubmission s' sid rid date created_at
      = (s', PleaseLogIn)) /\
  (forall requestId now,
      Waste.acceptPickupRequest s' requestId now = (s', OnlyCollectors)) /\
  (forall up, Auth.updateUser s' up = s') /\
  (forall sub rid now, Waste.createPickupRequest s' sub rid now = s') /\
  Waste.getWasteStatistics s' = None /\
  Auth.checkExistingSession s' = s' /\
  user_submissions s' = user_submissions s /\
  pickup_requests s' = pickup_requests s /\
  vangariwala_users s' = vangariwala_users s.
Proof.
  intros s'. subst s'. repeat split.
Qed.

End Accounts.

(** ** The further properties at the demo data *)

Section FurtherDemoChecks.

Lemma demo_inputs_NoDup : NoDup (map fst Demo.inputs).
Proof.
  unfold Demo.inputs. cbn [map fst].
  repeat (apply NoDup_cons;
          [cbn [In]; intros H;
           repeat (destruct H as [H | H]; [discriminate H|]); exact H |]).
  apply NoDup_nil.
Qed.

Lemma demo_cache_NoDup : NoDup Demo.cache.
Proof.
  unfold Demo.cache.
  repeat (apply NoDup_cons;
          [cbn [In]; intros H;
           repeat (destruct H as [H | H]; [discriminate H|]); exact H |]).
  apply NoDup_nil.
Qed.

Lemma demo_requests_nonneg :
  Forall (fun r => 0 <= Request.estimated_value r)
         (pickup_requests Demo.collector_session).
Proof.
  unfold Demo.collector_session. cbn [pickup_requests].
  repeat (apply Forall_cons; [vm_compute; discriminate |]).
  apply Forall_nil.
Qed.

(** The phone number of the demo household has eleven characters. *)
Lemma validatePhone_format_witness :
  Utils.validatePhone "01712345678" = true /\
  (String.length "01712345678" = 11%nat \/
   String.length "01712345678" = 14%nat).
Proof.
  assert (H : Utils.validatePhone "01712345678" = true) by reflexivity.
  split; [exact H |].
  exact (proj2 (validatePhone_format "01712345678") H).
Defined.

(** The email of the demo household. *)
Lemma validateEmail_format_witness :
  Utils.validateEmail "test@example.com" = true /\
  Auth.includes_at "test@example.com" = true /\
  ~ In " "%char (list_ascii_of_string "test@example.com").
Proof.
  assert (H : Utils.validateEmail "test@example.com" = true) by reflexivity.
  split; [exact H |].
  exact (proj2 (validateEmail_format "test@example.com") H).
Defined.

(** The demo password is valid and has no error; [demo] is not valid
    and has one. *)
Lemma validatePassword_valid_iff_witness :
  (Validation.isValid (Utils.validatePassword "demo123") = true /\
   Validation.errors (Utils.validatePassword "demo123") = []) /\
  (Validation.isValid (Utils.validatePassword "demo") = false /\
   exists e rest,
     Validation.errors (Utils.validatePassword "demo") = e :: rest).
Proof.
  assert (Hv : Validation.isValid (Utils.validatePassword "demo123") = true)
    by reflexivity.
  assert (Hn : Validation.isValid (Utils.validatePassword "demo") = false)
    by reflexivity.
  split; split.
  - exact Hv.
  - exact (proj1 (proj1 (validatePassword_valid_iff "demo123")) Hv).
  - exact Hn.
  - exact (proj2 (proj2 (proj2 (validatePassword_valid_iff "demo"))) Hn).
Defined.

(** The sign-up form of the demo household is valid. *)
Lemma validateSignupData_valid_iff_witness :
  Validation.isValid (Auth.validateSignupData Demo.signup) = true /\
  Validation.errors (Auth.validateSignupData Demo.signup) = [] /\
  Auth.includes_at (SignupData.email Demo.signup) = true.
Proof.
  assert (Hv : Validation.isValid (Auth.validateSignupData Demo.signup) = true)
    by reflexivity.
  split; [exact Hv |]. split.
  - exact (proj1 (proj1 (validateSignupData_valid_iff Demo.signup)) Hv).
  - exact (proj2 (proj2 (validateSignupData_valid_iff Demo.signup)) Hv).
Defined.

(** The ampersand of an escaped tag. *)
Lemma sanitizeInput_no_markup_witness :
  In "&"%char (list_ascii_of_string (Utils.sanitizeInput "<b>")) /\
  "&"%char <> "<"%char.
Proof.
  assert (H : In "&"%char (list_ascii_of_string (Utils.sanitizeInput "<b>")))
    by (left; reflexivity).
  split; [exact H |].
  exact (proj1 (sanitizeInput_no_markup "<b>" "&" H)).
Defined.

(** A tag and its escaped form are sanitized to different texts. *)
Lemma sanitizeInput_injective_witness :
  (Utils.sanitizeInput "a/b" = Utils.sanitizeInput "a/b" /\ "a/b" = "a/b") /\
  Utils.sanitizeInput "<" <> Utils.sanitizeInput "&lt;".
Proof.
  split.
  - split; [reflexivity |].
    exact (proj2 sanitizeInput_injective "a/b" "a/b" eq_refl).
  - intros E.
    pose proof (proj2 sanitizeInput_injective "<" "&lt;" E) as H.
    discriminate H.
Defined.

(** A date 200 seconds old. *)
Lemma getRelativeTime_buckets_witness :
  (60000 <= 200000 - 0 < 3600000)%Z /\
  Utils.getRelativeTime 200000 0 = Utils.Text "3 minutes ago".
Proof.
  assert (H : (60000 <= 200000 - 0 < 3600000)%Z) by lia.
  split; [exact H |].
  exact (proj2 (proj1 (proj2 (getRelativeTime_buckets 200000 0)) H)).
Defined.

(** The cache of three requests cut to two and to three. *)
Lemma limitCacheSize_keeps_newest_witness :
  NoDup Demo.cache /\
  ServiceWorker.limitCacheSize Demo.cache 2 = ["/index.html"; "/app.js"] /\
  ServiceWorker.limitCacheSize Demo.cache 3 = Demo.cache.
Proof.
  split; [exact demo_cache_NoDup |]. split.
  - exact (proj1 (limitCacheSize_keeps_newest Demo.cache 2 demo_cache_NoDup)).
  - exact (proj2 (proj2 (limitCacheSize_keeps_newest Demo.cache 3
                           demo_cache_NoDup)) (le_n 3)).
Defined.

(** The demo household with plastic and paper filled in. *)
Lemma submission_needs_login_and_weight_witness :
  currentUser Demo.household_session = Some Demo.HOUSEHOLD /\
  Spec.positive (waste_inputs Demo.household_session) <> [] /\
  snd (Waste.handleWasteSubmission
         (Waste.updateWasteSummary Demo.household_session) "s1" "q1" 100 101)
  = WasteSubmitted.
Proof.
  assert (Hne : Spec.positive (waste_inputs Demo.household_session) <> [])
    by discriminate.
  split; [reflexivity |]. split; [exact Hne |].
  exact (proj2 (proj2 (submission_needs_login_and_weight
                         Demo.household_session "s1" "q1" 100%Z 101%Z)
                      Demo.HOUSEHOLD eq_refl) Hne).
Defined.

(** The demo household submits twice in a row. *)
Lemma second_submission_refused_witness :
  snd (Waste.handleWasteSubmission Demo.household_session "s1" "q1" 100 101)
    = WasteSubmitted /\
  Waste.handleWasteSubmission Demo.submitted_session "s2" "q2" 200 201
    = (Demo.submitted_session, PleaseEnterAmounts).
Proof.
  assert (Hok : snd (Waste.handleWasteSubmission Demo.household_session
                       "s1" "q1" 100 101) = WasteSubmitted) by reflexivity.
  split; [exact Hok |].
  exact (proj2 (proj2 (second_submission_refused Demo.household_session
                         "s1" "q1" 100%Z 101%Z Hok))
               "s2" "q2" 200%Z 201%Z).
Defined.

(** The demo household's points and savings after its submission. *)
Lemma household_ledger_never_decreases_witness :
  currentUser Demo.household_session = Some Demo.HOUSEHOLD /\
  Spec.twoDecimals (JS.or0 (User.co2_saved Demo.HOUSEHOLD)) /\
  exists u' : User.t,
    currentUser
      (fst (Waste.handleWasteSubmission
              (Waste.updateWasteSummary Demo.household_session)
              "s1" "q1" 100 101)) = Some u' /\
    JS.or0 (User.points Demo.HOUSEHOLD) <= JS.or0 (User.points u') /\
    JS.or0 (User.co2_saved Demo.HOUSEHOLD) <= JS.or0 (User.co2_saved u').
Proof.
  assert (Htwo : Spec.twoDecimals (JS.or0 (User.co2_saved Demo.HOUSEHOLD)))
    by (exists 2550%Z; reflexivity).
  split; [reflexivity |]. split; [exact Htwo |].
  destruct (proj2 household_ledger_never_decreases Demo.household_session
              "s1" "q1" 100%Z 101%Z Demo.HOUSEHOLD eq_refl eq_refl)
    as (u' & Hu' & Hp & Hc).
  exists u'. split; [exact Hu' |]. split; [exact Hp | exact (Hc Htwo)].
Defined.

(** The collector accepts [r1]: [r2] stays where and as it was. *)
Lemma accept_keeps_the_store_witness :
  nth_error (pickup_requests Demo.collector_session) 1
    = Some (Demo.request "r2" 12 2000) /\
  nth_error (pickup_requests Demo.accepted_session) 1
    = Some (Demo.request "r2" 12 2000).
Proof.
  assert (H : nth_error (pickup_requests Demo.collector_session) 1
              = Some (Demo.request "r2" 12 2000)) by reflexivity.
  split; [exact H |].
  destruct (proj2 (proj2 (accept_keeps_the_store Demo.collector_session
                            "r1" 3000%Z))
                  1%nat (Demo.request "r2" 12 2000) H)
    as (r' & Hn & _ & _ & _ & _ & _ & _ & _ & _ & Hsame).
  rewrite <- (Hsame ltac:(discriminate)). exact Hn.
Defined.

(** The collector accepts the pending [r1]: the listing is one
    shorter. *)
Lemma accept_takes_request_off_the_listing_witness :
  find (fun x => String.eqb (Request.id x) "r1")
       (pickup_requests Demo.collector_session)
    = Some (Demo.request "r1" 7 1000) /\
  Request.status (Demo.request "r1" 7 1000) = pending /\
  List.length (Waste.loadPickupRequests Demo.collector_session)
    = S (List.length (Waste.loadPickupRequests Demo.accepted_session)).
Proof.
  split; [reflexivity |]. split; [reflexivity |].
  exact (proj2 (proj1 (accept_takes_request_off_the_listing
                         Demo.collector_session Demo.COLLECTOR "r1" 3000%Z
                         eq_refl eq_refl (Demo.request "r1" 7 1000) eq_refl)
                      eq_refl)).
Defined.

(** The collector's earnings and jobs after accepting [r1]. *)
Lemma collector_earnings_never_decrease_witness :
  Forall (fun r => 0 <= Request.estimated_value r)
         (pickup_requests Demo.collector_session) /\
  JS.or0 (User.earnings Demo.COLLECTOR)
    <= JS.or0 (User.earnings Demo.COLLECTOR_after_r1) /\
  JS.or0 (User.jobs_today Demo.COLLECTOR)
    <= JS.or0 (User.jobs_today Demo.COLLECTOR_after_r1).
Proof.
  split; [exact demo_requests_nonneg |].
  exact (proj2 (proj2 (proj2 collector_earnings_never_decrease)
                  Demo.collector_session "r1" 3000%Z demo_requests_nonneg)
               Demo.COLLECTOR Demo.COLLECTOR_after_r1 eq_refl eq_refl).
Defined.

(** 12 kg against 7 kg, and the later, heavier [r2] against [r1]. *)
Lemma calculatePriority_monotone_witness :
  (7 <= 12 /\
   (Waste.priorityOrder (Waste.calculatePriority 7)
    <= Waste.priorityOrder (Waste.calculatePriority 12))%Z) /\
  (Waste.compareRequests (Demo.request "r2" 12 2000)
                         (Demo.request "r1" 7 1000) <= 0)%Z.
Proof.
  assert (H : 7 <= 12) by discriminate.
  split.
  - split; [exact H |].
    exact (proj1 calculatePriority_monotone 7 12 H).
  - apply (proj2 calculatePriority_monotone
             (Demo.request "r2" 12 2000) (Demo.request "r1" 7 1000)).
    + reflexivity.
    + reflexivity.
    + exact H.
    + discriminate.
Defined.


(** The demo household's statistics before and after its submission. *)
Lemma statistics_follow_submissions_witness :
  snd (Waste.handleWasteSubmission Demo.household_session "s1" "q1" 100 101)
    = WasteSubmitted /\
  exists st st' : Stats.t,
    Waste.getWasteStatistics Demo.household_session = Some st /\
    Waste.getWasteStatistics Demo.submitted_session = Some st' /\
    Stats.total_submissions st' = S (Stats.total_submissions st) /\
    Stats.total_weight st'
      == Stats.total_weight st
         + WasteData.totalWeight (wasteData Demo.household_session).
Proof.
  assert (Hok : snd (Waste.handleWasteSubmission Demo.household_session
                       "s1" "q1" 100 101) = WasteSubmitted) by reflexivity.
  split; [exact Hok |].
  destruct (proj1 statistics_follow_submissions Demo.household_session
              "s1" "q1" 100%Z 101%Z Hok)
    as (st & st' & _ & _ & Hst & Hst' & _ & _ & Hn & Hw & _).
  exists st, st'.
  split; [exact Hst |]. split; [exact Hst' |]. split; [exact Hn | exact Hw].
Defined.

(** The submission the demo household stores. *)
Lemma stored_submission_adds_up_witness :
  NoDup (map fst (waste_inputs Demo.household_session)) /\
  snd (Waste.handleWasteSubmission
         (Waste.updateWasteSummary Demo.household_session) "s1" "q1" 100 101)
    = WasteSubmitted /\
  exists sub : Submission.t,
    user_submissions
      (fst (Waste.handleWasteSubmission
              (Waste.updateWasteSummary Demo.household_session)
              "s1" "q1" 100 101)) = [sub] /\
    Submission.total_weight sub
      == Reading.entryWeights (Submission.waste_types sub).
Proof.
  assert (Hok : snd (Waste.handleWasteSubmission
                       (Waste.updateWasteSummary Demo.household_session)
                       "s1" "q1" 100 101) = WasteSubmitted) by reflexivity.
  split; [exact demo_inputs_NoDup |]. split; [exact Hok |].
  destruct (stored_submission_adds_up Demo.household_session
              "s1" "q1" 100%Z 101%Z demo_inputs_NoDup Hok)
    as (sub & Hsubs & _ & Hw & _).
  exists sub. split; [exact Hsubs | exact Hw].
Defined.

(** The collector's account after [r1] saved over the stored one. *)
Lemma saveDemoUser_then_lookup_witness :
  (exists v, In v [Demo.HOUSEHOLD; Demo.COLLECTOR] /\
             User.id v = User.id Demo.COLLECTOR_after_r1) /\
  List.length (Auth.saveDemoUser [Demo.HOUSEHOLD; Demo.COLLECTOR]
                                 Demo.COLLECTOR_after_r1) = 2%nat.
Proof.
  assert (H : exists v, In v [Demo.HOUSEHOLD; Demo.COLLECTOR] /\
                        User.id v = User.id Demo.COLLECTOR_after_r1).
  { exists Demo.COLLECTOR. split; [right; left; reflexivity | reflexivity]. }
  split; [exact H |].
  exact (proj1 (proj2 (saveDemoUser_then_lookup
                         [Demo.HOUSEHOLD; Demo.COLLECTOR]
                         Demo.COLLECTOR_after_r1)) H).
Defined.

(** The demo household edits its profile: name, phone and address
    change, the email and the points stay, and the account, whose
    email has an [@], does not go to the store. *)
Lemma updateUser_keeps_session_in_step_witness :
  currentUser Demo.household_session = Some Demo.HOUSEHOLD /\
  exists u' : User.t,
    currentUser (Auth.updateUser_any Demo.household_session Demo.profile_edit)
      = Some u' /\
    vangariwala_session
      (Auth.updateUser_any Demo.household_session Demo.profile_edit)
      = Some u' /\
    User.name u' = "Rahul A." /\
    User.phone u' = "01812345678" /\
    User.address u' = "Mirpur 10, Dhaka" /\
    User.email u' = "test@example.com" /\
    User.points u' = Some 150 /\
    vangariwala_users
      (Auth.updateUser_any Demo.household_session Demo.profile_edit)
      = vangariwala_users Demo.household_session.
Proof.
  split; [reflexivity |].
  pose proof (updateUser_keeps_session_in_step Demo.household_session
                Demo.profile_edit) as H.
  cbv zeta in H.
  destruct (proj1 (proj2 H) Demo.HOUSEHOLD eq_refl)
    as (u' & Hu' & Hs' & _ & _ & _ & He & Hn & _ & Hph & _ & Ha & _
        & _ & _ & _ & Hp & _ & _ & _ & _ & _ & _ & Hat & _).
  exists u'. split; [exact Hu' |]. split; [exact Hs' |].
  split; [exact (Hn _ eq_refl) |]. split; [exact (Hph _ eq_refl) |].
  split; [exact (Ha _ eq_refl) |].
  pose proof (He eq_refl) as Hemail.
  split; [exact Hemail |]. split; [exact (Hp eq_refl) |].
  apply Hat. rewrite Hemail. reflexivity.
Defined.

(** The demo household's email contains [@]: its submission leaves the
    store of accounts alone. *)
Lemma credits_reach_the_account_store_only_without_at_witness :
  currentUser Demo.household_session = Some Demo.HOUSEHOLD /\
  Auth.includes_at (User.email Demo.HOUSEHOLD) = true /\
  vangariwala_users Demo.submitted_session
    = vangariwala_users Demo.household_session.
Proof.
  split; [reflexivity |]. split; [reflexivity |].
  exact (proj1 (proj2 (proj1 (proj2
           credits_reach_the_account_store_only_without_at)
           Demo.household_session Demo.HOUSEHOLD eq_refl eq_refl))
           "s1" "q1" 100%Z 101%Z).
Defined.

End FurtherDemoChecks.
